(** * go-twitch: a shallow embedding of the Helix client and its properties

    The development follows the Go sources file by file:
    - [timestamp.go]: [Timestamp.UnmarshalJSON];
    - [client.go]: [addParams], [NewRequest], [NewResponse], [parseRate],
      [isSuccess], [Client.Do], and [NewClient] with the clients that
      the OAuth2 packages build as parameters;
    - [users.go]: [UsersOptions], [UsersService.GetUsers];
    - the streams service: [StreamsOptions], [BroadcasterID],
      [StreamKeyResponse], [StreamsService.GetStreamKey], and the two
      listings [GetStreams] and [GetFollowedStreams] with [Stream] and
      [StreamsResponse].

    Go values are modelled as follows.  A [string] and a [[]byte] are a
    [string] of 8-bit characters.  [int] and [int64] are [Z], with the
    64-bit wrap-around written where the code computes.  A slice is an
    [option (list A)]: [None] is the nil slice, [Some []] the empty one.
    A pointer that may be nil is an [option].  An [error] is a value of
    the inductive type [error]; the absence of an error is [None].  A
    call that hands a request to the transport records it on a wire that
    is passed along.  Functions of the Go standard library and of
    go-querystring that the sources call are modelled under the names
    the Go code uses; where Rocq has the name already, an underscore
    follows it. *)

From Stdlib Require Import ZArith Lia Ascii String List Bool.
From stdpp Require Import base option list strings gmap sorting.

Local Open Scope string_scope.
Local Open Scope Z_scope.

(* ================================================================== *)
(** * Part I: definitions *)
(* ================================================================== *)

(** ** Machine integers *)

Module Int.

Definition two63 : Z := 9223372036854775808.
Definition two64 : Z := 18446744073709551616.

Definition minInt64 : Z := - two63.
Definition maxInt64 : Z := two63 - 1.
Definition maxUint64 : Z := two64 - 1.

(** The value an [int64] holds after an arithmetic result [z]. *)
Definition wrap64 (z : Z) : Z := (z + two63) mod two64 - two63.

(** The value a [uint64] holds after an arithmetic result [z]. *)
Definition wrapU64 (z : Z) : Z := z mod two64.

Definition inInt64 (z : Z) : Prop := minInt64 <= z <= maxInt64.

End Int.

(** ** Bytes and strings *)

Module Strings.

Definition byte (c : ascii) : Z := Z.of_N (N_of_ascii c).

(** The byte 34, the double quote. *)
Abbreviation quote := (Ascii false true false false false true false false).

Definition isDigitByte (c : ascii) : bool :=
  (48 <=? byte c) && (byte c <=? 57).

Definition isLower (c : ascii) : bool := (97 <=? byte c) && (byte c <=? 122).
Definition isUpper (c : ascii) : bool := (65 <=? byte c) && (byte c <=? 90).
Definition isLetter (c : ascii) : bool := isLower c || isUpper c.

Definition digitVal (c : ascii) : Z := byte c - 48.

(** [s[n:]] for [n <= len(s)]. *)
Fixpoint drop (n : nat) (s : string) : string :=
  match n, s with
  | O, _ => s
  | S n', String _ s' => drop n' s'
  | S _, EmptyString => EmptyString
  end.

(** [s[:n]] for [n <= len(s)]. *)
Fixpoint take (n : nat) (s : string) : string :=
  match n, s with
  | O, _ => EmptyString
  | S n', String c s' => String c (take n' s')
  | S _, EmptyString => EmptyString
  end.

(** [strings.HasPrefix]. *)
Fixpoint HasPrefix (s p : string) : bool :=
  match p, s with
  | EmptyString, _ => true
  | String a p', String b s' => Ascii.eqb a b && HasPrefix s' p'
  | String _ _, EmptyString => false
  end.

(** [strings.Cut] with a one-byte separator: the text before the first
    occurrence of [sep], the text after it, and whether it was found. *)
Fixpoint Cut (s : string) (sep : ascii) : string * string * bool :=
  match s with
  | EmptyString => (EmptyString, EmptyString, false)
  | String c s' =>
      if Ascii.eqb c sep then (EmptyString, s', true)
      else let '(b, a, f) := Cut s' sep in (String c b, a, f)
  end.

(** [strings.Contains] with a one-byte pattern. *)
Fixpoint ContainsByte (s : string) (x : ascii) : bool :=
  match s with
  | EmptyString => false
  | String c s' => Ascii.eqb c x || ContainsByte s' x
  end.

(** [strings.Count] with a one-byte pattern. *)
Fixpoint CountByte (s : string) (x : ascii) : nat :=
  match s with
  | EmptyString => O
  | String c s' => ((if Ascii.eqb c x then 1 else 0) + CountByte s' x)%nat
  end.

(** [strings.HasSuffix] with a one-byte suffix. *)
Fixpoint HasSuffixByte (s : string) (x : ascii) : bool :=
  match s with
  | EmptyString => false
  | String c EmptyString => Ascii.eqb c x
  | String _ s' => HasSuffixByte s' x
  end.

(** [s[:len(s)-1]]. *)
Fixpoint dropLast (s : string) : string :=
  match s with
  | EmptyString => EmptyString
  | String _ EmptyString => EmptyString
  | String c s' => String c (dropLast s')
  end.

Definition toLowerByte (c : ascii) : ascii :=
  if isUpper c then ascii_of_N (N_of_ascii c + 32) else c.

(** [strings.ToLower] on ASCII text. *)
Fixpoint ToLower (s : string) : string :=
  match s with
  | EmptyString => EmptyString
  | String c s' => String (toLowerByte c) (ToLower s')
  end.

Fixpoint forallb (p : ascii -> bool) (s : string) : bool :=
  match s with
  | EmptyString => true
  | String c s' => p c && forallb p s'
  end.

(** [strings.Join]. *)
Fixpoint Join (l : list string) (sep : string) : string :=
  match l with
  | [] => EmptyString
  | [x] => x
  | x :: l' => x +:+ sep +:+ Join l' sep
  end.

End Strings.

(** ** strconv *)

Module strconv.
Import Int Strings.

Inductive NumErr := ErrSyntax | ErrRange.

(** The digit loop of [ParseUint(s, 10, 64)]: [n] is the value read so
    far.  A byte that is not a decimal digit is a syntax error; a value
    beyond [maxUint64] is a range error, reported at once with
    [maxUint64]. *)
Fixpoint parseDigits (s : string) (n : Z) : Z * option NumErr :=
  match s with
  | EmptyString => (n, None)
  | String c s' =>
      if isDigitByte c then
        if maxUint64 / 10 + 1 <=? n then (maxUint64, Some ErrRange)
        else
          let n1 := n * 10 + digitVal c in
          if maxUint64 <? n1 then (maxUint64, Some ErrRange)
          else parseDigits s' n1
      else (0, Some ErrSyntax)
  end.

Definition ParseUint (s : string) : Z * option NumErr :=
  match s with
  | EmptyString => (0, Some ErrSyntax)
  | _ => parseDigits s 0
  end.

(** [strconv.ParseInt(s, 10, 64)]: the value and the error; with a
    range error comes the nearest [int64]. *)
Definition ParseInt (s : string) : Z * option NumErr :=
  match s with
  | EmptyString => (0, Some ErrSyntax)
  | String c s' =>
      let '(neg, digits) :=
        if Ascii.eqb c "+" then (false, s')
        else if Ascii.eqb c "-" then (true, s')
        else (false, s) in
      match ParseUint digits with
      | (_, Some ErrSyntax) => (0, Some ErrSyntax)
      | (un, _) =>
          if negb neg && (two63 <=? un) then (two63 - 1, Some ErrRange)
          else if neg && (two63 <? un) then (- two63, Some ErrRange)
          else (if neg then - un else un, None)
      end
  end.

(** [strconv.Atoi] on a 64-bit platform. *)
Definition Atoi (s : string) : Z * option NumErr := ParseInt s.

Fixpoint formatDigits (fuel : nat) (n : Z) (acc : string) : string :=
  match fuel with
  | O => acc
  | S fuel' =>
      let acc' := String (ascii_of_N (Z.to_N (48 + n mod 10))) acc in
      if n <? 10 then acc' else formatDigits fuel' (n / 10) acc'
  end.

(** [strconv.FormatInt(n, 10)] for an [int64]: twenty digits at most. *)
Definition FormatInt (n : Z) : string :=
  if n <? 0 then String "-" (formatDigits 20 (- n) EmptyString)
  else formatDigits 20 n EmptyString.

End strconv.

(** ** time *)

(** The local time zone of the process is a parameter of the
    development: [localOffset unix] is its offset, in seconds east of
    UTC, at the Unix time [unix]. *)
Class LocalZone := localOffset : Z -> Z.


Module time.
Import Int Strings.

Inductive Location :=
| UTC
| Local
| FixedZone (name : string) (offset : Z).

(** A [time.Time] without a monotonic reading: [sec] counts the seconds
    since January 1 of year 1 and is an [int64], [nsec] the nanoseconds
    within the second. *)
Record Time := mkTime { sec : Z; nsec : Z; loc : Location }.

Definition secondsPerDay : Z := 86400.
Definition daysPer400Years : Z := 146097.
Definition daysPer100Years : Z := 36524.
Definition daysPer4Years : Z := 1461.

Definition absoluteZeroYear : Z := -292277022399.
Definition unixToInternal : Z := 62135596800.
Definition internalToUnix : Z := - unixToInternal.
Definition internalToAbsolute : Z := 9223371966579724800.
Definition absoluteToInternal : Z := - internalToAbsolute.

(** The zero [Time]: January 1, year 1, 00:00:00 UTC. *)
Definition zeroTime : Time := mkTime 0 0 UTC.

Definition unixSec (t : Time) : Z := wrap64 (sec t + internalToUnix).

(** [Time.Equal]: the same instant, whatever the location. *)
Definition Equal (t u : Time) : Prop := sec t = sec u /\ nsec t = nsec u.

Definition unixTime (s ns : Z) : Time :=
  mkTime (wrap64 (s + unixToInternal)) ns Local.

(** [time.Unix(sec, nsec)]: [nsec] outside [0, 1e9) is carried into the
    seconds. *)
Definition Unix (s ns : Z) : Time :=
  if (ns <? 0) || (1000000000 <=? ns) then
    let n := Z.quot ns 1000000000 in
    let s1 := wrap64 (s + n) in
    let ns1 := ns - n * 1000000000 in
    if ns1 <? 0 then unixTime (wrap64 (s1 - 1)) (ns1 + 1000000000)
    else unixTime s1 ns1
  else unixTime s ns.

(** [time.UnixMilli(msec)]. *)
Definition UnixMilli (msec : Z) : Time :=
  Unix (Z.quot msec 1000) (wrap64 (Z.rem msec 1000 * 1000000)).

Section Calendar.
Context {tz : LocalZone}.

Definition zoneOffset (l : Location) (unix : Z) : Z :=
  match l with
  | UTC => 0
  | Local => localOffset unix
  | FixedZone _ off => off
  end.

(** [Time.abs]: seconds since the absolute zero year, in the time's
    location, as a [uint64]. *)
Definition abs (t : Time) : Z :=
  let s := unixSec t in
  let s := wrap64 (s + zoneOffset (loc t) s) in
  wrapU64 (s + (unixToInternal + internalToAbsolute)).

(** The year computed by [absDate]. *)
Definition absYear (a : Z) : Z :=
  let d := a / secondsPerDay in
  let n := d / daysPer400Years in
  let y := 400 * n in
  let d := d - daysPer400Years * n in
  let n := d / daysPer100Years in
  let n := n - Z.shiftr n 2 in
  let y := y + 100 * n in
  let d := d - daysPer100Years * n in
  let n := d / daysPer4Years in
  let y := y + 4 * n in
  let d := d - daysPer4Years * n in
  let n := d / 365 in
  let n := n - Z.shiftr n 2 in
  let y := y + n in
  wrap64 (y + absoluteZeroYear).

(** [Time.Year]. *)
Definition Year (t : Time) : Z := absYear (abs t).

End Calendar.

(** *** Building a time from a civil date *)

Definition isLeap (year : Z) : bool :=
  (year mod 4 =? 0) && (negb (year mod 100 =? 0) || (year mod 400 =? 0)).

(** [daysBefore[m]]: the days of a non-leap year before month [m+1]. *)
Definition daysBefore (m : Z) : Z :=
  match m with
  | 0 => 0 | 1 => 31 | 2 => 59 | 3 => 90 | 4 => 120 | 5 => 151
  | 6 => 181 | 7 => 212 | 8 => 243 | 9 => 273 | 10 => 304 | 11 => 334
  | _ => 365
  end.

Definition daysIn (month year : Z) : Z :=
  if (month =? 2) && isLeap year then 29
  else daysBefore month - daysBefore (month - 1).

(** [daysSinceEpoch]: the days from the absolute zero year to the start
    of [year]. *)
Definition daysSinceEpoch (year : Z) : Z :=
  let y := wrapU64 (year - absoluteZeroYear) in
  let n := y / 400 in
  let y := y - 400 * n in
  let d := daysPer400Years * n in
  let n := y / 100 in
  let y := y - 100 * n in
  let d := d + daysPer100Years * n in
  let n := y / 4 in
  let y := y - 4 * n in
  let d := d + daysPer4Years * n in
  let n := y in
  d + 365 * n.

(** [time.Date(year, month, day, hour, min, sec, nsec, time.UTC)] for a
    month in 1..12, a day of that month and a time of day in range,
    which is all [Parse] passes. *)
Definition DateUTC (year month day hour min sec nsec : Z) : Time :=
  let d := daysSinceEpoch year in
  let d := d + daysBefore (month - 1) in
  let d := if isLeap year && (3 <=? month) then d + 1 else d in
  let d := d + (day - 1) in
  let a := wrapU64 (d * secondsPerDay + (hour * 3600 + min * 60 + sec)) in
  let unix := wrap64 (wrap64 a + (absoluteToInternal + internalToUnix)) in
  mkTime (wrap64 (unix + unixToInternal)) nsec UTC.

(** *** Parsing with the layout ["2006-01-02T15:04:05Z07:00"] in quotes *)

Inductive ParseFailure :=
| errBad                      (* the value does not match the layout *)
| errRange (what : string)    (* "month", "hour", ... out of range *)
| errExtra.                   (* text after the value *)

(** [time.ParseError]. *)
Record ParseError := mkParseError {
  Layout : string; Value : string; Failure : ParseFailure }.

(** [skip] for a one-byte literal of the layout. *)
Definition skipByte (value : string) (c : ascii) : option string :=
  match value with
  | String a rest => if Ascii.eqb a c then Some rest else None
  | EmptyString => None
  end.

(** [getnum(s, fixed)]: one or two digits, exactly two if [fixed]. *)
Definition getnum (s : string) (fixed : bool) : option (Z * string) :=
  match s with
  | String a rest =>
      if isDigitByte a then
        match rest with
        | String b rest' =>
            if isDigitByte b then Some (digitVal a * 10 + digitVal b, rest')
            else if fixed then None else Some (digitVal a, rest)
        | EmptyString => if fixed then None else Some (digitVal a, rest)
        end
      else None
  | EmptyString => None
  end.

(** The four digits of [stdLongYear]. *)
Definition getYear (value : string) : option (Z * string) :=
  match value with
  | String a (String b (String c (String d rest))) =>
      if isDigitByte a && isDigitByte b && isDigitByte c && isDigitByte d
      then Some (((digitVal a * 10 + digitVal b) * 10 + digitVal c) * 10
                 + digitVal d, rest)
      else None
  | _ => None
  end.

Definition commaOrPeriod (c : ascii) : bool :=
  Ascii.eqb c "." || Ascii.eqb c ",".

(** The digits that follow the separator of a fractional second. *)
Fixpoint spanDigits (s : string) : string * string :=
  match s with
  | String c s' =>
      if isDigitByte c then let '(d, r) := spanDigits s' in (String c d, r)
      else (EmptyString, s)
  | EmptyString => (EmptyString, EmptyString)
  end.

Fixpoint digitsValue (s : string) (n : Z) : Z :=
  match s with
  | String c s' => digitsValue s' (n * 10 + digitVal c)
  | EmptyString => n
  end.

(** [parseNanoseconds]: at most nine digits count, scaled to
    nanoseconds. *)
Definition parseNanoseconds (digits : string) : Z :=
  let ds := take 9 digits in
  digitsValue ds 0 * 10 ^ (9 - Z.of_nat (String.length ds)).

(** A fractional second in the value although the layout has none:
    a separator followed by at least one digit. *)
Definition fraction (value : string) : Z * string :=
  match value with
  | String c (String d rest) =>
      if commaOrPeriod c && isDigitByte d then
        let '(ds, rest') := spanDigits (String d rest) in
        (parseNanoseconds ds, rest')
      else (0, value)
  | _ => (0, value)
  end.

(** The zone of [stdISO8601ColonTZ]: [Z], or a sign, two digits, a
    colon and two digits; [None] in the result is UTC. *)
Definition getZone (value : string)
  : ParseFailure + (option Z * string) :=
  match value with
  | String "Z" rest => inr (None, rest)
  | String sign (String h1 (String h2 (String colon
      (String m1 (String m2 rest))))) =>
      if negb (Ascii.eqb colon ":") then inl errBad
      else
        match getnum (String h1 (String h2 EmptyString)) true with
        | None => inl errBad
        | Some (hr, _) =>
            match getnum (String m1 (String m2 EmptyString)) true with
            | None => inl errBad
            | Some (mm, _) =>
                if 60 <? mm then inl (errRange "time zone offset minute")
                else if 24 <? hr then inl (errRange "time zone offset hour")
                else
                  let off := (hr * 60 + mm) * 60 in
                  if Ascii.eqb sign "+" then inr (Some off, rest)
                  else if Ascii.eqb sign "-" then inr (Some (- off), rest)
                  else inl errBad
            end
        end
  | _ => inl errBad
  end.

Definition quotedRFC3339 : string :=
  String Strings.quote ("2006-01-02T15:04:05Z07:00" +:+ String Strings.quote EmptyString).

Definition orBad {A} (o : option A) : ParseFailure + A :=
  match o with Some a => inr a | None => inl errBad end.

Definition bindF {A B} (m : ParseFailure + A) (f : A -> ParseFailure + B)
  : ParseFailure + B :=
  match m with inl e => inl e | inr a => f a end.

Notation "'do' x <- m ; k" := (bindF m (fun x => k))
  (at level 10, x name, m at level 100, k at level 200, only parsing).
Notation "'do' ' p <- m ; k" := (bindF m (fun x => let 'p := x in k))
  (at level 10, p pattern, m at level 100, k at level 200, only parsing).

Definition check (b : bool) (e : ParseFailure) : ParseFailure + unit :=
  if b then inr tt else inl e.

Section Parsing.
Context {tz : LocalZone}.

(** The steps of [time.Parse] along the quoted RFC3339 layout. *)
Definition parseRFC3339 (value : string) : ParseFailure + Time :=
  do value <- orBad (skipByte value Strings.quote) ;
  do '(year, value) <- orBad (getYear value) ;
  do value <- orBad (skipByte value "-") ;
  do '(month, value) <- orBad (getnum value true) ;
  do _ <- check ((0 <? month) && (month <=? 12)) (errRange "month") ;
  do value <- orBad (skipByte value "-") ;
  do '(day, value) <- orBad (getnum value true) ;
  do value <- orBad (skipByte value "T") ;
  do '(hour, value) <- orBad (getnum value false) ;
  do _ <- check (hour <? 24) (errRange "hour") ;
  do value <- orBad (skipByte value ":") ;
  do '(min, value) <- orBad (getnum value true) ;
  do _ <- check (min <? 60) (errRange "minute") ;
  do value <- orBad (skipByte value ":") ;
  do '(sec, value) <- orBad (getnum value true) ;
  do _ <- check (sec <? 60) (errRange "second") ;
  let '(ns, value) := fraction value in
  do '(zone, value) <- getZone value ;
  do value <- orBad (skipByte value Strings.quote) ;
  do _ <- check (String.eqb value "") errExtra ;
  do _ <- check ((1 <=? day) && (day <=? daysIn month year))
         (errRange "day") ;
  let t := DateUTC year month day hour min sec ns in
  match zone with
  | None => inr t
  | Some off =>
      let t := mkTime (wrap64 (time.sec t - off)) (nsec t) UTC in
      if localOffset (unixSec t) =? off
      then inr (mkTime (time.sec t) (nsec t) Local)
      else inr (mkTime (time.sec t) (nsec t) (FixedZone "" off))
  end.

(** [time.Parse(`"`+time.RFC3339+`"`, value)]: the zero time comes
    with an error. *)
Definition Parse (value : string) : Time * option ParseError :=
  match parseRFC3339 value with
  | inr t => (t, None)
  | inl f => (zeroTime, Some (mkParseError quotedRFC3339 value f))
  end.

End Parsing.

End time.

(** ** net/url *)

Module url.
Import Strings.

(** [url.Userinfo] and [url.URL]. *)
Record Userinfo := mkUserinfo {
  username : string; password : string; passwordSet : bool }.

Record URL := mkURL {
  Scheme : string;
  Opaque : string;
  User : option Userinfo;
  Host : string;
  Path : string;
  RawPath : string;
  OmitHost : bool;
  ForceQuery : bool;
  RawQuery : string;
  Fragment : string;
  RawFragment : string }.

Definition emptyURL : URL :=
  mkURL "" "" None "" "" "" false false "" "" "".

(** [url.Error]. *)
Record Error := mkError { Op : string; Url : string; Err : string }.

(** Two functions of [net/url] are parameters of the development:
    [parseAuthority] reads the text between ["//"] and the path (user
    information, host and port) or fails with a message, and
    [ResolveReference] resolves a reference against a base URL. *)
Class Library := {
  parseAuthority : string -> string + (option Userinfo * string);
  ResolveReference : URL -> URL -> URL }.

Inductive encoding :=
| encodePath | encodeHost | encodeUserPassword
| encodeQueryComponent | encodeFragment.

Definition oneOf (c : ascii) (set : string) : bool := ContainsByte set c.

(** [shouldEscape]: whether a byte of a component is written as a
    percent escape. *)
Definition shouldEscape (c : ascii) (mode : encoding) : bool :=
  if isLetter c || isDigitByte c then false
  else if (match mode with encodeHost => true | _ => false end)
          && (oneOf c "!$&'()*+,;=:[]<>" || Ascii.eqb c Strings.quote) then false
  else if oneOf c "-_.~" then false
  else if oneOf c "$&+,/:;=?@" then
    match mode with
    | encodePath => Ascii.eqb c "?"
    | encodeUserPassword => oneOf c "@/?:"
    | encodeQueryComponent => true
    | encodeFragment => false
    | encodeHost => true
    end
  else if (match mode with encodeFragment => true | _ => false end)
          && oneOf c "!()*" then false
  else true.

Definition ishex (c : ascii) : bool :=
  isDigitByte c
  || ((97 <=? byte c) && (byte c <=? 102))
  || ((65 <=? byte c) && (byte c <=? 70)).

Definition unhex (c : ascii) : Z :=
  if isDigitByte c then byte c - 48
  else if (97 <=? byte c) && (byte c <=? 102) then byte c - 97 + 10
  else if (65 <=? byte c) && (byte c <=? 70) then byte c - 65 + 10
  else 0.

Definition hexDigit (n : Z) : ascii :=
  ascii_of_N (Z.to_N (if n <? 10 then 48 + n else 65 + (n - 10))).

(** [unescape] for the modes that decode outside a host: a percent
    sign needs two hexadecimal digits after it; [+] is a space in a
    query component only.  [None] is an [EscapeError]. *)
Fixpoint unescape (s : string) (mode : encoding) : option string :=
  match s with
  | EmptyString => Some EmptyString
  | String "%" (String a (String b rest)) =>
      if ishex a && ishex b then
        option_map (String (ascii_of_N (Z.to_N (unhex a * 16 + unhex b))))
                   (unescape rest mode)
      else None
  | String "%" _ => None
  | String c rest =>
      let c' := match mode with
                | encodeQueryComponent => if Ascii.eqb c "+" then " "%char else c
                | _ => c
                end in
      option_map (String c') (unescape rest mode)
  end.

(** [escape]. *)
Fixpoint escape (s : string) (mode : encoding) : string :=
  match s with
  | EmptyString => EmptyString
  | String c rest =>
      if shouldEscape c mode then
        match mode with
        | encodeQueryComponent =>
            if Ascii.eqb c " " then String "+" (escape rest mode)
            else String "%" (String (hexDigit (byte c / 16))
                   (String (hexDigit (byte c mod 16)) (escape rest mode)))
        | _ => String "%" (String (hexDigit (byte c / 16))
                 (String (hexDigit (byte c mod 16)) (escape rest mode)))
        end
      else String c (escape rest mode)
  end.

(** [url.QueryEscape]. *)
Definition QueryEscape (s : string) : string := escape s encodeQueryComponent.

(** [validEncoded]: whether [s] is an acceptable encoding as it
    stands. *)
Definition validEncoded (s : string) (mode : encoding) : bool :=
  forallb (fun c => oneOf c "!$&'()*+,;=:@[]%" || negb (shouldEscape c mode)) s.

(** [stringContainsCTLByte]. *)
Definition stringContainsCTLByte (s : string) : bool :=
  negb (forallb (fun c => negb ((byte c <? 32) || (byte c =? 127))) s).

(** [getScheme]: the scheme before the first colon, if the text up to
    it is one, and the rest. *)
Fixpoint getSchemeFrom (i : nat) (s : string)
  : string + (option (string * string)) :=
  match s with
  | EmptyString => inr None
  | String c rest =>
      if isLetter c then
        match getSchemeFrom (S i) rest with
        | inr (Some (sch, r)) => inr (Some (String c sch, r))
        | other => other
        end
      else if isDigitByte c || oneOf c "+-." then
        match i with
        | O => inr None
        | _ => match getSchemeFrom (S i) rest with
               | inr (Some (sch, r)) => inr (Some (String c sch, r))
               | other => other
               end
        end
      else if Ascii.eqb c ":" then
        match i with
        | O => inl "missing protocol scheme"
        | _ => inr (Some (EmptyString, rest))
        end
      else inr None
  end.

Definition getScheme (rawURL : string) : string + (string * string) :=
  match getSchemeFrom O rawURL with
  | inl e => inl e
  | inr (Some (sch, rest)) => inr (sch, rest)
  | inr None => inr (EmptyString, rawURL)
  end.

(** [URL.setPath]. *)
Definition setPath (u : URL) (p : string) : option URL :=
  match unescape p encodePath with
  | None => None
  | Some path =>
      let raw := if String.eqb p (escape path encodePath) then "" else p in
      Some (mkURL (Scheme u) (Opaque u) (User u) (Host u) path raw
                  (OmitHost u) (ForceQuery u) (RawQuery u)
                  (Fragment u) (RawFragment u))
  end.

(** [URL.setFragment]. *)
Definition setFragment (u : URL) (f : string) : option URL :=
  match unescape f encodeFragment with
  | None => None
  | Some frag =>
      let raw := if String.eqb f (escape frag encodeFragment) then "" else f in
      Some (mkURL (Scheme u) (Opaque u) (User u) (Host u) (Path u)
                  (RawPath u) (OmitHost u) (ForceQuery u) (RawQuery u)
                  frag raw)
  end.

(** The assignment [u.RawQuery = q]. *)
Definition setRawQuery (u : URL) (q : string) : URL :=
  mkURL (Scheme u) (Opaque u) (User u) (Host u) (Path u) (RawPath u)
        (OmitHost u) (ForceQuery u) q (Fragment u) (RawFragment u).

(** [URL.EscapedPath] and [URL.EscapedFragment]. *)
Definition EscapedPath (u : URL) : string :=
  if negb (String.eqb (RawPath u) "")
     && validEncoded (RawPath u) encodePath
     && (match unescape (RawPath u) encodePath with
         | Some p => String.eqb p (Path u)
         | None => false
         end)
  then RawPath u
  else if String.eqb (Path u) "*" then "*"
  else escape (Path u) encodePath.

Definition EscapedFragment (u : URL) : string :=
  if negb (String.eqb (RawFragment u) "")
     && validEncoded (RawFragment u) encodeFragment
     && (match unescape (RawFragment u) encodeFragment with
         | Some f => String.eqb f (Fragment u)
         | None => false
         end)
  then RawFragment u
  else escape (Fragment u) encodeFragment.

(** [Userinfo.String]. *)
Definition Userinfo_String (ui : Userinfo) : string :=
  escape (username ui) encodeUserPassword
  +:+ (if passwordSet ui
       then ":" +:+ escape (password ui) encodeUserPassword else "").

Definition firstSegmentHasColon (p : string) : bool :=
  let '(segment, _, _) := Cut p "/" in ContainsByte segment ":".

(** [URL.String]. *)
Definition String_ (u : URL) : string :=
  let buf := if String.eqb (Scheme u) "" then "" else Scheme u +:+ ":" in
  let buf :=
    if negb (String.eqb (Opaque u) "") then buf +:+ Opaque u
    else
      let hasUser := match User u with Some _ => true | None => false end in
      let buf :=
        if negb (String.eqb (Scheme u) "") || negb (String.eqb (Host u) "")
           || hasUser then
          if OmitHost u && String.eqb (Host u) "" && negb hasUser then buf
          else
            let buf :=
              if negb (String.eqb (Host u) "")
                 || negb (String.eqb (Path u) "") || hasUser
              then buf +:+ "//" else buf in
            let buf :=
              match User u with
              | Some ui => buf +:+ Userinfo_String ui +:+ "@"
              | None => buf
              end in
            if negb (String.eqb (Host u) "")
            then buf +:+ escape (Host u) encodeHost else buf
        else buf in
      let path := EscapedPath u in
      let buf :=
        if negb (String.eqb path "") && negb (HasPrefix path "/")
           && negb (String.eqb (Host u) "")
        then buf +:+ "/" else buf in
      let buf :=
        if String.eqb buf "" && firstSegmentHasColon path
        then buf +:+ "./" else buf in
      buf +:+ path in
  let buf :=
    if ForceQuery u || negb (String.eqb (RawQuery u) "")
    then buf +:+ "?" +:+ RawQuery u else buf in
  if negb (String.eqb (Fragment u) "")
  then buf +:+ "#" +:+ EscapedFragment u else buf.

Section Parsing.
Context {lib : Library}.

(** [parse(rawURL, viaRequest = false)]: a URL without its
    fragment. *)
Definition parse (rawURL : string) : string + URL :=
  if stringContainsCTLByte rawURL
  then inl "net/url: invalid control character in URL"
  else if String.eqb rawURL "*"
  then inr (mkURL "" "" None "" "*" "" false false "" "" "")
  else
    match getScheme rawURL with
    | inl e => inl e
    | inr (scheme, rest) =>
        let scheme := ToLower scheme in
        let '(rest, force, rawQuery) :=
          if HasSuffixByte rest "?" && (CountByte rest "?" =? 1)%nat
          then (dropLast rest, true, "")
          else let '(r, q, _) := Cut rest "?" in (r, false, q) in
        let u := mkURL scheme "" None "" "" "" false force rawQuery "" "" in
        if negb (HasPrefix rest "/") && negb (String.eqb scheme "")
        then inr (mkURL scheme rest None "" "" "" false force rawQuery "" "")
        else if negb (HasPrefix rest "/") && firstSegmentHasColon rest
        then inl "first path segment in URL cannot contain colon"
        else if HasPrefix rest "//"
                && (negb (String.eqb scheme "") || negb (HasPrefix rest "///"))
        then
          let '(authority, after, found) := Cut (drop 2 rest) "/" in
          let rest := if found then String "/" after else "" in
          match parseAuthority authority with
          | inl e => inl e
          | inr (user, host) =>
              match setPath (mkURL scheme "" user host "" "" false force
                                   rawQuery "" "") rest with
              | Some u => inr u
              | None => inl "invalid URL escape"
              end
          end
        else
          let omit := negb (String.eqb scheme "") && HasPrefix rest "/" in
          match setPath (mkURL scheme "" None "" "" "" omit force
                               rawQuery "" "") rest with
          | Some u => inr u
          | None => inl "invalid URL escape"
          end
    end.

(** [url.Parse]. *)
Definition Parse (rawURL : string) : Error + URL :=
  let '(u, frag, _) := Cut rawURL "#" in
  match parse u with
  | inl e => inl (mkError "parse" u e)
  | inr url =>
      if String.eqb frag "" then inr url
      else match setFragment url frag with
           | Some url => inr url
           | None => inl (mkError "parse" rawURL "invalid URL escape")
           end
  end.

(** [URL.Parse]: a reference parsed and resolved against [u]. *)
Definition URL_Parse (u : URL) (ref : string) : Error + URL :=
  match Parse ref with
  | inl e => inl e
  | inr refurl => inr (ResolveReference u refurl)
  end.

End Parsing.

(** [url.Values]: the values of each key, in the order they were added. *)
Abbreviation Values := (gmap string (list string)).

(** [Values.Add]. *)
Definition Add (key value : string) (v : Values) : Values :=
  <[key := (default [] (v !! key) ++ [value])%list]> v.

Fixpoint insertKey (k : string * list string) (l : list (string * list string))
  : list (string * list string) :=
  match l with
  | [] => [k]
  | x :: l' =>
      if String.leb (fst k) (fst x) then k :: x :: l' else x :: insertKey k l'
  end.

(** The entries of the map by increasing key. *)
Definition sortedEntries (v : Values) : list (string * list string) :=
  foldr insertKey [] (map_to_list v).

(** [Values.Encode]: ["k=v"] for every value of every key, joined by
    ampersands, keys in increasing order. *)
Definition Encode (v : Values) : string :=
  Join (concat (List.map
          (fun kv => List.map (fun x => QueryEscape (fst kv) +:+ "=" +:+ QueryEscape x)
                              (snd kv))
          (sortedEntries v))) "&".

End url.

(** ** github.com/google/go-querystring/query *)

Module query.
Import url.

(** What reflection shows of a struct field that carries a [url] tag:
    the name in the tag, whether the tag has [omitempty], and the value
    of the field.  The option structs of this client have fields of
    three kinds. *)
Inductive FieldValue :=
| ofString (s : string)
| ofInt (n : Z)
| ofStrings (l : option (list string)).

Record StructField := mkField {
  name : string; omitempty : bool; value : FieldValue }.

(** A struct type whose fields can be listed, in declaration order. *)
Class Struct (T : Type) := fields : T -> list StructField.

(** [isEmptyValue]. *)
Definition isEmptyValue (v : FieldValue) : bool :=
  match v with
  | ofString s => String.eqb s ""
  | ofInt n => n =? 0
  | ofStrings l => (List.length (default [] l) =? 0)%nat
  end.

(** The part of [reflectValue] that handles one field: a field that is
    empty and tagged [omitempty] is skipped, a slice adds one value per
    element under the same name, anything else adds one value. *)
Definition reflectField (values : Values) (f : StructField) : Values :=
  if omitempty f && isEmptyValue (value f) then values
  else
    match value f with
    | ofStrings l =>
        foldl (fun vs x => Add (name f) x vs) values (default [] l)
    | ofString s => Add (name f) s values
    | ofInt n => Add (name f) (strconv.FormatInt n) values
    end.

Definition reflectValue (values : Values) (fs : list StructField) : Values :=
  foldl reflectField values fs.

(** [query.Values] on a pointer to a struct: no values for a nil
    pointer.  The error of the Go function is for an argument that is
    not a struct and for fields that encode themselves; neither occurs
    here. *)
Definition Values_ {T} `{Struct T} (v : option T) : Values * option string :=
  match v with
  | None => (∅, None)
  | Some s => (reflectValue ∅ (fields s), None)
  end.

End query.

(** ** net/http and context *)

Module context.

(** The errors a context reports once it is done. *)
Inductive Reason := Canceled | DeadlineExceeded.

(** A [context.Context] as one call observes it: [Err] is what
    [ctx.Err()] returns when [Do] looks at the context, [None] while
    the [Done] channel is still open. *)
Record Context := mkContext { Err : option Reason }.

Definition Background : Context := mkContext None.

End context.

Module http.

(** [http.Header]: the values of each canonical key. *)
Abbreviation Header := (gmap string (list string)).

(** [Header.Get] for a key in canonical form. *)
Definition Get (h : Header) (key : string) : string :=
  match h !! key with
  | Some (v :: _) => v
  | _ => ""
  end.

(** [Header.Set] for a key in canonical form. *)
Definition Set_ (h : Header) (key value : string) : Header :=
  <[key := [value]]> h.

Record Request := mkRequest {
  Method : string;
  URL : url.URL;
  Header_ : Header;
  Body : option string;
  ctx : option context.Context }.

(** [Request.WithContext]. *)
Definition WithContext (r : Request) (c : context.Context) : Request :=
  mkRequest (Method r) (URL r) (Header_ r) (Body r) (Some c).

(** [http.Response]: the status code, the headers and the bytes the
    body yields when read to its end. *)
Record Response := mkResponse {
  StatusCode : Z;
  RespHeader : Header;
  RespBody : string }.

Definition StatusOK : Z := 200.
Definition StatusNotFound : Z := 404.
Definition MethodGet : string := "GET".

(** The bytes of an HTTP token. *)
Definition isTokenByte (c : ascii) : bool :=
  Strings.isLetter c || Strings.isDigitByte c
  || Strings.ContainsByte "!#$%&'*+-.^_`|~" c.

Definition validMethod (method : string) : bool :=
  negb (String.eqb method "") && Strings.forallb isTokenByte method.

(** [removeEmptyPort]: a host that ends with a colon loses it. *)
Definition removeEmptyPort (host : string) : string :=
  if Strings.HasSuffixByte host ":" then Strings.dropLast host else host.

Inductive NewRequestError :=
| invalidMethod (method : string)
| badURL (e : url.Error).

(** [http.NewRequest(method, url, body)]. *)
Definition NewRequest `{url.Library} (method rawurl : string)
    (body : option string) : NewRequestError + Request :=
  let method := if String.eqb method "" then "GET" else method in
  if negb (validMethod method) then inl (invalidMethod method)
  else
    match url.Parse rawurl with
    | inl e => inl (badURL e)
    | inr u =>
        let u := url.mkURL (url.Scheme u) (url.Opaque u) (url.User u)
                   (removeEmptyPort (url.Host u)) (url.Path u)
                   (url.RawPath u) (url.OmitHost u) (url.ForceQuery u)
                   (url.RawQuery u) (url.Fragment u) (url.RawFragment u) in
        inr (mkRequest method u ∅ body (Some context.Background))
    end.

End http.

(** ** encoding/json: reading one value *)

Module json.
Import Strings.

(** A JSON value.  Every value but a literal name keeps its text as
    written ([raw]; for a string, quotes included), since a type that
    decodes itself is handed that text. *)
#[local] Set Warnings "-register-all".
Inductive Value :=
| Null
| Bool (b : bool)
| Number (raw : string)
| Str (raw : string) (s : string)
| Array (raw : string) (l : list Value)
| Object (raw : string) (l : list (string * Value)).

(** The text of a value. *)
Definition text (j : Value) : string :=
  match j with
  | Null => "null"
  | Bool true => "true"
  | Bool false => "false"
  | Number raw | Str raw _ | Array raw _ | Object raw _ => raw
  end.

(** How a scanner ends: with what it read and the text left; at the end
    of the input, in the middle of a value; on a byte that cannot follow;
    or because the steps it was allowed ran out. *)
Inductive Scan (A : Type) :=
| Done (a : A) (rest : string)
| UnexpectedEnd
| Invalid
| Exhausted.
Arguments Done {A}.
Arguments UnexpectedEnd {A}.
Arguments Invalid {A}.
Arguments Exhausted {A}.

Definition andThen {A B} (r : Scan A) (k : A -> string -> Scan B) : Scan B :=
  match r with
  | Done a rest => k a rest
  | UnexpectedEnd => UnexpectedEnd
  | Invalid => Invalid
  | Exhausted => Exhausted
  end.

Definition isSpace (c : ascii) : bool :=
  Ascii.eqb c " " || (byte c =? 9) || (byte c =? 10) || (byte c =? 13).

Fixpoint skipSpace (s : string) : string :=
  match s with
  | String c s' => if isSpace c then skipSpace s' else s
  | EmptyString => s
  end.

(** The UTF-8 encoding of a code point. *)
Definition utf8 (r : Z) : string :=
  let b (n : Z) := ascii_of_N (Z.to_N n) in
  if r <? 128 then String (b r) ""
  else if r <? 2048 then
    String (b (192 + r / 64)) (String (b (128 + r mod 64)) "")
  else if r <? 65536 then
    String (b (224 + r / 4096))
      (String (b (128 + (r / 64) mod 64)) (String (b (128 + r mod 64)) ""))
  else
    String (b (240 + r / 262144))
      (String (b (128 + (r / 4096) mod 64))
        (String (b (128 + (r / 64) mod 64)) (String (b (128 + r mod 64)) ""))).

Definition hexVal (c : ascii) : option Z :=
  if isDigitByte c then Some (byte c - 48)
  else if (97 <=? byte c) && (byte c <=? 102) then Some (byte c - 87)
  else if (65 <=? byte c) && (byte c <=? 70) then Some (byte c - 55)
  else None.

Definition isHex (c : ascii) : bool :=
  match hexVal c with Some _ => true | None => false end.

Definition hex4 (a b c d : ascii) : Z :=
  ((default 0 (hexVal a) * 16 + default 0 (hexVal b)) * 16
   + default 0 (hexVal c)) * 16 + default 0 (hexVal d).

(** What the byte after a backslash denotes, [u] apart. *)
Definition simpleEscape (e : ascii) : option Z :=
  if Ascii.eqb e Strings.quote then Some 34
  else if Ascii.eqb e "\" then Some 92
  else if Ascii.eqb e "/" then Some 47
  else if Ascii.eqb e "b" then Some 8
  else if Ascii.eqb e "f" then Some 12
  else if Ascii.eqb e "n" then Some 10
  else if Ascii.eqb e "r" then Some 13
  else if Ascii.eqb e "t" then Some 9
  else None.

(** The body of a string after its opening quote, as written, up to the
    closing quote.  A byte below 32 cannot stand in a string; a
    backslash is followed by one of eight bytes or by [u] and four
    hexadecimal digits. *)
Fixpoint scanString (s : string) : Scan string :=
  match s with
  | EmptyString => UnexpectedEnd
  | String c rest =>
      if Ascii.eqb c Strings.quote then Done EmptyString rest
      else if Ascii.eqb c "\" then
        match rest with
        | EmptyString => UnexpectedEnd
        | String e rest1 =>
            if Ascii.eqb e "u" then
              match rest1 with
              | String a (String b (String c' (String d rest2))) =>
                  if isHex a && isHex b && isHex c' && isHex d then
                    andThen (scanString rest2)
                      (fun w r => Done (String c (String e (String a (String b
                                          (String c' (String d w)))))) r)
                  else Invalid
              | _ => if forallb isHex rest1 then UnexpectedEnd else Invalid
              end
            else
              match simpleEscape e with
              | Some _ =>
                  andThen (scanString rest1)
                    (fun w r => Done (String c (String e w)) r)
              | None => Invalid
              end
        end
      else if byte c <? 32 then Invalid
      else andThen (scanString rest) (fun w r => Done (String c w) r)
  end.

Definition isSurrogate (r : Z) : bool := (55296 <=? r) && (r <? 57344).

(** What the body of a scanned string denotes.  Two [u] escapes that
    form a surrogate pair denote one code point, a surrogate on its own
    denotes U+FFFD; bytes above 127 are copied. *)
Fixpoint unquote (s : string) : string :=
  match s with
  | EmptyString => EmptyString
  | String c rest =>
      if Ascii.eqb c "\" then
        match rest with
        | EmptyString => EmptyString
        | String e rest1 =>
            if Ascii.eqb e "u" then
              match rest1 with
              | String a (String b (String c' (String d rest2))) =>
                  let r := hex4 a b c' d in
                  if isSurrogate r then
                    match rest2 with
                    | String bs (String u (String a2 (String b2
                        (String c2 (String d2 rest3))))) =>
                        let r2 := hex4 a2 b2 c2 d2 in
                        if Ascii.eqb bs "\" && Ascii.eqb u "u"
                           && isHex a2 && isHex b2 && isHex c2 && isHex d2
                           && (r <? 56320) && (56320 <=? r2) && (r2 <? 57344)
                        then utf8 ((r - 55296) * 1024 + (r2 - 56320) + 65536)
                             +:+ unquote rest3
                        else utf8 65533 +:+ unquote rest2
                    | _ => utf8 65533 +:+ unquote rest2
                    end
                  else utf8 r +:+ unquote rest2
              | _ => EmptyString
              end
            else
              String (ascii_of_N (Z.to_N (default 0 (simpleEscape e))))
                     (unquote rest1)
        end
      else String c (unquote rest)
  end.

Fixpoint spanDigits (s : string) : string * string :=
  match s with
  | String c s' =>
      if isDigitByte c then let '(d, r) := spanDigits s' in (String c d, r)
      else (EmptyString, s)
  | EmptyString => (EmptyString, EmptyString)
  end.

(** One or more digits. *)
Definition digits1 (s : string) : Scan string :=
  match s with
  | EmptyString => UnexpectedEnd
  | String c _ =>
      if isDigitByte c then let '(d, rest) := spanDigits s in Done d rest
      else Invalid
  end.

(** The integer part of a number: a zero, or digits that do not start
    with one. *)
Definition intPart (s : string) : Scan string :=
  match s with
  | String c rest => if Ascii.eqb c "0" then Done "0" rest else digits1 s
  | EmptyString => UnexpectedEnd
  end.

(** An optional fraction: a period and digits. *)
Definition fracPart (s : string) : Scan string :=
  match s with
  | String c rest =>
      if Ascii.eqb c "." then andThen (digits1 rest) (fun d r => Done ("." +:+ d) r)
      else Done "" s
  | EmptyString => Done "" s
  end.

(** An optional exponent: [e] or [E], an optional sign, digits. *)
Definition expPart (s : string) : Scan string :=
  match s with
  | String e rest =>
      if Ascii.eqb e "e" || Ascii.eqb e "E" then
        match rest with
        | String sign rest' =>
            if Ascii.eqb sign "+" || Ascii.eqb sign "-" then
              andThen (digits1 rest') (fun d r => Done (String e (String sign d)) r)
            else andThen (digits1 rest) (fun d r => Done (String e d) r)
        | EmptyString => UnexpectedEnd
        end
      else Done "" s
  | EmptyString => Done "" s
  end.

(** A number: an optional minus, an integer part, an optional fraction,
    an optional exponent. *)
Definition scanNumber (s : string) : Scan string :=
  let '(sign, s) := match s with
                    | String c s' => if Ascii.eqb c "-" then ("-", s') else ("", s)
                    | EmptyString => ("", s)
                    end in
  andThen (intPart s) (fun i s =>
  andThen (fracPart s) (fun f s =>
  andThen (expPart s) (fun e s => Done (sign +:+ i +:+ f +:+ e) s))).

(** A literal name: the text must start with it; a proper prefix of it
    at the end of the input is an unexpected end. *)
Fixpoint scanLiteral {A} (lit : string) (v : A) (s : string) : Scan A :=
  match lit, s with
  | EmptyString, _ => Done v s
  | String _ _, EmptyString => UnexpectedEnd
  | String a lit', String b s' =>
      if Ascii.eqb a b then scanLiteral lit' v s' else Invalid
  end.

(** The text consumed between the input [s] and what is left of it. *)
Definition consumed (s rest : string) : string :=
  take (String.length s - String.length rest) s.

(** What follows a value in an array or an object: the closing byte, or
    a comma and more. *)
Definition afterValue {A} (close : ascii) (s : string)
    (last : string -> Scan A) (more : string -> Scan A) : Scan A :=
  match skipSpace s with
  | EmptyString => UnexpectedEnd
  | String c rest =>
      if Ascii.eqb c close then last rest
      else if Ascii.eqb c "," then more rest
      else Invalid
  end.

(** A value, the elements of an array after its opening bracket, and
    the members of an object after its opening brace, each in a given
    number of steps. *)
Fixpoint scanValue (fuel : nat) (s : string) : Scan Value :=
  match fuel with
  | O => Exhausted
  | S fuel' =>
      let s := skipSpace s in
      match s with
      | EmptyString => UnexpectedEnd
      | String c rest =>
          if Ascii.eqb c "{" then
            match skipSpace rest with
            | EmptyString => UnexpectedEnd
            | String c' rest' =>
                if Ascii.eqb c' "}" then Done (Object (consumed s rest') []) rest'
                else andThen (scanMembers fuel' (String c' rest'))
                       (fun l r => Done (Object (consumed s r) l) r)
            end
          else if Ascii.eqb c "[" then
            match skipSpace rest with
            | EmptyString => UnexpectedEnd
            | String c' rest' =>
                if Ascii.eqb c' "]" then Done (Array (consumed s rest') []) rest'
                else andThen (scanElements fuel' (String c' rest'))
                       (fun l r => Done (Array (consumed s r) l) r)
            end
          else if Ascii.eqb c Strings.quote then
            andThen (scanString rest)
              (fun w r => Done (Str (String c (w +:+ String c "")) (unquote w)) r)
          else if Ascii.eqb c "t" then scanLiteral "rue" (Bool true) rest
          else if Ascii.eqb c "f" then scanLiteral "alse" (Bool false) rest
          else if Ascii.eqb c "n" then scanLiteral "ull" Null rest
          else if Ascii.eqb c "-" || isDigitByte c then
            andThen (scanNumber s) (fun n r => Done (Number n) r)
          else Invalid
      end
  end
with scanElements (fuel : nat) (s : string) : Scan (list Value) :=
  match fuel with
  | O => Exhausted
  | S fuel' =>
      andThen (scanValue fuel' s) (fun v rest =>
        afterValue "]" rest
          (fun rest' => Done [v] rest')
          (fun rest' => andThen (scanElements fuel' rest')
                          (fun l r => Done (v :: l) r)))
  end
with scanMembers (fuel : nat) (s : string) : Scan (list (string * Value)) :=
  match fuel with
  | O => Exhausted
  | S fuel' =>
      match skipSpace s with
      | EmptyString => UnexpectedEnd
      | String q rest =>
          if Ascii.eqb q Strings.quote then
            andThen (scanString rest) (fun w rest =>
              match skipSpace rest with
              | EmptyString => UnexpectedEnd
              | String colon rest =>
                  if Ascii.eqb colon ":" then
                    andThen (scanValue fuel' rest) (fun v rest =>
                      afterValue "}" rest
                        (fun rest' => Done [(unquote w, v)] rest')
                        (fun rest' => andThen (scanMembers fuel' rest')
                                        (fun l r => Done ((unquote w, v) :: l) r)))
                  else Invalid
              end)
          else Invalid
      end
  end.

(** What [Decoder.readValue] finds at the start of a stream: nothing
    but white space ([io.EOF]), a value, an input that stops inside a
    value, or text that is no JSON.  The scanner is given two steps for
    each byte of the input and two more, which it never uses up. *)
Inductive Read :=
| ReadEOF
| ReadValue (v : Value)
| ReadUnexpectedEOF
| ReadSyntaxError.

Definition readValue (body : string) : Read :=
  match skipSpace body with
  | EmptyString => ReadEOF
  | s =>
      match scanValue (2 * String.length s + 2) s with
      | Done v _ => ReadValue v
      | UnexpectedEnd => ReadUnexpectedEOF
      | Invalid | Exhausted => ReadSyntaxError
      end
  end.

End json.

(** ** The option structs of the client *)

(** [UsersOptions] (users.go).  Both fields carry the tag
    [url:"id,omitempty"]. *)
Record UsersOptions := mkUsersOptions {
  Ids : option (list string);
  Logins : option (list string) }.

#[export] Instance UsersOptions_Struct : query.Struct UsersOptions :=
  fun o => [ query.mkField "id" true (query.ofStrings (Ids o));
             query.mkField "id" true (query.ofStrings (Logins o)) ].

(** [StreamsOptions]. *)
Record StreamsOptions := mkStreamsOptions {
  After : string;
  Before : string;
  First : Z;
  GameId : string;
  Language : string;
  UserId : string;
  UserLogin : string }.

#[export] Instance StreamsOptions_Struct : query.Struct StreamsOptions :=
  fun o => [ query.mkField "after" true (query.ofString (After o));
             query.mkField "before" true (query.ofString (Before o));
             query.mkField "first" true (query.ofInt (First o));
             query.mkField "game_id" true (query.ofString (GameId o));
             query.mkField "language" true (query.ofString (Language o));
             query.mkField "user_id" true (query.ofString (UserId o));
             query.mkField "user_login" true (query.ofString (UserLogin o)) ].

(** [BroadcasterID]. *)
Record BroadcasterID := mkBroadcasterID { Id : string }.

#[export] Instance BroadcasterID_Struct : query.Struct BroadcasterID :=
  fun o => [ query.mkField "broadcaster_id" true (query.ofString (Id o)) ].

(** The [interface{}] kept in an [ErrorInvalidOptions]: a pointer, nil
    or not, to one of the option structs. *)
Inductive Options :=
| ofUsersOptions (p : option UsersOptions)
| ofStreamsOptions (p : option StreamsOptions)
| ofBroadcasterID (p : option BroadcasterID).

(** ** Errors *)

(** The values of type [error] that the client returns: its own
    ([errNonNilContext], [ErrorResponse], [ErrorInvalidOptions],
    [ErrorEmptyCredentials]) and those of the libraries it calls. *)
Inductive error :=
| errNonNilContext
| ErrorResponse (Response : http.Response) (Message : string)
| ErrorInvalidOptions (Options_ : Options) (Message : string)
| ErrorEmptyCredentials (Field : string)
| contextError (r : context.Reason)          (* [ctx.Err()] *)
| urlError (e : url.Error)                   (* [*url.Error] *)
| queryError (msg : string)                  (* from [query.Values] *)
| httpError (method : string)                (* invalid method *)
| marshalError (msg : string)                (* from [Encoder.Encode] *)
| timeParseError (e : time.ParseError)       (* [*time.ParseError] *)
| io_EOF
| io_ErrUnexpectedEOF
| jsonSyntaxError
| jsonUnmarshalTypeError (Value_ Type_ : string)
| jsonInvalidUnmarshalError.

(** [ErrorInvalidOptions.Error] and [ErrorEmptyCredentials.Error]. *)
Definition Error (e : error) : option string :=
  match e with
  | ErrorInvalidOptions _ m => Some ("Message: " +:+ m)
  | ErrorEmptyCredentials f => Some ("Message: " +:+ f +:+ " field is required")
  | _ => None
  end.

(** ** timestamp.go *)

Record Timestamp := mkTimestamp { Time : time.Time }.

Section TimestampCodec.
Context {tz : LocalZone}.

(** [Timestamp.UnmarshalJSON]: the receiver after the call and the
    error returned. *)
Definition UnmarshalJSON (t : Timestamp) (data : string)
  : Timestamp * option error :=
  let str := data in
  match strconv.ParseInt str with
  | (i, None) =>
      let t := mkTimestamp (time.Unix i 0) in
      if 3000 <? time.Year (Time t)
      then (mkTimestamp (time.Unix 0 (Int.wrap64 (i * 1000000))), None)
      else (t, None)
  | (_, Some _) =>
      match time.Parse str with
      | (tm, err) => (mkTimestamp tm, option_map timeParseError err)
      end
  end.

End TimestampCodec.

(** ** encoding/json: storing a value *)

Module decode.
Import json.

(** How storing a value ends: well; with a mismatch between the value
    and the target, which is remembered while decoding goes on; or with
    the error of a type that decodes itself, which stops the
    decoding. *)
Inductive Outcome :=
| stored
| mismatch (e : error)
| failed (e : error).

Definition stopped (o : Outcome) : bool :=
  match o with failed _ => true | _ => false end.

(** The outcome of two steps in a row: a failure wins, then the first
    mismatch. *)
Definition andThen (a b : Outcome) : Outcome :=
  match a, b with
  | failed _, _ => a
  | _, failed _ => b
  | mismatch _, _ => a
  | stored, _ => b
  end.

Definition errorOf (o : Outcome) : option error :=
  match o with
  | stored => None
  | mismatch e | failed e => Some e
  end.

(** A type a JSON value can be decoded into: [unmarshal j v] is the
    target after decoding [j] into a target that held [v]. *)
Class Unmarshal (T : Type) := unmarshal : Value -> T -> T * Outcome.

(** How [encoding/json] names the kind of a value in an
    [UnmarshalTypeError]. *)
Definition kind (j : Value) : string :=
  match j with
  | Null => "null" | Bool _ => "bool" | Number _ => "number"
  | Str _ _ => "string" | Array _ _ => "array" | Object _ _ => "object"
  end.

Definition typeError (j : Value) (type_ : string) : Outcome :=
  mismatch (jsonUnmarshalTypeError (kind j) type_).

(** A struct field is found by its JSON name, exactly or up to letter
    case. *)
Definition matches (key name : string) : bool :=
  String.eqb key name
  || String.eqb (Strings.ToLower key) (Strings.ToLower name).

(** Decoding into a [string]. *)
#[global] Instance string_Unmarshal : Unmarshal string :=
  fun j v =>
    match j with
    | Str _ s => (s, stored)
    | Null => (v, stored)
    | _ => (v, typeError j "string")
    end.

(** Decoding into an [int]: the text of the number must be that of an
    [int64]. *)
#[global] Instance int_Unmarshal : Unmarshal Z :=
  fun j v =>
    match j with
    | Number raw =>
        match strconv.ParseInt raw with
        | (n, None) => (n, stored)
        | (_, Some _) => (v, typeError j "int")
        end
    | Null => (v, stored)
    | _ => (v, typeError j "int")
    end.

(** Decoding into a [Timestamp], which decodes itself from the text of
    the value, whatever the value. *)
#[global] Instance Timestamp_Unmarshal `{LocalZone} : Unmarshal Timestamp :=
  fun j v =>
    match UnmarshalJSON v (text j) with
    | (t, None) => (t, stored)
    | (t, Some e) => (t, failed e)
    end.

(** Decoding an object into a struct: the members are taken in order,
    each by the field its key names; [field key] is how that field
    decodes, [None] when the struct has no such field. *)
Fixpoint members {T} (field : string -> option (Value -> T -> T * Outcome))
    (l : list (string * Value)) (v : T) : T * Outcome :=
  match l with
  | [] => (v, stored)
  | (key, j) :: l' =>
      match field key with
      | None => members field l' v
      | Some store =>
          let '(v1, o1) := store j v in
          if stopped o1 then (v1, o1)
          else let '(v2, o2) := members field l' v1 in (v2, andThen o1 o2)
      end
  end.

Definition object {T} (type_ : string)
    (field : string -> option (Value -> T -> T * Outcome))
    (j : Value) (v : T) : T * Outcome :=
  match j with
  | Object _ l => members field l v
  | Null => (v, stored)
  | _ => (v, typeError j type_)
  end.

(** Decoding into a pointer: [null] makes it nil, any other value is
    decoded into what it points to, allocated first if it was nil. *)
Definition pointer {T} (zero : T) `{Unmarshal T} : Unmarshal (option T) :=
  fun j p =>
    match j with
    | Null => (None, stored)
    | _ => let '(v, o) := unmarshal j (default zero p) in (Some v, o)
    end.

(** Decoding an array into a slice: element [i] is decoded into the
    element the slice had at [i], or into [zero]; the slice ends up
    with the length of the array. *)
Fixpoint elements {T} (zero : T) `{Unmarshal T}
    (l : list Value) (old : list T) : list T * Outcome :=
  match l with
  | [] => ([], stored)
  | j :: l' =>
      let '(x, o1) := unmarshal j (hd zero old) in
      if stopped o1 then ([x], o1)
      else let '(xs, o2) := elements zero l' (tl old) in
           (x :: xs, andThen o1 o2)
  end.

Definition slice {T} (type_ : string) (zero : T) `{Unmarshal T}
  : Unmarshal (option (list T)) :=
  fun j s =>
    match j with
    | Array _ l =>
        let '(xs, o) := elements zero l (default [] s) in (Some xs, o)
    | Null => (None, stored)
    | _ => (s, typeError j type_)
    end.

(** The [interface{}] that [Do] decodes into: nil; a non-nil pointer
    to a value, which decoding may change; or something nothing can be
    stored in, a value that is not a pointer or a nil pointer of some
    type. *)
Inductive Target (T : Type) :=
| nilTarget
| pointerTo (t : T)
| unsettable.
Arguments nilTarget {T}.
Arguments pointerTo {T}.
Arguments unsettable {T}.

(** [json.NewDecoder(body).Decode(v)]: the next value of the stream is
    read first; only then is the target looked at, and the value stored
    if the target is a non-nil pointer. *)
Definition Decode {T} `{Unmarshal T} (body : string) (v : Target T)
  : Target T * option error :=
  match readValue body with
  | ReadEOF => (v, Some io_EOF)
  | ReadUnexpectedEOF => (v, Some io_ErrUnexpectedEOF)
  | ReadSyntaxError => (v, Some jsonSyntaxError)
  | ReadValue j =>
      match v with
      | pointerTo t => let '(t', o) := unmarshal j t in (pointerTo t', errorOf o)
      | _ => (v, Some jsonInvalidUnmarshalError)
      end
  end.

End decode.

(** ** client.go *)

Definition defaultBaseURL : string := "https://api.twitch.tv/helix/".
Definition defaultAuthURL : string := "https://id.twitch.tv/oauth2/".
Definition applicationJSON : string := "application/json".
Definition userAgent : string :=
  "Mozilla/5.0 (X11; Linux x86_64) AppleWebKit/537.36 (KHTML, like Gecko) Chrome/65.0.3325.162 Safari/537.36".
Definition headerRateLimit : string := "Ratelimit-Limit".
Definition headerRateReset : string := "Ratelimit-Reset".
Definition headerRateRemaining : string := "Ratelimit-Remaining".
Definition notSuccessResponse : string := "response is not success".
Definition userIdIsRequired : string := "user_id is required".
Definition userIdLoginIsRequired : string := "id or login parameter is required".
Definition broadcasterIdIsRequired : string := "broadcaster_id is required".

Record Credentials := mkCredentials {
  ClientId : string;
  ClientSecret : string;
  OAuthToken : option string }.

(** [Client].  [HTTPClient] is what [c.HTTPClient.Do] answers to a
    request: a response, or the [*url.Error] that [net/http] wraps every
    failure of an exchange in.  The services of the Go struct are the
    client itself seen through another type and are not fields here. *)
Record Client := mkClient {
  credentials : Credentials;
  HTTPClient : http.Request -> url.Error + http.Response;
  BaseURL : url.URL;
  AuthURL : url.URL;
  UserAgent : string }.

Record service := mkService { client : Client }.

Record Rate := mkRate {
  Remaining : Z;
  Limit : Z;
  Reset : time.Time }.

(** [Response]: the [http.Response] it embeds and the rate it carries. *)
Record Response := mkResponseWrapper {
  Response_ : http.Response;
  Rate_ : Rate }.

Record Pagination := mkPagination { Cursor : string }.

(** A body that [json.Encoder] can write: its JSON text, or the message
    of the error. *)
Class Marshal (B : Type) := marshal : B -> string + string.

(** The type of the body of a request that has none. *)
#[global] Instance noBody : Marshal Empty_set :=
  fun b => match b with end.

(** The requests handed to the transport so far, oldest first. *)
Definition Wire := list http.Request.

Section ClientMethods.
Context {tz : LocalZone} {lib : url.Library}.

(** [addParams]: [opts] is a pointer to an option struct, [None] when
    nil. *)
Definition addParams {T} `{query.Struct T} (s : string) (opts : option T)
  : string * option error :=
  match opts with
  | None => (s, None)
  | Some _ =>
      match url.Parse s with
      | inl err => (s, Some (urlError err))
      | inr u =>
          match query.Values_ opts with
          | (_, Some err) => (s, Some (queryError err))
          | (qs, None) =>
              let u := url.setRawQuery u (url.Encode qs) in
              (url.String_ u, None)
          end
      end
  end.

(** [Client.NewRequest]: the request, or the error that comes with a
    nil request. *)
Definition NewRequest {B} `{Marshal B} (c : Client) (method path : string)
    (body : option B) : error + http.Request :=
  match url.URL_Parse (BaseURL c) path with
  | inl err => inl (urlError err)
  | inr u =>
      let encoded : string + option string :=
        match body with
        | Some b =>
            match marshal b with
            | inl err => inl err
            | inr text => inr (Some (text +:+ String (ascii_of_N 10) ""))
            end
        | None => inr None
        end in
      match encoded with
      | inl err => inl (marshalError err)
      | inr buf =>
          match http.NewRequest method (url.String_ u) buf with
          | inl (http.invalidMethod m) => inl (httpError m)
          | inl (http.badURL err) => inl (urlError err)
          | inr req =>
              let h := http.Header_ req in
              let h := match body with
                       | Some _ => http.Set_ h "Content-Type" applicationJSON
                       | None => h
                       end in
              let h := http.Set_ h "Client-Id" (ClientId (credentials c)) in
              let h := http.Set_ h "User-Agent" (UserAgent c) in
              inr (http.mkRequest (http.Method req) (http.URL req) h
                     (http.Body req) (http.ctx req))
          end
      end
  end.

(** [Response.parseRate]. *)
Definition parseRate (r : Response) : Response :=
  let header := http.RespHeader (Response_ r) in
  let rate := mkRate 0 0 time.zeroTime in
  let rate :=
    let limit := http.Get header headerRateLimit in
    if negb (String.eqb limit "")
    then mkRate (Remaining rate) (fst (strconv.Atoi limit)) (Reset rate)
    else rate in
  let rate :=
    let reset := http.Get header headerRateReset in
    if negb (String.eqb reset "")
    then let rst := fst (strconv.ParseInt reset) in
         mkRate (Remaining rate) (Limit rate) (time.Unix rst 0)
    else rate in
  let rate :=
    let remaining := http.Get header headerRateRemaining in
    if negb (String.eqb remaining "")
    then mkRate (fst (strconv.Atoi remaining)) (Limit rate) (Reset rate)
    else rate in
  mkResponseWrapper (Response_ r) rate.

(** [NewResponse]. *)
Definition NewResponse (r : http.Response) : Response :=
  let resp := mkResponseWrapper r (mkRate 0 0 time.zeroTime) in
  parseRate resp.

(** [Response.isSuccess]. *)
Definition isSuccess (r : Response) : bool :=
  (200 <=? http.StatusCode (Response_ r))
  && (http.StatusCode (Response_ r) <=? 299).

(** [Client.Do].  [ctx] is [None] for a nil context; [v] is the decode
    target and is returned as the call leaves it.  The request handed to
    the transport is added to the wire. *)
Definition Do {T} `{decode.Unmarshal T} (c : Client)
    (ctx : option context.Context) (req : http.Request) (v : decode.Target T)
    (wire : Wire)
  : (option Response * option error * decode.Target T) * Wire :=
  match ctx with
  | None => ((None, Some errNonNilContext, v), wire)
  | Some cx =>
      let req := http.WithContext req cx in
      let wire := (wire ++ [req])%list in
      match HTTPClient c req with
      | inl err =>
          match context.Err cx with
          | Some reason => ((None, Some (contextError reason), v), wire)
          | None => ((None, Some (urlError err), v), wire)
          end
      | inr resp =>
          let response := NewResponse resp in
          if negb (isSuccess response)
          then ((None, Some (ErrorResponse resp notSuccessResponse), v), wire)
          else
            match v with
            | decode.nilTarget => ((Some response, None, v), wire)
            | _ =>
                let '(v, decErr) := decode.Decode (http.RespBody resp) v in
                let decErr := match decErr with
                              | Some io_EOF => None
                              | _ => decErr
                              end in
                ((Some response, decErr, v), wire)
            end
      end
  end.

End ClientMethods.

(** ** users.go *)

Module users.
Import decode.

Definition getUsersPath : string := "users".
Definition users100LimitError : string :=
  "The limit of 100 IDs and login names is the total limit. You can request, for example, 50 of each or 100 of one of them. You cannot request 100 of both.".

Definition UsersService := service.

Record User := mkUser {
  BroadcasterType : string;
  Description : string;
  DisplayName : string;
  Id : string;
  Login : string;
  OfflineImageURL : string;
  ProfileImageURL : string;
  Type_ : string;
  ViewCount : Z;
  Email : string;
  CreatedAt : Timestamp }.

Definition zeroUser : User :=
  mkUser "" "" "" "" "" "" "" "" 0 "" (mkTimestamp time.zeroTime).

(** [UsersResponse]: [Data] is a slice of pointers. *)
Record UsersResponse := mkUsersResponse {
  Data : option (list (option User)) }.

Section Decoding.
Context {tz : LocalZone}.

(** The fields of [User] by their [json] tags. *)
Definition userField (key : string)
  : option (json.Value -> User -> User * Outcome) :=
  let on {F} `{Unmarshal F} (get : User -> F) (set : F -> User -> User) :=
    Some (fun j u => let '(x, o) := unmarshal j (get u) in (set x u, o)) in
  if matches key "broadcaster_type" then
    on BroadcasterType (fun x u => mkUser x (Description u) (DisplayName u)
      (Id u) (Login u) (OfflineImageURL u) (ProfileImageURL u) (Type_ u)
      (ViewCount u) (Email u) (CreatedAt u))
  else if matches key "description" then
    on Description (fun x u => mkUser (BroadcasterType u) x (DisplayName u)
      (Id u) (Login u) (OfflineImageURL u) (ProfileImageURL u) (Type_ u)
      (ViewCount u) (Email u) (CreatedAt u))
  else if matches key "display_name" then
    on DisplayName (fun x u => mkUser (BroadcasterType u) (Description u) x
      (Id u) (Login u) (OfflineImageURL u) (ProfileImageURL u) (Type_ u)
      (ViewCount u) (Email u) (CreatedAt u))
  else if matches key "id" then
    on Id (fun x u => mkUser (BroadcasterType u) (Description u)
      (DisplayName u) x (Login u) (OfflineImageURL u) (ProfileImageURL u)
      (Type_ u) (ViewCount u) (Email u) (CreatedAt u))
  else if matches key "login" then
    on Login (fun x u => mkUser (BroadcasterType u) (Description u)
      (DisplayName u) (Id u) x (OfflineImageURL u) (ProfileImageURL u)
      (Type_ u) (ViewCount u) (Email u) (CreatedAt u))
  else if matches key "offline_image_url" then
    on OfflineImageURL (fun x u => mkUser (BroadcasterType u) (Description u)
      (DisplayName u) (Id u) (Login u) x (ProfileImageURL u) (Type_ u)
      (ViewCount u) (Email u) (CreatedAt u))
  else if matches key "profile_image_url" then
    on ProfileImageURL (fun x u => mkUser (BroadcasterType u) (Description u)
      (DisplayName u) (Id u) (Login u) (OfflineImageURL u) x (Type_ u)
      (ViewCount u) (Email u) (CreatedAt u))
  else if matches key "type" then
    on Type_ (fun x u => mkUser (BroadcasterType u) (Description u)
      (DisplayName u) (Id u) (Login u) (OfflineImageURL u)
      (ProfileImageURL u) x (ViewCount u) (Email u) (CreatedAt u))
  else if matches key "view_count" then
    on ViewCount (fun x u => mkUser (BroadcasterType u) (Description u)
      (DisplayName u) (Id u) (Login u) (OfflineImageURL u)
      (ProfileImageURL u) (Type_ u) x (Email u) (CreatedAt u))
  else if matches key "email" then
    on Email (fun x u => mkUser (BroadcasterType u) (Description u)
      (DisplayName u) (Id u) (Login u) (OfflineImageURL u)
      (ProfileImageURL u) (Type_ u) (ViewCount u) x (CreatedAt u))
  else if matches key "created_at" then
    on CreatedAt (fun x u => mkUser (BroadcasterType u) (Description u)
      (DisplayName u) (Id u) (Login u) (OfflineImageURL u)
      (ProfileImageURL u) (Type_ u) (ViewCount u) (Email u) x)
  else None.

#[global] Instance User_Unmarshal : Unmarshal User :=
  object "bot.User" userField.

#[global] Instance UserPtr_Unmarshal : Unmarshal (option User) :=
  pointer zeroUser.

#[global] Instance UsersResponse_Unmarshal : Unmarshal UsersResponse :=
  object "bot.UsersResponse"
    (fun key =>
       if matches key "data" then
         Some (fun j r =>
                 let '(d, o) := slice "[]*bot.User" None j (Data r) in
                 (mkUsersResponse d, o))
       else None).

End Decoding.

Section Service.
Context {tz : LocalZone} {lib : url.Library}.

(** [UsersService.GetUsers]: the users, the response and the error
    returned, and the wire after the call. *)
Definition GetUsers (s : UsersService) (ctx : option context.Context)
    (opts : option UsersOptions) (wire : Wire)
  : (option (list (option User)) * option Response * option error) * Wire :=
  if match opts with
     | None => true
     | Some o => match Ids o, Logins o with
                 | None, None => true
                 | _, _ => false
                 end
     end
  then ((None, None,
         Some (ErrorInvalidOptions (ofUsersOptions opts) userIdLoginIsRequired)),
        wire)
  else
    let len (l : option (list string)) := Z.of_nat (List.length (default [] l)) in
    if 100 <? match opts with
              | Some o => len (Ids o) + len (Logins o)
              | None => 0
              end
    then ((None, None,
           Some (ErrorInvalidOptions (ofUsersOptions opts) users100LimitError)),
          wire)
    else
      match addParams getUsersPath opts with
      | (_, Some err) => ((None, None, Some err), wire)
      | (u, None) =>
          match NewRequest (client s) http.MethodGet u (@None Empty_set) with
          | inl err => ((None, None, Some err), wire)
          | inr req =>
              let usersResp := mkUsersResponse None in
              match Do (client s) ctx req (pointerTo usersResp) wire with
              | ((resp, Some err, _), wire) => ((None, resp, Some err), wire)
              | ((resp, None, target), wire) =>
                  let usersResp := match target with
                                   | pointerTo r => r
                                   | _ => usersResp
                                   end in
                  ((Data usersResp, resp, None), wire)
              end
          end
      end.

End Service.

End users.

(** ** The streams service *)

Module streams.
Import decode.

Definition getStreamsPath : string := "streams".
Definition getFollowedStreamsPath : string := "streams/followed".
Definition getStreamKeyPath : string := "streams/key".
Definition getStreamMarkersPath : string := "stream/markers".

Definition StreamsService := service.

Definition StreamKey := string.

(** The element type of [StreamKeyResponse.Data]. *)
Record KeyItem := mkKeyItem { Key : StreamKey }.

(** [StreamKeyResponse]: [Data] is a slice of pointers. *)
Record StreamKeyResponse := mkStreamKeyResponse {
  Data : option (list (option KeyItem)) }.

#[global] Instance KeyItem_Unmarshal : Unmarshal KeyItem :=
  object "struct { Key bot.StreamKey }"
    (fun key =>
       if matches key "stream_key" then
         Some (fun j i => let '(k, o) := unmarshal j (Key i) in (mkKeyItem k, o))
       else None).

#[global] Instance KeyItemPtr_Unmarshal : Unmarshal (option KeyItem) :=
  pointer (mkKeyItem "").

#[global] Instance StreamKeyResponse_Unmarshal : Unmarshal StreamKeyResponse :=
  object "bot.StreamKeyResponse"
    (fun key =>
       if matches key "data" then
         Some (fun j r =>
                 let '(d, o) := slice "[]*struct { Key bot.StreamKey }" None j (Data r) in
                 (mkStreamKeyResponse d, o))
       else None).

(** How a call ends: it returns, or the Go runtime panics. *)
Inductive Exec (A : Type) :=
| Returns (a : A)
| Panics (runtimeError : string).
Arguments Returns {A}.
Arguments Panics {A}.

Definition indexOutOfRange : string :=
  "index out of range [0] with length 0".
Definition nilDereference : string :=
  "invalid memory address or nil pointer dereference".

(** The expression [keyResp.Data[0].Key]. *)
Definition firstKey (keyResp : StreamKeyResponse) : Exec StreamKey :=
  match default [] (Data keyResp) with
  | [] => Panics indexOutOfRange
  | None :: _ => Panics nilDereference
  | Some item :: _ => Returns (Key item)
  end.

Section Service.
Context {tz : LocalZone} {lib : url.Library}.

(** [StreamsService.GetStreamKey]: how the call ends and the wire
    after it. *)
Definition GetStreamKey (s : StreamsService) (ctx : option context.Context)
    (opts : option BroadcasterID) (wire : Wire)
  : Exec (StreamKey * option Response * option error) * Wire :=
  if match opts with
     | None => true
     | Some o => String.eqb (Id o) ""
     end
  then (Returns ("", None,
          Some (ErrorInvalidOptions (ofBroadcasterID opts) broadcasterIdIsRequired)),
        wire)
  else
    match addParams getStreamKeyPath opts with
    | (_, Some err) => (Returns ("", None, Some err), wire)
    | (u, None) =>
        match NewRequest (client s) http.MethodGet u (@None Empty_set) with
        | inl err => (Returns ("", None, Some err), wire)
        | inr req =>
            let keyResp := mkStreamKeyResponse None in
            match Do (client s) ctx req (pointerTo keyResp) wire with
            | ((resp, Some err, _), wire) => (Returns ("", resp, Some err), wire)
            | ((resp, None, target), wire) =>
                let keyResp := match target with
                               | pointerTo r => r
                               | _ => keyResp
                               end in
                match firstKey keyResp with
                | Returns key => (Returns (key, resp, None), wire)
                | Panics e => (Panics e, wire)
                end
            end
        end
    end.

End Service.

End streams.

(** ** The statements of the specification *)

Section Specification.
Context {tz : LocalZone}.

(** The timestamp codec as the specification words it: an integer is
    tried first and read as Unix seconds, or as Unix milliseconds when
    the seconds would fall in a year beyond 3000; otherwise the text is
    read as a quoted RFC3339 string, whose parse error is the error of
    the codec. *)
Definition UnmarshalJSON_spec (data : string) : Timestamp * option error :=
  match strconv.ParseInt data with
  | (i, None) =>
      if 3000 <? time.Year (time.Unix i 0)
      then (mkTimestamp (time.UnixMilli i), None)
      else (mkTimestamp (time.Unix i 0), None)
  | (_, Some _) =>
      match time.Parse data with
      | (tm, None) => (mkTimestamp tm, None)
      | (tm, Some e) => (mkTimestamp tm, Some (timeParseError e))
      end
  end.

(** The three encodings of the instant [s] seconds after the Unix
    epoch: [secs] is an integer text for [s], [millis] one for
    [1000 * s], and [rfc] a quoted RFC3339 text that [time.Parse]
    reads as that instant. *)
Definition encodings (s : Z) (secs millis rfc : string) : Prop :=
  strconv.ParseInt secs = (s, None)
  /\ strconv.ParseInt millis = (1000 * s, None)
  /\ exists tm, time.Parse rfc = (tm, None)
                /\ time.Equal tm (time.Unix s 0).

(** The three texts decode, without error, to one instant. *)
Definition decodeAlike (secs millis rfc : string) : Prop :=
  exists a b c,
    UnmarshalJSON (mkTimestamp time.zeroTime) secs = (a, None)
    /\ UnmarshalJSON (mkTimestamp time.zeroTime) millis = (b, None)
    /\ UnmarshalJSON (mkTimestamp time.zeroTime) rfc = (c, None)
    /\ time.Equal (Time a) (Time b) /\ time.Equal (Time b) (Time c).

End Specification.

(** A base path that [net/url] takes as a path and nothing else: every
    byte may stand in a path as it is or is part of a percent escape
    ([validEncoded]), the escapes are well formed, and the text has no
    authority (it does not start with two slashes) and no scheme (no
    colon in its first segment).  The one text left out is ["%2A"],
    which [net/url] writes back as ["*"]. *)
Definition validBasePath (s : string) : bool :=
  url.validEncoded s url.encodePath
  && match url.unescape s url.encodePath with Some _ => true | None => false end
  && negb (Strings.HasPrefix s "//")
  && negb (url.firstSegmentHasColon s)
  && negb (String.eqb s "%2A").

(** An options value whose fields are all zero or empty. *)
Definition allEmpty {T} `{query.Struct T} (o : T) : Prop :=
  Forall (fun f => query.isEmptyValue (query.value f) = true) (query.fields o).

(** A struct type whose fields are all tagged [omitempty], as those of
    the three option structs are. *)
Definition allOmitEmpty (T : Type) `{query.Struct T} : Prop :=
  forall (o : T), Forall (fun f => query.omitempty f = true) (query.fields o).

(** The combined count of identifiers and logins of a user lookup. *)
Definition combinedCount (o : UsersOptions) : Z :=
  Z.of_nat (List.length (default [] (Ids o)))
  + Z.of_nat (List.length (default [] (Logins o))).

(** An error that is not an [ErrorInvalidOptions]. *)
Definition notInvalidOptions (e : option error) : Prop :=
  match e with
  | Some (ErrorInvalidOptions _ _) => False
  | _ => True
  end.

(** A decoder whose errors are never an [ErrorInvalidOptions]: they are
    those of [encoding/json] and of the types that decode themselves. *)
Definition decodes (T : Type) `{decode.Unmarshal T} : Prop :=
  forall j v, notInvalidOptions (decode.errorOf (snd (decode.unmarshal j v))).

Definition stores {T} (store : json.Value -> T -> T * decode.Outcome) : Prop :=
  forall j v, notInvalidOptions (decode.errorOf (snd (store j v))).

(** A scan that did not run out of steps and, if it is done, left less
    than [n] bytes. *)
Definition good {A} (n : nat) (r : json.Scan A) : Prop :=
  match r with
  | json.Done _ rest => (String.length rest < n)%nat
  | json.Exhausted => False
  | _ => True
  end.

(** A byte that [validEncoded] accepts in a path. *)
Definition pathByte (c : ascii) : bool :=
  url.oneOf c "!$&'()*+,;=:@[]%" || negb (url.shouldEscape c url.encodePath).

(** The first second of the year 3001 in UTC, counted from the absolute
    zero year as [Time.abs] counts. *)
Definition abs3001 : Z := 32535216000 + 9223372028715321600.

(** ** A setting for examples *)

(** A process in UTC, a [net/url] that takes an authority as a host
    without user information and resolves a reference by appending its
    path to that of the base, and a client whose server answers every
    request with the same status and body, as the handlers of the tests
    do. *)
Module Examples.

Definition utc : LocalZone := fun _ => 0.

Definition plainURLs : url.Library :=
  {| url.parseAuthority := fun host => inr (None, host);
     url.ResolveReference := fun base ref =>
       url.mkURL (url.Scheme base) "" None (url.Host base)
         (url.Path base +:+ url.Path ref) "" false (url.ForceQuery ref)
         (url.RawQuery ref) (url.Fragment ref) (url.RawFragment ref) |}.

Definition helix : url.URL :=
  url.mkURL "https" "" None "api.twitch.tv" "/helix/" "" false false "" "" "".

Definition creds : Credentials := mkCredentials "ClientId" "ClientSecret" None.

Definition answering (status : Z) (body : string) : Client :=
  mkClient creds (fun _ => inr (http.mkResponse status ∅ body))
           helix helix userAgent.

Definition failing (err : url.Error) : Client :=
  mkClient creds (fun _ => inl err) helix helix userAgent.

Definition get (path : string) : http.Request :=
  http.mkRequest "GET"
    (url.mkURL "https" "" None "api.twitch.tv" ("/helix/" +:+ path)
               "" false false "" "" "")
    ∅ None (Some context.Background).

Definition quoted (s : string) : string :=
  String Strings.quote (s +:+ String Strings.quote "").

(** The body [{"data":[]}]. *)
Definition emptyData : string := "{" +:+ quoted "data" +:+ ":[]}".

Definition referenceTimeStr : string := quoted "2006-01-02T15:04:05Z".
Definition referenceUnixTimeStr : string := "1136214245".
Definition referenceUnixTimeStrMilliSeconds : string := "1136214245000".

End Examples.

(** ** The streams service: listings *)

Module stream.
Import decode.

(** Decoding into a [bool]. *)
#[global] Instance bool_Unmarshal : Unmarshal bool :=
  fun j v =>
    match j with
    | json.Bool b => (b, stored)
    | json.Null => (v, stored)
    | _ => (v, typeError j "bool")
    end.

(** Decoding into a [[]string]. *)
#[global] Instance strings_Unmarshal : Unmarshal (option (list string)) :=
  slice "[]string" "".

(** [Stream]. *)
Record Stream := mkStream {
  Id : string;
  UserId : string;
  UserLogin : string;
  Username : string;
  GameId : string;
  GameName : string;
  Type_ : string;
  Title : string;
  ViewerCount : Z;
  StartedAt : Timestamp;
  Language : string;
  ThumnailURL : string;
  TagIds : option (list string);
  IsMature : bool }.

Definition zeroStream : Stream :=
  mkStream "" "" "" "" "" "" "" "" 0 (mkTimestamp time.zeroTime) "" "" None false.

(** [StreamsResponse]: [Data] is a slice of pointers; the embedded
    [Pagination] carries a [json] tag and so is the field
    [pagination]. *)
Record StreamsResponse := mkStreamsResponse {
  Data : option (list (option Stream));
  Pagination_ : Pagination }.

Section Decoding.
Context {tz : LocalZone}.

(** The fields of [Stream] by their [json] tags. *)
Definition streamField (key : string)
  : option (json.Value -> Stream -> Stream * Outcome) :=
  let on {F} `{Unmarshal F} (get : Stream -> F) (set : F -> Stream -> Stream) :=
    Some (fun j s => let '(x, o) := unmarshal j (get s) in (set x s, o)) in
  if matches key "id" then
    on Id (fun x s => mkStream x (UserId s) (UserLogin s) (Username s)
      (GameId s) (GameName s) (Type_ s) (Title s) (ViewerCount s)
      (StartedAt s) (Language s) (ThumnailURL s) (TagIds s) (IsMature s))
  else if matches key "user_id" then
    on UserId (fun x s => mkStream (Id s) x (UserLogin s) (Username s)
      (GameId s) (GameName s) (Type_ s) (Title s) (ViewerCount s)
      (StartedAt s) (Language s) (ThumnailURL s) (TagIds s) (IsMature s))
  else if matches key "user_login" then
    on UserLogin (fun x s => mkStream (Id s) (UserId s) x (Username s)
      (GameId s) (GameName s) (Type_ s) (Title s) (ViewerCount s)
      (StartedAt s) (Language s) (ThumnailURL s) (TagIds s) (IsMature s))
  else if matches key "user_name" then
    on Username (fun x s => mkStream (Id s) (UserId s) (UserLogin s) x
      (GameId s) (GameName s) (Type_ s) (Title s) (ViewerCount s)
      (StartedAt s) (Language s) (ThumnailURL s) (TagIds s) (IsMature s))
  else if matches key "game_id" then
    on GameId (fun x s => mkStream (Id s) (UserId s) (UserLogin s)
      (Username s) x (GameName s) (Type_ s) (Title s) (ViewerCount s)
      (StartedAt s) (Language s) (ThumnailURL s) (TagIds s) (IsMature s))
  else if matches key "game_name" then
    on GameName (fun x s => mkStream (Id s) (UserId s) (UserLogin s)
      (Username s) (GameId s) x (Type_ s) (Title s) (ViewerCount s)
      (StartedAt s) (Language s) (ThumnailURL s) (TagIds s) (IsMature s))
  else if matches key "type" then
    on Type_ (fun x s => mkStream (Id s) (UserId s) (UserLogin s)
      (Username s) (GameId s) (GameName s) x (Title s) (ViewerCount s)
      (StartedAt s) (Language s) (ThumnailURL s) (TagIds s) (IsMature s))
  else if matches key "title" then
    on Title (fun x s => mkStream (Id s) (UserId s) (UserLogin s)
      (Username s) (GameId s) (GameName s) (Type_ s) x (ViewerCount s)
      (StartedAt s) (Language s) (ThumnailURL s) (TagIds s) (IsMature s))
  else if matches key "viewer_count" then
    on ViewerCount (fun x s => mkStream (Id s) (UserId s) (UserLogin s)
      (Username s) (GameId s) (GameName s) (Type_ s) (Title s) x
      (StartedAt s) (Language s) (ThumnailURL s) (TagIds s) (IsMature s))
  else if matches key "started_at" then
    on StartedAt (fun x s => mkStream (Id s) (UserId s) (UserLogin s)
      (Username s) (GameId s) (GameName s) (Type_ s) (Title s)
      (ViewerCount s) x (Language s) (ThumnailURL s) (TagIds s)
      (IsMature s))
  else if matches key "language" then
    on Language (fun x s => mkStream (Id s) (UserId s) (UserLogin s)
      (Username s) (GameId s) (GameName s) (Type_ s) (Title s)
      (ViewerCount s) (StartedAt s) x (ThumnailURL s) (TagIds s)
      (IsMature s))
  else if matches key "thumbnail_url" then
    on ThumnailURL (fun x s => mkStream (Id s) (UserId s) (UserLogin s)
      (Username s) (GameId s) (GameName s) (Type_ s) (Title s)
      (ViewerCount s) (StartedAt s) (Language s) x (TagIds s) (IsMature s))
  else if matches key "tag_ids" then
    on TagIds (fun x s => mkStream (Id s) (UserId s) (UserLogin s)
      (Username s) (GameId s) (GameName s) (Type_ s) (Title s)
      (ViewerCount s) (StartedAt s) (Language s) (ThumnailURL s) x
      (IsMature s))
  else if matches key "is_mature" then
    on IsMature (fun x s => mkStream (Id s) (UserId s) (UserLogin s)
      (Username s) (GameId s) (GameName s) (Type_ s) (Title s)
      (ViewerCount s) (StartedAt s) (Language s) (ThumnailURL s) (TagIds s)
      x)
  else None.

#[global] Instance Stream_Unmarshal : Unmarshal Stream :=
  object "bot.Stream" streamField.

#[global] Instance StreamPtr_Unmarshal : Unmarshal (option Stream) :=
  pointer zeroStream.

#[global] Instance Pagination_Unmarshal : Unmarshal Pagination :=
  object "bot.Pagination"
    (fun key =>
       if matches key "cursor" then
         Some (fun j p => let '(c, o) := unmarshal j (Cursor p) in (mkPagination c, o))
       else None).

#[global] Instance StreamsResponse_Unmarshal : Unmarshal StreamsResponse :=
  object "bot.StreamsResponse"
    (fun key =>
       if matches key "data" then
         Some (fun j r =>
                 let '(d, o) := slice "[]*bot.Stream" None j (Data r) in
                 (mkStreamsResponse d (Pagination_ r), o))
       else if matches key "pagination" then
         Some (fun j r =>
                 let '(p, o) := unmarshal j (Pagination_ r) in
                 (mkStreamsResponse (Data r) p, o))
       else None).

End Decoding.

End stream.

Section StreamsService.
Context {tz : LocalZone} {lib : url.Library}.

(** [StreamsService.GetStreams]: the envelope, the response and the
    error returned, and the wire after the call. *)
Definition GetStreams (s : streams.StreamsService) (ctx : option context.Context)
    (opts : option StreamsOptions) (wire : Wire)
  : (option stream.StreamsResponse * option Response * option error) * Wire :=
  match addParams streams.getStreamsPath opts with
  | (_, Some err) => ((None, None, Some err), wire)
  | (u, None) =>
      match NewRequest (client s) http.MethodGet u (@None Empty_set) with
      | inl err => ((None, None, Some err), wire)
      | inr req =>
          let streams := stream.mkStreamsResponse None (mkPagination "") in
          match Do (client s) ctx req (decode.pointerTo streams) wire with
          | ((resp, Some err, _), wire) => ((None, resp, Some err), wire)
          | ((resp, None, target), wire) =>
              let streams := match target with
                             | decode.pointerTo r => r
                             | _ => streams
                             end in
              ((Some streams, resp, None), wire)
          end
      end
  end.

(** [StreamsService.GetFollowedStreams]. *)
Definition GetFollowedStreams (s : streams.StreamsService)
    (ctx : option context.Context) (opts : option StreamsOptions) (wire : Wire)
  : (option stream.StreamsResponse * option Response * option error) * Wire :=
  if match opts with
     | None => true
     | Some o => String.eqb (UserId o) ""
     end
  then ((None, None,
         Some (ErrorInvalidOptions (ofStreamsOptions opts) userIdIsRequired)),
        wire)
  else
    match addParams streams.getFollowedStreamsPath opts with
    | (_, Some err) => ((None, None, Some err), wire)
    | (u, None) =>
        match NewRequest (client s) http.MethodGet u (@None Empty_set) with
        | inl err => ((None, None, Some err), wire)
        | inr req =>
            let streams := stream.mkStreamsResponse None (mkPagination "") in
            match Do (client s) ctx req (decode.pointerTo streams) wire with
            | ((resp, Some err, _), wire) => ((None, resp, Some err), wire)
            | ((resp, None, target), wire) =>
                let streams := match target with
                               | decode.pointerTo r => r
                               | _ => streams
                               end in
                ((Some streams, resp, None), wire)
            end
        end
    end.

End StreamsService.

(** ** client.go: NewClient *)

(** What [c.HTTPClient.Do] answers to a request. *)
Definition Transport : Type := http.Request -> url.Error + http.Response.

(** The HTTP clients that [NewClient] obtains from other packages:
    [tokenClient id secret authURL token] is
    [oauth2.Config{ClientID, ClientSecret, Endpoint{AuthURL}}.Client(ctx, token)],
    [credentialsClient id secret] is
    [clientcredentials.Config{ClientID, ClientSecret, TokenURL}.Client(ctx)]
    with the token address of Twitch, both under the background
    context; [plainClient] is [&http.Client{}]. *)
Class Transports := {
  tokenClient : string -> string -> string -> string -> Transport;
  credentialsClient : string -> string -> Transport;
  plainClient : Transport }.

Section NewClient.
Context {lib : url.Library} {transports : Transports}.

(** [NewClient], for credentials that are not a nil pointer; [httpClient]
    is [None] for a nil client.  The result is the error or the client,
    and whether the call left a ticker running in a goroutine.  [None]
    stands for a run in which [url.Parse] refuses one of the two constant
    addresses and so leaves a nil URL; [net/url] accepts both. *)
Definition NewClient (creds : Credentials) (httpClient : option Transport)
  : option ((error + Client) * bool) :=
  if String.eqb (ClientId creds) ""
  then Some (inl (ErrorEmptyCredentials "ClientId"), false)
  else if String.eqb (ClientSecret creds) ""
  then Some (inl (ErrorEmptyCredentials "ClientSecret"), false)
  else
    match url.Parse defaultAuthURL, url.Parse defaultBaseURL with
    | inr authURL, inr baseURL =>
        let '(httpClient, ticker) :=
          match OAuthToken creds with
          | Some token =>
              (Some (tokenClient (ClientId creds) (ClientSecret creds)
                       (url.String_ authURL) token),
               true)
          | None => (httpClient, false)
          end in
        let httpClient :=
          match OAuthToken creds, httpClient with
          | None, None =>
              Some (credentialsClient (ClientId creds) (ClientSecret creds))
          | _, _ => httpClient
          end in
        let httpClient :=
          match httpClient with
          | None => plainClient
          | Some h => h
          end in
        Some (inr (mkClient creds httpClient baseURL authURL userAgent), ticker)
    | _, _ => None
    end.

End NewClient.

(** ** Further notions used in the statements *)

(** A path with a query put after it, if there is one. *)
Definition withQuery (p q : string) : string :=
  if String.eqb q "" then p else p +:+ "?" +:+ q.

(** A text that [net/url] takes as a query as it stands, and that is
    not empty: no [#], which would start a fragment, and no control
    byte. *)
Definition plainQuery (q : string) : bool :=
  negb (String.eqb q "")
  && negb (Strings.ContainsByte q "#")
  && negb (url.stringContainsCTLByte q).

(** The pairs of key and value that a field of an options struct
    stands for in a query: none if it is empty and tagged [omitempty],
    one for each element of a slice, one otherwise. *)
Definition fieldPairs (f : query.StructField) : list (string * string) :=
  if query.omitempty f && query.isEmptyValue (query.value f) then []
  else
    match query.value f with
    | query.ofStrings l => List.map (pair (query.name f)) (default [] l)
    | query.ofString s => [(query.name f, s)]
    | query.ofInt n => [(query.name f, strconv.FormatInt n)]
    end.

(** The pairs of an options struct, field by field in declaration
    order. *)
Definition pairs {T} `{query.Struct T} (o : T) : list (string * string) :=
  flat_map fieldPairs (query.fields o).

(** Pairs written as a query: [key=value], both escaped, joined by
    ampersands. *)
Definition pairsText (l : list (string * string)) : string :=
  Strings.Join
    (List.map (fun kv => url.QueryEscape (fst kv) +:+ "=" +:+ url.QueryEscape (snd kv)) l)
    "&".

(** A struct type whose fields are declared by increasing key, as those
    of the three option structs are. *)
Definition fieldsInKeyOrder (T : Type) `{query.Struct T} : Prop :=
  forall (o : T), StronglySorted String.le (List.map query.name (query.fields o)).

(** Adding one pair to the values, and the pairs that an entry of the
    values stands for. *)
Definition addPair (v : url.Values) (kv : string * string) : url.Values :=
  url.Add (fst kv) (snd kv) v.

Definition entryPairs (e : string * list string) : list (string * string) :=
  List.map (pair (fst e)) (snd e).

(** The order of [Values.Encode]: by key. *)
Definition keyLe {A} (a b : string * A) : Prop := String.le (fst a) (fst b).

(** The path and query of the request of a service call on the
    endpoint [base]. *)
Definition requestPath {T} `{query.Struct T} (base : string) (opts : option T)
  : string :=
  match opts with
  | None => base
  | Some o =>
      match pairs o with
      | [] => base
      | _ => base +:+ "?" +:+ pairsText (pairs o)
      end
  end.

(** What a service call does to the wire: it leaves it as it was, or
    adds to it one request, the [GET] without body that [NewRequest]
    builds for the endpoint and the options, under the context of the
    call. *)
Definition sends {T} `{query.Struct T} `{url.Library} (c : Client)
    (base : string) (opts : option T) (ctx : option context.Context)
    (wire wire' : Wire) : Prop :=
  wire' = wire
  \/ exists cx req,
       ctx = Some cx
       /\ NewRequest c http.MethodGet (requestPath base opts) (@None Empty_set)
          = inr req
       /\ wire' = (wire ++ [http.WithContext req cx])%list.

(** Clients for examples: each answers every request with a status of
    its own. *)
Definition sampleTransports : Transports :=
  {| tokenClient := fun _ _ _ _ _ => inr (http.mkResponse 201 ∅ "");
     credentialsClient := fun _ _ _ => inr (http.mkResponse 202 ∅ "");
     plainClient := fun _ => inr (http.mkResponse 203 ∅ "") |}.

(** A header set as the tests of the client set it. *)
Definition rateHeaders (limit remaining reset : string) : http.Header :=
  http.Set_ (http.Set_ (http.Set_ ∅ headerRateLimit limit)
               headerRateRemaining remaining)
    headerRateReset reset.

(** The body of an envelope with one stream key:
    [{"data":[{"stream_key":"..."}]}]. *)
Definition streamKeyBody (key : string) : string :=
  "{" +:+ Examples.quoted "data" +:+ ":[{" +:+ Examples.quoted "stream_key"
  +:+ ":" +:+ Examples.quoted key +:+ "}]}".

(** The body of a listing without streams and with a cursor:
    [{"data":[],"pagination":{"cursor":"..."}}]. *)
Definition cursorBody (cursor : string) : string :=
  "{" +:+ Examples.quoted "data" +:+ ":[]," +:+ Examples.quoted "pagination"
  +:+ ":{" +:+ Examples.quoted "cursor" +:+ ":" +:+ Examples.quoted cursor
  +:+ "}}".

(** The body of an envelope with one user, of whom the identifier and
    the login are given: [{"data":[{"id":"...","login":"..."}]}]. *)
Definition userBody (id login : string) : string :=
  "{" +:+ Examples.quoted "data" +:+ ":[{" +:+ Examples.quoted "id" +:+ ":"
  +:+ Examples.quoted id +:+ "," +:+ Examples.quoted "login" +:+ ":"
  +:+ Examples.quoted login +:+ "}]}".

(** A text that stands for itself between the quotes of a JSON string:
    bytes of ASCII, with no quote, no backslash and no control byte. *)
Definition plainText (s : string) : bool :=
  Strings.forallb
    (fun c => negb (Ascii.eqb c Strings.quote) && negb (Ascii.eqb c "\")
              && negb (Strings.byte c <? 32) && (Strings.byte c <? 128)) s.

(* ================================================================== *)
(** * Part II: properties *)
(* ================================================================== *)

(** ** Machine integers and the calendar *)

Lemma wrap64_inInt64 z : Int.inInt64 z -> Int.wrap64 z = z.
Proof.
  unfold Int.inInt64, Int.wrap64, Int.minInt64, Int.maxInt64, Int.two63, Int.two64.
  intros H. Z.to_euclidean_division_equations; lia.
Qed.

Ltac unfold_time :=
  unfold time.absYear, time.internalToUnix, time.unixToInternal,
    time.absoluteToInternal, time.internalToAbsolute, time.secondsPerDay,
    time.daysPer400Years, time.daysPer100Years, time.daysPer4Years,
    time.absoluteZeroYear, Int.wrap64, Int.wrapU64, Int.inInt64,
    Int.minInt64, Int.maxInt64, Int.two63, Int.two64 in *.

Lemma absYear_le_3000 a : 0 <= a < abs3001 -> time.absYear a <= 3000.
Proof.
  intros H. unfold abs3001 in H. unfold_time.
  rewrite !Z.shiftr_div_pow2 by lia. change (2 ^ 2) with 4.
  Z.to_euclidean_division_equations; lia.
Qed.

Lemma absYear_gt_3000 a : abs3001 <= a < Int.two64 -> 3000 < time.absYear a.
Proof.
  intros H. unfold abs3001 in H. unfold_time.
  rewrite !Z.shiftr_div_pow2 by lia. change (2 ^ 2) with 4.
  Z.to_euclidean_division_equations; lia.
Qed.

Section Calendar.
Context {tz : LocalZone}.
Hypothesis zone_within_a_day : forall unix, -86400 <= localOffset unix <= 86400.

Lemma abs_Unix i :
  -9223372028715235200 <= i <= 9223372036854689407 ->
  time.abs (time.Unix i 0) = i + localOffset i + 9223372028715321600.
Proof.
  intros Hi. unfold time.abs, time.Unix, time.unixTime, time.unixSec.
  cbn [time.sec time.nsec time.loc Z.ltb Z.leb Z.compare orb time.zoneOffset].
  assert (E : Int.wrap64 (Int.wrap64 (i + time.unixToInternal) + time.internalToUnix) = i).
  { unfold_time. Z.to_euclidean_division_equations; lia. }
  rewrite E. pose proof (zone_within_a_day i) as Hz.
  unfold_time. Z.to_euclidean_division_equations; lia.
Qed.

(** Seconds that fall before the year 3001 in every zone. *)
Lemma Year_Unix_le_3000 i :
  -9223372028715235200 <= i < 32535216000 - 86400 ->
  time.Year (time.Unix i 0) <= 3000.
Proof.
  intros Hi. unfold time.Year. rewrite abs_Unix by lia.
  pose proof (zone_within_a_day i). apply absYear_le_3000. unfold abs3001. lia.
Qed.

(** Seconds that fall after the year 3000 in every zone. *)
Lemma Year_Unix_gt_3000 i :
  32535216000 + 86400 <= i <= 9223372036854689407 ->
  3000 < time.Year (time.Unix i 0).
Proof.
  intros Hi. unfold time.Year. rewrite abs_Unix by lia.
  pose proof (zone_within_a_day i). apply absYear_gt_3000.
  unfold abs3001, Int.two64. lia.
Qed.

End Calendar.

(** [time.Unix(0, n)] for a number of nanoseconds that is a whole
    number of seconds. *)
Lemma Unix_whole_seconds s :
  0 <= s <= 9223372036 -> time.Unix 0 (s * 1000000000) = time.Unix s 0.
Proof.
  intros Hs. unfold time.Unix. simpl.
  destruct (Z.ltb_spec (s * 1000000000) 0); [lia|]. simpl.
  destruct (Z.leb_spec 1000000000 (s * 1000000000)).
  - rewrite Z.quot_mul by lia.
    replace (s * 1000000000 - s * 1000000000) with 0 by lia.
    rewrite (wrap64_inInt64 (0 + s)) by (unfold_time; lia). reflexivity.
  - assert (s = 0) by lia. subst. reflexivity.
Qed.

(** ** strconv and time.Parse on quoted text *)

Lemma ParseInt_quote s : strconv.ParseInt (String Strings.quote s) = (0, Some strconv.ErrSyntax).
Proof. reflexivity. Qed.

Lemma parseRFC3339_quote {tz : LocalZone} value t :
  time.parseRFC3339 value = inr t -> exists rest, value = String Strings.quote rest.
Proof.
  unfold time.parseRFC3339. destruct value as [|c rest]; [discriminate|].
  simpl. destruct (Ascii.eqb_spec c Strings.quote); [subst; eauto | discriminate].
Qed.

Lemma Parse_ok_ParseInt_fails {tz : LocalZone} value t :
  time.Parse value = (t, None) ->
  strconv.ParseInt value = (0, Some strconv.ErrSyntax).
Proof.
  unfold time.Parse. destruct (time.parseRFC3339 value) eqn:E; [discriminate|].
  intros _. apply parseRFC3339_quote in E as [rest ->]. apply ParseInt_quote.
Qed.

(** ** timestamp.go *)

Section TimestampProperties.
Context {tz : LocalZone}.

Lemma UnmarshalJSON_seconds t data i :
  strconv.ParseInt data = (i, None) ->
  time.Year (time.Unix i 0) <= 3000 ->
  UnmarshalJSON t data = (mkTimestamp (time.Unix i 0), None).
Proof.
  intros E Hy. unfold UnmarshalJSON. rewrite E. cbn [Time].
  destruct (Z.ltb_spec 3000 (time.Year (time.Unix i 0))); [lia | reflexivity].
Qed.

Lemma UnmarshalJSON_milliseconds t data i :
  strconv.ParseInt data = (i, None) ->
  3000 < time.Year (time.Unix i 0) ->
  UnmarshalJSON t data
  = (mkTimestamp (time.Unix 0 (Int.wrap64 (i * 1000000))), None).
Proof.
  intros E Hy. unfold UnmarshalJSON. rewrite E. cbn [Time].
  destruct (Z.ltb_spec 3000 (time.Year (time.Unix i 0))); [reflexivity | lia].
Qed.

Lemma UnmarshalJSON_string t data tm :
  time.Parse data = (tm, None) ->
  UnmarshalJSON t data = (mkTimestamp tm, None).
Proof.
  intros E. unfold UnmarshalJSON.
  rewrite (Parse_ok_ParseInt_fails _ _ E), E. reflexivity.
Qed.

End TimestampProperties.

(** Where [i * 1e6] fits an [int64], [time.Unix(0, i*1e6)] is the
    instant [i] milliseconds after the epoch. *)
Lemma Unix_nanoseconds_of_milliseconds i :
  Int.inInt64 (i * 1000000) ->
  time.Unix 0 (Int.wrap64 (i * 1000000)) = time.UnixMilli i.
Proof.
  intros Hi. rewrite wrap64_inInt64 by assumption.
  assert (Hr : Int.wrap64 (Z.rem i 1000 * 1000000) = Z.rem i 1000 * 1000000).
  { apply wrap64_inInt64. unfold_time. Z.to_euclidean_division_equations; lia. }
  unfold time.UnixMilli. rewrite Hr. clear Hr.
  assert (Hq : Z.quot (i * 1000000) 1000000000 = Z.quot i 1000).
  { Z.to_euclidean_division_equations; lia. }
  assert (Hm : i * 1000000 - Z.quot i 1000 * 1000000000 = Z.rem i 1000 * 1000000).
  { Z.to_euclidean_division_equations; lia. }
  assert (Hq0 : Z.quot (Z.rem i 1000 * 1000000) 1000000000 = 0).
  { Z.to_euclidean_division_equations; lia. }
  assert (Hb : -1000000000 < Z.rem i 1000 * 1000000 < 1000000000).
  { Z.to_euclidean_division_equations; lia. }
  assert (Hw : Int.wrap64 (0 + Z.quot i 1000) = Z.quot i 1000).
  { apply wrap64_inInt64. unfold_time. Z.to_euclidean_division_equations; lia. }
  assert (Hw' : Int.wrap64 (Z.quot i 1000 + 0) = Z.quot i 1000).
  { rewrite Z.add_comm. exact Hw. }
  unfold time.Unix. rewrite Hq, Hm, Hq0, Hw, Hw'.
  replace (Z.rem i 1000 * 1000000 - 0 * 1000000000) with (Z.rem i 1000 * 1000000) by lia.
  set (r := Z.rem i 1000 * 1000000) in *. set (q := Z.quot i 1000) in *.
  destruct (Z.ltb_spec r 0) as [Hneg|Hpos]; cbn [orb].
  - destruct (Z.ltb_spec (i * 1000000) 0); cbn [orb]; [reflexivity|].
    exfalso. subst r q. Z.to_euclidean_division_equations; lia.
  - destruct (Z.leb_spec 1000000000 r) as [|_]; [lia|].
    destruct ((i * 1000000 <? 0) || (1000000000 <=? i * 1000000)) eqn:E;
      [reflexivity|].
    apply orb_false_elim in E as [E1 E2].
    apply Z.ltb_ge in E1. apply Z.leb_gt in E2.
    assert (q = 0) as -> by (subst q; Z.to_euclidean_division_equations; lia).
    assert (r = i * 1000000) as -> by (subst r; Z.to_euclidean_division_equations; lia).
    reflexivity.
Qed.

Section Refinement.
Context {tz : LocalZone}.

(** Apart from the overflow of [i * 1e6], the code is the algorithm of
    the specification. *)
Lemma UnmarshalJSON_refines_spec t data :
  (forall i, strconv.ParseInt data = (i, None) ->
             3000 < time.Year (time.Unix i 0) -> Int.inInt64 (i * 1000000)) ->
  UnmarshalJSON t data = UnmarshalJSON_spec data.
Proof.
  intros Hfit. unfold UnmarshalJSON, UnmarshalJSON_spec.
  destruct (strconv.ParseInt data) as [i [e|]] eqn:E.
  - destruct (time.Parse data) as [tm [e'|]]; reflexivity.
  - cbn [Time]. destruct (Z.ltb_spec 3000 (time.Year (time.Unix i 0))); [|reflexivity].
    rewrite Unix_nanoseconds_of_milliseconds by auto. reflexivity.
Qed.

(** C2 (amended).  Take an instant a whole number [s] of seconds after
    the Unix epoch, from 1971-01-12T13:35:03Z ([s = 32535303]) to
    2262-04-11T23:47:16Z ([s = 9223372036]), in a process whose local
    zone is within a day of UTC.  Then an integer text for [s], an
    integer text for [1000 * s] and a quoted RFC3339 text for the
    instant all decode without error, and to the same instant. *)
Theorem timestamp_encodings_decode_alike (s : Z) (secs millis rfc : string) :
  (forall unix, -86400 <= localOffset unix <= 86400) ->
  32535303 <= s <= 9223372036 ->
  encodings s secs millis rfc ->
  decodeAlike secs millis rfc.
Proof.
  intros Hz Hs (Ha & Hb & tm & Hc & Heq).
  exists (mkTimestamp (time.Unix s 0)),
         (mkTimestamp (time.Unix 0 (Int.wrap64 (1000 * s * 1000000)))),
         (mkTimestamp tm).
  assert (Hms : time.Unix 0 (Int.wrap64 (1000 * s * 1000000)) = time.Unix s 0).
  { rewrite wrap64_inInt64 by (unfold_time; lia).
    replace (1000 * s * 1000000) with (s * 1000000000) by lia.
    apply Unix_whole_seconds. lia. }
  repeat split.
  - apply UnmarshalJSON_seconds; [assumption|].
    apply Year_Unix_le_3000; [assumption | lia].
  - apply UnmarshalJSON_milliseconds; [assumption|].
    apply Year_Unix_gt_3000; [assumption | lia].
  - apply UnmarshalJSON_string; assumption.
  - cbn [Time]. rewrite Hms. reflexivity.
  - cbn [Time]. rewrite Hms. reflexivity.
  - cbn [Time]. rewrite Hms. symmetry. apply Heq.
  - cbn [Time]. rewrite Hms. symmetry. apply Heq.
Qed.

End Refinement.

(** The reference values of timestamp.go are three encodings of one
    instant, and decode alike. *)
Lemma reference_times_decode_alike :
  decodeAlike (tz := Examples.utc) Examples.referenceUnixTimeStr
    Examples.referenceUnixTimeStrMilliSeconds Examples.referenceTimeStr.
Proof.
  apply (timestamp_encodings_decode_alike (tz := Examples.utc) 1136214245).
  - intros unix. unfold localOffset, Examples.utc. lia.
  - lia.
  - split; [reflexivity|]. split; [reflexivity|].
    eexists. split; [vm_compute; reflexivity|]. split; reflexivity.
Defined.

(** One second after the epoch the three encodings do not decode
    alike: ["1"], ["1000"] and ["1970-01-01T00:00:01Z"] in quotes are
    the encodings of that instant, and the milliseconds are read as
    1000 seconds. *)
Lemma timestamp_encodings_differ_in_1970 :
  encodings (tz := Examples.utc) 1 "1" "1000"
    (Examples.quoted "1970-01-01T00:00:01Z")
  /\ ~ decodeAlike (tz := Examples.utc) "1" "1000"
         (Examples.quoted "1970-01-01T00:00:01Z").
Proof.
  split.
  - split; [reflexivity|]. split; [reflexivity|].
    eexists. split; [vm_compute; reflexivity|]. split; reflexivity.
  - intros (a & b & c & Ha & Hb & _ & [Hab _] & _).
    vm_compute in Ha. vm_compute in Hb.
    injection Ha as <-. injection Hb as <-.
    vm_compute in Hab. discriminate.
Qed.

(** C3.  The text ["9223372036855"] is read as an integer whose seconds
    fall beyond the year 3000, so it stands for milliseconds: the
    instant 2262-04-11T23:47:16.855Z, 9223372036 seconds after the
    epoch, as the algorithm of the specification finds.  The code
    multiplies by [1e6] in an [int64], the product wraps, and the
    timestamp it stores lies in the year 1677, before the epoch. *)
Theorem UnmarshalJSON_milliseconds_overflow :
  exists a b,
    UnmarshalJSON (tz := Examples.utc) (mkTimestamp time.zeroTime) "9223372036855"
    = (a, None)
    /\ UnmarshalJSON_spec (tz := Examples.utc) "9223372036855" = (b, None)
    /\ time.unixSec (Time a) = -9223372037
    /\ time.Year (tz := Examples.utc) (Time a) = 1677
    /\ time.unixSec (Time b) = 9223372036
    /\ time.Year (tz := Examples.utc) (Time b) = 2262.
Proof.
  eexists. eexists.
  split; [vm_compute; reflexivity|]. split; [vm_compute; reflexivity|].
  repeat split; vm_compute; reflexivity.
Qed.

(** ** Strings *)

Lemma Cut_absent s x :
  Strings.ContainsByte s x = false -> Strings.Cut s x = (s, "", false).
Proof.
  induction s as [|c s IH]; cbn; [reflexivity|].
  destruct (Ascii.eqb c x); cbn; [discriminate|].
  intros H. rewrite (IH H). reflexivity.
Qed.

Lemma HasSuffixByte_absent s x :
  Strings.ContainsByte s x = false -> Strings.HasSuffixByte s x = false.
Proof.
  induction s as [|c s IH]; cbn; [reflexivity|].
  destruct (Ascii.eqb c x) eqn:E; cbn; [discriminate|].
  intros H. destruct s; [assumption | apply IH, H].
Qed.

Lemma forallb_absent (p : ascii -> bool) x s :
  (forall c, p c = true -> Ascii.eqb c x = false) ->
  Strings.forallb p s = true -> Strings.ContainsByte s x = false.
Proof.
  intros Hp. induction s as [|c s IH]; cbn; [reflexivity|].
  intros [Hc Hs]%andb_prop. rewrite (Hp c Hc), (IH Hs). reflexivity.
Qed.

Lemma append_nil s : "" +:+ s = s.
Proof. reflexivity. Qed.

Lemma append_cons c s t : String c s +:+ t = String c (s +:+ t).
Proof. reflexivity. Qed.

Lemma append_empty_r s : s +:+ "" = s.
Proof.
  induction s as [|c s IH]; [reflexivity|]. rewrite append_cons, IH. reflexivity.
Qed.

(** ** net/url on a path *)

Ltac each_byte c :=
  destruct c as [[] [] [] [] [] [] [] []]; vm_compute; try reflexivity;
  try discriminate.

Lemma pathByte_not_control c :
  pathByte c = true ->
  negb ((Strings.byte c <? 32) || (Strings.byte c =? 127)) = true.
Proof. each_byte c. Qed.

Lemma pathByte_not_question c : pathByte c = true -> Ascii.eqb c "?" = false.
Proof. each_byte c. Qed.

Lemma pathByte_not_hash c : pathByte c = true -> Ascii.eqb c "#" = false.
Proof. each_byte c. Qed.

Lemma validEncoded_no_control s :
  url.validEncoded s url.encodePath = true -> url.stringContainsCTLByte s = false.
Proof.
  unfold url.validEncoded, url.stringContainsCTLByte. intros H.
  apply negb_false_iff. induction s as [|c s IH]; [reflexivity|].
  cbn in H |- *. apply andb_prop in H as [Hc Hs].
  rewrite (pathByte_not_control c Hc), (IH Hs). reflexivity.
Qed.

Lemma validEncoded_no_question s :
  url.validEncoded s url.encodePath = true -> Strings.ContainsByte s "?" = false.
Proof. apply forallb_absent, pathByte_not_question. Qed.

Lemma validEncoded_no_hash s :
  url.validEncoded s url.encodePath = true -> Strings.ContainsByte s "#" = false.
Proof. apply forallb_absent, pathByte_not_hash. Qed.

(** Without a colon in its first segment, a text has no scheme. *)
Lemma getSchemeFrom_no_colon s i :
  url.firstSegmentHasColon s = false -> url.getSchemeFrom i s = inr None.
Proof.
  revert i. induction s as [|c s IH]; intros i; [reflexivity|].
  unfold url.firstSegmentHasColon. cbn [Strings.Cut].
  destruct (Ascii.eqb_spec c "/") as [->|Hslash].
  - intros _. reflexivity.
  - destruct (Strings.Cut s "/") as [[b a] f] eqn:E. cbn [Strings.ContainsByte].
    intros [Hc Hs]%orb_false_elim.
    assert (Hs' : url.firstSegmentHasColon s = false).
    { unfold url.firstSegmentHasColon. rewrite E. exact Hs. }
    cbn [url.getSchemeFrom]. rewrite !(IH _ Hs'), Hc.
    destruct (Strings.isLetter c); [reflexivity|].
    destruct (Strings.isDigitByte c || url.oneOf c "+-."); [|reflexivity].
    destruct i; reflexivity.
Qed.

Lemma getScheme_no_colon s :
  url.firstSegmentHasColon s = false -> url.getScheme s = inr ("", s).
Proof.
  intros H. unfold url.getScheme. rewrite getSchemeFrom_no_colon by assumption.
  reflexivity.
Qed.

(** The only path that the escaping of ["*"] yields. *)
Lemma escape_star : url.escape "*" url.encodePath = "%2A".
Proof. reflexivity. Qed.

Section ParsePath.
Context {lib : url.Library}.

(** [url.Parse] on a valid base path gives a URL that is written back
    as the path, once its query is set to the empty string. *)
Lemma Parse_String_validBasePath s :
  validBasePath s = true ->
  exists u, url.Parse s = inr u /\ url.String_ (url.setRawQuery u "") = s.
Proof.
  unfold validBasePath.
  intros [[[[Hv Hu]%andb_prop Hss]%andb_prop Hcol]%andb_prop Hstar]%andb_prop.
  apply negb_true_iff in Hss, Hcol, Hstar.
  destruct (url.unescape s url.encodePath) as [p|] eqn:Ep; [clear Hu | discriminate].
  unfold url.Parse. rewrite (Cut_absent _ _ (validEncoded_no_hash _ Hv)).
  unfold url.parse. rewrite (validEncoded_no_control _ Hv).
  destruct (String.eqb_spec s "*") as [->|Hns].
  { eexists. split; reflexivity. }
  rewrite (getScheme_no_colon _ Hcol). cbn [Strings.ToLower].
  rewrite (HasSuffixByte_absent _ _ (validEncoded_no_question _ Hv)).
  cbn [andb]. rewrite (Cut_absent _ _ (validEncoded_no_question _ Hv)).
  cbn [String.eqb negb andb orb]. rewrite Hcol, Hss, !andb_false_r.
  cbn [andb]. unfold url.setPath. rewrite Ep.
  eexists. split; [reflexivity|].
  unfold url.String_, url.setRawQuery.
  cbn [url.Scheme url.Opaque url.User url.Host url.Path url.RawPath
       url.OmitHost url.ForceQuery url.RawQuery url.Fragment url.RawFragment
       String.eqb negb orb andb].
  set (u := url.mkURL _ _ _ _ _ _ _ _ _ _ _).
  assert (Hpath : url.EscapedPath u = s).
  { unfold url.EscapedPath, u.
    cbn [url.Scheme url.Opaque url.User url.Host url.Path url.RawPath].
    destruct (String.eqb_spec s (url.escape p url.encodePath)) as [Heq|Hne].
    - cbn [String.eqb negb andb].
      destruct (String.eqb_spec p "*") as [->|_]; [|now symmetry].
      rewrite escape_star in Heq. subst s. discriminate.
    - assert (Hs : String.eqb s "" = false).
      { destruct s; [|reflexivity]. cbn in Ep. injection Ep as <-.
        now contradiction Hne. }
      rewrite Hs, Hv, Ep, String.eqb_refl. reflexivity. }
  rewrite Hpath, andb_false_r. cbn [String.eqb andb]. rewrite Hcol.
  reflexivity.
Qed.

End ParsePath.

(** ** The query encoder *)

Lemma Encode_empty : url.Encode ∅ = "".
Proof. unfold url.Encode, url.sortedEntries. rewrite map_to_list_empty. reflexivity. Qed.

Lemma Encode_singleton k (vs : list string) :
  url.Encode {[ k := vs ]}
  = Strings.Join (List.map (fun x => url.QueryEscape k +:+ "=" +:+ url.QueryEscape x) vs) "&".
Proof.
  unfold url.Encode, url.sortedEntries. rewrite map_to_list_singleton.
  cbn [foldr url.insertKey List.map concat fst snd]. rewrite app_nil_r. reflexivity.
Qed.

(** Adding the elements of a slice, one by one, under one key. *)
Lemma Add_all k (l : list string) (m : url.Values) :
  l <> [] ->
  foldl (fun vs x => url.Add k x vs) m l
  = <[ k := (default [] (m !! k) ++ l)%list ]> m.
Proof.
  revert m. induction l as [|x l IH]; intros m Hl; [congruence|].
  destruct l as [|y l'].
  - reflexivity.
  - cbn [foldl]. cbn [foldl] in IH. rewrite IH by discriminate.
    unfold url.Add. rewrite lookup_insert_eq. cbn [default].
    rewrite insert_insert_eq. unfold id. rewrite <- app_assoc. reflexivity.
Qed.

(** A field that is empty and tagged [omitempty] adds nothing. *)
Lemma reflectValue_all_empty (fs : list query.StructField) (m : url.Values) :
  Forall (fun f => query.omitempty f = true) fs ->
  Forall (fun f => query.isEmptyValue (query.value f) = true) fs ->
  query.reflectValue m fs = m.
Proof.
  unfold query.reflectValue. revert m.
  induction fs as [|f fs IH]; intros m Ho He; [reflexivity|].
  inversion Ho; inversion He; subst. cbn [foldl].
  unfold query.reflectField at 2.
  replace (query.omitempty f) with true by auto.
  replace (query.isEmptyValue (query.value f)) with true by auto.
  cbn [andb]. auto.
Qed.

Lemma UsersOptions_omitempty : allOmitEmpty UsersOptions.
Proof. intros o. repeat constructor. Qed.

Lemma StreamsOptions_omitempty : allOmitEmpty StreamsOptions.
Proof. intros o. repeat constructor. Qed.

Lemma BroadcasterID_omitempty : allOmitEmpty BroadcasterID.
Proof. intros o. repeat constructor. Qed.

(** What [query.Values] makes of a [UsersOptions] that has a login: one
    key, ["id"], with the identifiers followed by the logins. *)
Lemma Values_UsersOptions (o : UsersOptions) :
  default [] (Logins o) <> [] ->
  fst (query.Values_ (Some o))
  = {[ "id" := (default [] (Ids o) ++ default [] (Logins o))%list ]}.
Proof.
  intros Hl. cbn [query.Values_ fst]. unfold query.reflectValue, query.fields,
    UsersOptions_Struct. cbn [foldl].
  unfold query.reflectField.
  cbn [query.omitempty query.value query.name query.isEmptyValue andb].
  destruct (default [] (Ids o)) as [|i ids] eqn:Ei.
  - cbn [List.length Nat.eqb].
    destruct (default [] (Logins o)) as [|l ls] eqn:El; [congruence|].
    cbn [List.length Nat.eqb]. rewrite Add_all by discriminate.
    rewrite lookup_empty. reflexivity.
  - cbn [List.length Nat.eqb]. rewrite (Add_all _ (i :: ids)) by discriminate.
    destruct (default [] (Logins o)) as [|l ls] eqn:El; [congruence|].
    cbn [List.length Nat.eqb]. rewrite Add_all by discriminate.
    rewrite lookup_insert_eq, insert_insert_eq, lookup_empty. reflexivity.
Qed.

(** ** client.go: addParams *)

Section AddParams.
Context {lib : url.Library}.

Lemma addParams_nil {T} `{query.Struct T} (s : string) :
  addParams s (@None T) = (s, None).
Proof. reflexivity. Qed.

Lemma addParams_empty {T} `{query.Struct T} (s : string) (o : T) :
  validBasePath s = true -> allOmitEmpty T -> allEmpty o ->
  addParams s (Some o) = (s, None).
Proof.
  intros Hs Ho He. unfold addParams.
  destruct (Parse_String_validBasePath s Hs) as (u & -> & Hu).
  cbn [query.Values_]. rewrite reflectValue_all_empty by auto.
  rewrite Encode_empty, Hu. reflexivity.
Qed.

(** C7.  For a valid base path, [addParams] returns the path as it is,
    without error and without a question mark at its end, both when
    the options are a nil pointer and when they point to a struct
    whose fields, all tagged [omitempty], are all zero or empty. *)
Theorem addParams_leaves_path_unchanged {T} `{query.Struct T}
    (s : string) (o : T) :
  validBasePath s = true -> allOmitEmpty T -> allEmpty o ->
  addParams s (@None T) = (s, None)
  /\ addParams s (Some o) = (s, None)
  /\ Strings.HasSuffixByte (fst (addParams s (Some o))) "?" = false.
Proof.
  intros Hs Ho He. split; [apply addParams_nil|].
  rewrite addParams_empty by assumption. split; [reflexivity|]. cbn [fst].
  apply HasSuffixByte_absent, validEncoded_no_question.
  unfold validBasePath in Hs.
  apply andb_prop in Hs as [[[[Hv _]%andb_prop _]%andb_prop _]%andb_prop _].
  exact Hv.
Qed.

(** The query of a [UsersOptions] with a login starts with ["id="]. *)
Lemma Encode_ids_nonempty (l : list string) :
  l <> [] ->
  exists rest,
    Strings.Join (List.map (fun v => "id=" +:+ url.QueryEscape v) l) "&"
    = String "i" rest.
Proof.
  destruct l as [|x [|y l]]; [congruence | |]; intros _; eexists; reflexivity.
Qed.

(** C10.  For a [UsersOptions] with at least one login, [query.Values]
    has the single key ["id"], whose values are the identifiers
    followed by the logins, and no key ["login"]; the path that
    [addParams] builds for the users endpoint carries them as
    [id=...] pairs in that order. *)
Theorem UsersOptions_logins_sent_as_id (o : UsersOptions) :
  default [] (Logins o) <> [] ->
  let all := (default [] (Ids o) ++ default [] (Logins o))%list in
  fst (query.Values_ (Some o)) = {[ "id" := all ]}
  /\ fst (query.Values_ (Some o)) !! "login" = None
  /\ addParams users.getUsersPath (Some o)
     = ("users?" +:+ Strings.Join
                       (List.map (fun v => "id=" +:+ url.QueryEscape v) all) "&",
        None).
Proof.
  intros Hl all. pose proof (Values_UsersOptions o Hl) as Hv. fold all in Hv.
  split; [exact Hv|]. split.
  - rewrite Hv. apply lookup_singleton_ne. discriminate.
  - unfold addParams. change (url.Parse users.getUsersPath) with
      (@inr url.Error _ (url.mkURL "" "" None "" "users" "" false false "" "" "")).
    destruct (query.Values_ (Some o)) as [qs e] eqn:E.
    assert (e = None) as -> by (cbn in E; congruence).
    cbn [fst] in Hv. subst qs. rewrite Encode_singleton.
    change (fun x => url.QueryEscape "id" +:+ "=" +:+ url.QueryEscape x)
      with (fun v => "id=" +:+ url.QueryEscape v).
    destruct (Encode_ids_nonempty all) as [rest Hrest].
    { unfold all. intros [_ H]%app_eq_nil. contradiction. }
    rewrite Hrest. reflexivity.
Qed.

End AddParams.

(** The paths of the client are valid base paths. *)
Lemma client_paths_valid :
  validBasePath users.getUsersPath = true
  /\ validBasePath streams.getStreamsPath = true
  /\ validBasePath streams.getFollowedStreamsPath = true
  /\ validBasePath streams.getStreamKeyPath = true
  /\ validBasePath streams.getStreamMarkersPath = true.
Proof. repeat split; reflexivity. Qed.

(** The zero [StreamsOptions] on the streams path. *)
Lemma addParams_streams_zero :
  addParams (lib := Examples.plainURLs) streams.getStreamsPath (@None StreamsOptions)
  = ("streams", None)
  /\ addParams (lib := Examples.plainURLs) streams.getStreamsPath
       (Some (mkStreamsOptions "" "" 0 "" "" "" ""))
     = ("streams", None)
  /\ Strings.HasSuffixByte
       (fst (addParams (lib := Examples.plainURLs) streams.getStreamsPath
               (Some (mkStreamsOptions "" "" 0 "" "" "" "")))) "?" = false.
Proof.
  apply (addParams_leaves_path_unchanged (lib := Examples.plainURLs)).
  - reflexivity.
  - apply StreamsOptions_omitempty.
  - repeat constructor.
Defined.

(** One identifier and one login on the users path. *)
Lemma UsersOptions_one_login_sent_as_id :
  let o := mkUsersOptions (Some ["12"]) (Some ["aboba"]) in
  fst (query.Values_ (Some o)) = {[ "id" := ["12"; "aboba"] ]}
  /\ fst (query.Values_ (Some o)) !! "login" = None
  /\ addParams (lib := Examples.plainURLs) users.getUsersPath (Some o)
     = ("users?id=12&id=aboba", None).
Proof.
  apply (UsersOptions_logins_sent_as_id (lib := Examples.plainURLs)
           (mkUsersOptions (Some ["12"]) (Some ["aboba"]))).
  discriminate.
Defined.

(** ** encoding/json: the reader never runs out of steps *)

Lemma good_weaken {A} (n m : nat) (r : json.Scan A) :
  (n <= m)%nat -> good n r -> good m r.
Proof. destruct r; cbn; auto; lia. Qed.

Lemma good_andThen {A B} (n m : nat) (r : json.Scan A) (k : A -> string -> json.Scan B) :
  good n r ->
  (forall a rest, (String.length rest < n)%nat -> good m (k a rest)) ->
  good m (json.andThen r k).
Proof. destruct r; cbn; auto. Qed.

Lemma skipSpace_length s : (String.length (json.skipSpace s) <= String.length s)%nat.
Proof.
  induction s as [|c s IH]; cbn; [lia|].
  destruct (json.isSpace c); cbn; lia.
Qed.

Lemma scanString_good s : good (String.length s) (json.scanString s).
Proof.
  remember (String.length s) as n eqn:Hn.
  assert (Hle : (String.length s <= n)%nat) by lia. clear Hn.
  revert s Hle. induction n as [n IH] using lt_wf_ind. intros s Hle.
  assert (Hrec : forall s', (String.length s' < String.length s)%nat ->
                            good (String.length s') (json.scanString s')).
  { intros s' Hs'. apply (IH (String.length s')); lia. }
  apply (good_weaken (String.length s)); [lia|]. clear IH Hle.
  destruct s as [|c rest]; [exact I|]. cbn [json.scanString].
  destruct (Ascii.eqb c Strings.quote); [cbn; lia|].
  destruct (Ascii.eqb c "\").
  - destruct rest as [|e rest1]; [exact I|].
    destruct (Ascii.eqb e "u").
    + destruct rest1 as [|a [|b [|c' [|d rest2]]]];
        try (match goal with |- good _ (if ?b then _ else _) => destruct b; exact I end).
      destruct (_ && _); [|exact I].
      apply (good_andThen (String.length rest2)); [apply Hrec; cbn; lia|].
      intros w r Hr. cbn in *. lia.
    + destruct (json.simpleEscape e); [|exact I].
      apply (good_andThen (String.length rest1)); [apply Hrec; cbn; lia|].
      intros w r Hr. cbn in *. lia.
  - destruct (_ <? _); [exact I|].
    apply (good_andThen (String.length rest)); [apply Hrec; cbn; lia|].
    intros w r Hr. cbn in *. lia.
Qed.

Lemma spanDigits_length s :
  (String.length (snd (json.spanDigits s)) <= String.length s)%nat.
Proof.
  induction s as [|c s IH]; cbn; [lia|].
  destruct (Strings.isDigitByte c); [|cbn; lia].
  destruct (json.spanDigits s). cbn in *. lia.
Qed.

Lemma digits1_good s : good (String.length s) (json.digits1 s).
Proof.
  destruct s as [|c s]; [exact I|]. unfold json.digits1.
  destruct (Strings.isDigitByte c) eqn:E; [|exact I].
  cbn [json.spanDigits]. rewrite E. pose proof (spanDigits_length s) as H.
  destruct (json.spanDigits s). cbn in *. lia.
Qed.

Lemma intPart_good s : good (String.length s) (json.intPart s).
Proof.
  destruct s as [|c s]; [exact I|]. unfold json.intPart.
  destruct (Ascii.eqb c "0"); [cbn; lia | apply digits1_good].
Qed.

Lemma fracPart_good s : good (S (String.length s)) (json.fracPart s).
Proof.
  destruct s as [|c s]; [cbn; lia|]. unfold json.fracPart.
  destruct (Ascii.eqb c "."); [|cbn; lia].
  apply (good_andThen (String.length s)); [apply digits1_good|].
  intros d r Hr. cbn in *. lia.
Qed.

Lemma expPart_good s : good (S (String.length s)) (json.expPart s).
Proof.
  destruct s as [|e s]; [cbn; lia|]. unfold json.expPart.
  destruct (_ || _); [|cbn; lia].
  destruct s as [|sign s']; [exact I|].
  destruct (_ || _).
  - apply (good_andThen (String.length s')); [apply digits1_good|].
    intros d r Hr. cbn in *. lia.
  - apply (good_andThen (String.length (String sign s'))); [apply digits1_good|].
    intros d r Hr. cbn in *. lia.
Qed.

Lemma scanNumber_good s : good (String.length s) (json.scanNumber s).
Proof.
  unfold json.scanNumber.
  set (p := match s with
            | String c s' => if Ascii.eqb c "-" then ("-", s') else ("", s)
            | EmptyString => ("", s)
            end).
  assert (Hp : (String.length (snd p) <= String.length s)%nat).
  { subst p. destruct s as [|c s']; [cbn; lia|].
    destruct (Ascii.eqb c "-"); cbn; lia. }
  destruct p as [sign s0]. cbn [snd] in Hp.
  apply (good_andThen (String.length s0)); [apply intPart_good|].
  intros i s1 H1.
  apply (good_andThen (S (String.length s1))); [apply fracPart_good|].
  intros f s2 H2.
  apply (good_andThen (S (String.length s2))); [apply expPart_good|].
  intros e s3 H3. cbn. lia.
Qed.

Lemma scanLiteral_good {A} lit (v : A) s :
  good (S (String.length s)) (json.scanLiteral lit v s).
Proof.
  revert s. induction lit as [|a lit IH]; intros s; [cbn; lia|].
  destruct s as [|b s]; [exact I|]. cbn [json.scanLiteral].
  destruct (Ascii.eqb a b); [|exact I].
  apply (good_weaken (S (String.length s))); [cbn; lia | apply IH].
Qed.

Lemma afterValue_good {A} (n : nat) close s (last more : string -> json.Scan A) :
  (forall rest, (String.length rest < String.length s)%nat -> good n (last rest)) ->
  (forall rest, (String.length rest < String.length s)%nat -> good n (more rest)) ->
  good n (json.afterValue close s last more).
Proof.
  intros Hl Hm. unfold json.afterValue. pose proof (skipSpace_length s) as Hs.
  destruct (json.skipSpace s) as [|c rest]; [exact I|]. cbn in Hs.
  destruct (Ascii.eqb c close); [apply Hl; lia|].
  destruct (Ascii.eqb c ","); [apply Hm; lia | exact I].
Qed.

(** With two steps for each byte of the input, and one more for the
    elements of an array and the members of an object, the scanners do
    not run out of steps, and what they leave is shorter than the
    input. *)
Lemma scan_good (fuel : nat) :
  (forall s, (2 * String.length s < fuel)%nat ->
             good (String.length s) (json.scanValue fuel s))
  /\ (forall s, (2 * String.length s + 1 < fuel)%nat ->
                good (String.length s) (json.scanElements fuel s))
  /\ (forall s, (2 * String.length s + 1 < fuel)%nat ->
                good (String.length s) (json.scanMembers fuel s)).
Proof.
  induction fuel as [|fuel (IHv & IHe & IHm)]; [repeat split; intros; lia|].
  repeat split; intros s Hs.
  - cbn [json.scanValue]. pose proof (skipSpace_length s) as Hk.
    apply (good_weaken (String.length (json.skipSpace s))); [lia|].
    destruct (json.skipSpace s) as [|c rest] eqn:Es; [exact I|].
    cbn [String.length] in Hk |- *.
    destruct (Ascii.eqb c "{").
    { pose proof (skipSpace_length rest) as Hr.
      destruct (json.skipSpace rest) as [|c' rest']; [exact I|]. cbn in Hr.
      destruct (Ascii.eqb c' "}"); [cbn; lia|].
      apply (good_andThen (String.length (String c' rest'))).
      - apply IHm. cbn. lia.
      - intros l r Hl. cbn in *. lia. }
    destruct (Ascii.eqb c "[").
    { pose proof (skipSpace_length rest) as Hr.
      destruct (json.skipSpace rest) as [|c' rest']; [exact I|]. cbn in Hr.
      destruct (Ascii.eqb c' "]"); [cbn; lia|].
      apply (good_andThen (String.length (String c' rest'))).
      - apply IHe. cbn. lia.
      - intros l r Hl. cbn in *. lia. }
    destruct (Ascii.eqb c Strings.quote).
    { apply (good_andThen (String.length rest)); [apply scanString_good|].
      intros w r Hr. cbn. lia. }
    destruct (Ascii.eqb c "t"); [apply scanLiteral_good|].
    destruct (Ascii.eqb c "f"); [apply scanLiteral_good|].
    destruct (Ascii.eqb c "n"); [apply scanLiteral_good|].
    destruct (_ || _); [|exact I].
    apply (good_andThen (String.length (String c rest))); [apply scanNumber_good|].
    intros n r Hr. cbn in *. lia.
  - cbn [json.scanElements].
    apply (good_andThen (String.length s)); [apply IHv; lia|].
    intros v rest Hrest. apply afterValue_good; intros rest' Hr'.
    + cbn. lia.
    + apply (good_andThen (String.length rest')); [apply IHe; lia|].
      intros l r Hl. cbn. lia.
  - cbn [json.scanMembers]. pose proof (skipSpace_length s) as Hk.
    destruct (json.skipSpace s) as [|q rest]; [exact I|]. cbn in Hk.
    destruct (Ascii.eqb q Strings.quote); [|exact I].
    apply (good_andThen (String.length rest)); [apply scanString_good|].
    intros w rest1 H1. pose proof (skipSpace_length rest1) as Hk1.
    destruct (json.skipSpace rest1) as [|colon rest2]; [exact I|]. cbn in Hk1.
    destruct (Ascii.eqb colon ":"); [|exact I].
    apply (good_andThen (String.length rest2)); [apply IHv; lia|].
    intros v rest3 H3. apply afterValue_good; intros rest' Hr'.
    + cbn. lia.
    + apply (good_andThen (String.length rest')); [apply IHm; lia|].
      intros l r Hl. cbn. lia.
Qed.

(** [readValue] gives the scanner steps enough: it reports a syntax
    error only for text that is no JSON. *)
Lemma readValue_steps_suffice (body : string) :
  let s := json.skipSpace body in
  json.scanValue (2 * String.length s + 2) s <> json.Exhausted.
Proof.
  intros s. pose proof (proj1 (scan_good (2 * String.length s + 2)) s) as H.
  intros E. rewrite E in H. apply H. lia.
Qed.

(** ** client.go: Do *)

Section DoProperties.
Context {T : Type} {U : decode.Unmarshal T}.
Implicit Types (c : Client) (cx : context.Context) (req : http.Request)
  (v : decode.Target T) (wire : Wire) (resp : http.Response).

Lemma isSuccess_NewResponse resp :
  isSuccess (NewResponse resp) = true <-> 200 <= http.StatusCode resp <= 299.
Proof.
  unfold isSuccess, NewResponse, parseRate. cbn [Response_].
  rewrite andb_true_iff, !Z.leb_le. reflexivity.
Qed.

Lemma Do_nil_context c req v wire :
  Do c None req v wire = ((None, Some errNonNilContext, v), wire).
Proof. reflexivity. Qed.

Lemma Decode_empty_body v : decode.Decode "" v = (v, Some io_EOF).
Proof. reflexivity. Qed.

(** C6.  When the transport answers a request with a response, [Do]
    takes a status code from 200 to 299, and no other, as a success,
    and then returns the response wrapper.  For any other status code
    it returns a nil wrapper together with an [ErrorResponse] that
    carries the raw response and the message "response is not
    success"; the decode target is left as it was. *)
Theorem Do_classifies_status c cx req v wire resp :
  HTTPClient c (http.WithContext req cx) = inr resp ->
  (isSuccess (NewResponse resp) = true <-> 200 <= http.StatusCode resp <= 299)
  /\ (200 <= http.StatusCode resp <= 299 ->
      exists err v',
        Do c (Some cx) req v wire
        = ((Some (NewResponse resp), err, v'),
           (wire ++ [http.WithContext req cx])%list))
  /\ (~ 200 <= http.StatusCode resp <= 299 ->
      Do c (Some cx) req v wire
      = ((None, Some (ErrorResponse resp notSuccessResponse), v),
         (wire ++ [http.WithContext req cx])%list)).
Proof.
  intros Hresp. split; [apply isSuccess_NewResponse|].
  unfold Do. rewrite Hresp.
  destruct (isSuccess (NewResponse resp)) eqn:Hs; cbn [negb].
  - apply isSuccess_NewResponse in Hs. split; [|tauto].
    intros _. destruct v as [|target|]; [eauto| |];
      match goal with
      | |- context [decode.Decode ?b ?v] => destruct (decode.Decode b v); eauto
      end.
  - split; [|reflexivity].
    intros H%isSuccess_NewResponse. congruence.
Qed.

(** C8.  When the transport answers with a status code from 200 to 299
    and an empty body, [Do] with a decode target that is not nil returns
    the response wrapper and no error, and the target is as it was
    before the call. *)
Theorem Do_empty_body c cx req v wire resp :
  HTTPClient c (http.WithContext req cx) = inr resp ->
  200 <= http.StatusCode resp <= 299 ->
  http.RespBody resp = "" ->
  v <> decode.nilTarget ->
  Do c (Some cx) req v wire
  = ((Some (NewResponse resp), None, v),
     (wire ++ [http.WithContext req cx])%list).
Proof.
  intros Hresp Hs%isSuccess_NewResponse Hbody Hv.
  unfold Do. rewrite Hresp, Hs, Hbody. cbn [negb].
  destruct v; [contradiction| |]; rewrite Decode_empty_body; reflexivity.
Qed.

(** C9.  When the transport fails: if the context is done, [Do]
    returns the error of the context ([ctx.Err()]); if it is not, [Do]
    returns the error of the transport as it is.  The wrapper is nil
    in both cases. *)
Theorem Do_transport_error c cx req v wire (err : url.Error) :
  HTTPClient c (http.WithContext req cx) = inl err ->
  (forall reason, context.Err cx = Some reason ->
     Do c (Some cx) req v wire
     = ((None, Some (contextError reason), v),
        (wire ++ [http.WithContext req cx])%list))
  /\ (context.Err cx = None ->
      Do c (Some cx) req v wire
      = ((None, Some (urlError err), v),
         (wire ++ [http.WithContext req cx])%list)).
Proof.
  intros Herr. unfold Do. rewrite Herr.
  split; [intros reason ->|intros ->]; reflexivity.
Qed.

End DoProperties.

(** A 404 answer: a nil wrapper, the [ErrorResponse], the target
    untouched. *)
Lemma Do_not_found :
  Do (Examples.answering 404 "") (Some context.Background)
     (Examples.get "bad") (decode.pointerTo (streams.mkStreamKeyResponse None)) []
  = ((None,
      Some (ErrorResponse (http.mkResponse 404 ∅ "") notSuccessResponse),
      decode.pointerTo (streams.mkStreamKeyResponse None)),
     [Examples.get "bad"]).
Proof.
  refine (proj2 (proj2 (Do_classifies_status
            (Examples.answering 404 "") context.Background (Examples.get "bad")
            (decode.pointerTo (streams.mkStreamKeyResponse None)) []
            (http.mkResponse 404 ∅ "") eq_refl)) _).
  cbn [http.StatusCode]. lia.
Defined.

(** A 200 answer without a body: the wrapper, no error, the target
    untouched. *)
Lemma Do_ok_without_body :
  Do (Examples.answering 200 "") (Some context.Background)
     (Examples.get "") (decode.pointerTo (streams.mkStreamKeyResponse (Some [])))  []
  = ((Some (NewResponse (http.mkResponse 200 ∅ "")), None,
      decode.pointerTo (streams.mkStreamKeyResponse (Some []))),
     [Examples.get ""]).
Proof.
  apply (Do_empty_body (Examples.answering 200 "")
           context.Background (Examples.get "")).
  - reflexivity.
  - cbn [http.StatusCode]. lia.
  - reflexivity.
  - discriminate.
Defined.

(** A transport that fails, under a cancelled context and under a live
    one. *)
Lemma Do_cancelled_or_not :
  let err := url.mkError "Get" "https://api.twitch.tv/helix/" "connection refused" in
  Do (Examples.failing err)
     (Some (context.mkContext (Some context.Canceled)))
     (Examples.get "") (decode.pointerTo (streams.mkStreamKeyResponse None)) []
  = ((None, Some (contextError context.Canceled),
      decode.pointerTo (streams.mkStreamKeyResponse None)),
     [http.WithContext (Examples.get "") (context.mkContext (Some context.Canceled))])
  /\ Do (Examples.failing err) (Some context.Background)
       (Examples.get "") (decode.pointerTo (streams.mkStreamKeyResponse None)) []
     = ((None, Some (urlError err), decode.pointerTo (streams.mkStreamKeyResponse None)),
        [Examples.get ""]).
Proof.
  intros err. split.
  - apply (proj1 (Do_transport_error (Examples.failing err)
             (context.mkContext (Some context.Canceled)) (Examples.get "")
             (decode.pointerTo (streams.mkStreamKeyResponse None)) [] err eq_refl)).
    reflexivity.
  - apply (proj2 (Do_transport_error (Examples.failing err)
             context.Background (Examples.get "")
             (decode.pointerTo (streams.mkStreamKeyResponse None)) [] err eq_refl)).
    reflexivity.
Defined.

(** ** Which errors a call can return *)

Lemma andThen_notInvalidOptions a b :
  notInvalidOptions (decode.errorOf a) ->
  notInvalidOptions (decode.errorOf b) ->
  notInvalidOptions (decode.errorOf (decode.andThen a b)).
Proof. destruct a, b; cbn; auto. Qed.

Lemma string_decodes : decodes string.
Proof. intros [] v; exact I. Qed.

Lemma int_decodes : decodes Z.
Proof.
  intros j v. destruct j; try exact I. cbn.
  destruct (strconv.ParseInt raw) as [n [e|]]; exact I.
Qed.

Lemma Timestamp_decodes {tz : LocalZone} : decodes Timestamp.
Proof.
  intros j v. unfold decode.unmarshal, decode.Timestamp_Unmarshal, UnmarshalJSON.
  destruct (strconv.ParseInt (json.text j)) as [i [e|]].
  - destruct (time.Parse (json.text j)) as [tm [e'|]]; exact I.
  - destruct (3000 <? _); exact I.
Qed.

Lemma members_stores {T} (field : string -> option (json.Value -> T -> T * decode.Outcome)) :
  (forall key store, field key = Some store -> stores store) ->
  forall l v, notInvalidOptions (decode.errorOf (snd (decode.members field l v))).
Proof.
  intros Hf. induction l as [|[key j] l IH]; intros v; [exact I|].
  cbn [decode.members]. destruct (field key) as [store|] eqn:E; [|apply IH].
  pose proof (Hf key store E j v) as Hs.
  destruct (store j v) as [v1 o1]. cbn [snd] in Hs.
  destruct (decode.stopped o1); [exact Hs|].
  pose proof (IH v1) as H1. destruct (decode.members field l v1) as [v2 o2].
  apply andThen_notInvalidOptions; assumption.
Qed.

Lemma object_stores {T} type_ (field : string -> option (json.Value -> T -> T * decode.Outcome)) :
  (forall key store, field key = Some store -> stores store) ->
  stores (decode.object type_ field).
Proof.
  intros Hf j v. destruct j; try exact I. apply members_stores, Hf.
Qed.

Lemma pointer_decodes {T} (zero : T) `{decode.Unmarshal T} :
  decodes T -> stores (decode.pointer zero).
Proof.
  intros Hd j p. unfold decode.pointer.
  destruct j; try exact I;
    match goal with
    | |- context [decode.unmarshal ?j ?v] =>
        pose proof (Hd j v) as Hs; destruct (decode.unmarshal j v); exact Hs
    end.
Qed.

Lemma elements_decodes {T} (zero : T) `{decode.Unmarshal T} :
  decodes T ->
  forall l old, notInvalidOptions (decode.errorOf (snd (decode.elements zero l old))).
Proof.
  intros Hd. induction l as [|j l IH]; intros old; [exact I|].
  cbn [decode.elements]. pose proof (Hd j (hd zero old)) as Hs.
  destruct (decode.unmarshal j (hd zero old)) as [x o1]. cbn [snd] in Hs.
  destruct (decode.stopped o1); [exact Hs|].
  pose proof (IH (tl old)) as H1. destruct (decode.elements zero l (tl old)) as [xs o2].
  apply andThen_notInvalidOptions; assumption.
Qed.

Lemma slice_decodes {T} type_ (zero : T) `{decode.Unmarshal T} :
  decodes T -> stores (decode.slice type_ zero).
Proof.
  intros Hd j s. unfold decode.slice. destruct j; try exact I.
  pose proof (elements_decodes zero Hd l (default [] s)) as Hs.
  destruct (decode.elements zero l (default [] s)); exact Hs.
Qed.

Lemma userField_stores {tz : LocalZone} key store :
  users.userField key = Some store -> stores store.
Proof.
  unfold users.userField.
  repeat match goal with
         | |- context [decode.matches key ?n] => destruct (decode.matches key n)
         end;
    intros E; try discriminate; injection E as <-; intros j u;
    match goal with
    | |- context [@decode.unmarshal ?F ?I j ?x] =>
        let Hs := fresh in
        assert (Hs : notInvalidOptions (decode.errorOf (snd (@decode.unmarshal F I j x))))
          by (first [apply string_decodes | apply int_decodes | apply Timestamp_decodes]);
        destruct (@decode.unmarshal F I j x); exact Hs
    end.
Qed.

Lemma UsersResponse_decodes {tz : LocalZone} : decodes users.UsersResponse.
Proof.
  apply object_stores. intros key store.
  destruct (decode.matches key "data"); [|discriminate].
  intros E; injection E as <-. intros j r.
  pose proof (slice_decodes "[]*bot.User" None
                (pointer_decodes users.zeroUser
                   (object_stores "bot.User" users.userField userField_stores))
                j (users.Data r)) as Hs.
  destruct (decode.slice _ _ j (users.Data r)). exact Hs.
Qed.

Section ErrorsOfTheClient.
Context {tz : LocalZone} {lib : url.Library}.

Lemma addParams_notInvalidOptions {T} `{query.Struct T} s (opts : option T) :
  notInvalidOptions (snd (addParams s opts)).
Proof.
  unfold addParams. destruct opts; [|exact I].
  destruct (url.Parse s); [exact I|]. exact I.
Qed.

Lemma NewRequest_notInvalidOptions {B} `{Marshal B} c method path (body : option B) e :
  NewRequest c method path body = inl e -> notInvalidOptions (Some e).
Proof.
  unfold NewRequest. destruct (url.URL_Parse _ _); [intros [= <-]; exact I|].
  destruct (match body with Some b => _ | None => _ end);
    [intros [= <-]; exact I|].
  destruct (http.NewRequest _ _ _) as [[m|err]|req]; intros [= <-]; exact I.
Qed.

Lemma Do_notInvalidOptions {T} `{decode.Unmarshal T} c ctx req (v : decode.Target T) wire :
  decodes T -> notInvalidOptions (snd (fst (fst (Do c ctx req v wire)))).
Proof.
  intros Hd. unfold Do. destruct ctx as [cx|]; [|exact I].
  destruct (HTTPClient c _) as [err|resp].
  - destruct (context.Err cx); exact I.
  - destruct (negb _); [exact I|]. destruct v as [|target|]; [exact I| |];
      unfold decode.Decode; destruct (json.readValue _) as [| j | |]; try exact I.
    pose proof (Hd j target) as Hs.
    destruct (decode.unmarshal j target) as [t' o]. cbn [snd] in Hs. cbn.
    destruct o as [|e|e]; try exact I; destruct e; try exact I; contradiction.
Qed.

End ErrorsOfTheClient.

(** ** users.go *)

Section GetUsersProperties.
Context {tz : LocalZone} {lib : url.Library}.
Implicit Types (s : users.UsersService) (ctx : option context.Context)
  (wire : Wire).

(** A nil options pointer, and options whose two slices are nil, are
    refused before anything else happens: the wire is as it was. *)
Lemma GetUsers_requires_id_or_login s ctx opts wire :
  opts = None \/ opts = Some (mkUsersOptions None None) ->
  users.GetUsers s ctx opts wire
  = ((None, None,
      Some (ErrorInvalidOptions (ofUsersOptions opts) userIdLoginIsRequired)),
     wire).
Proof. intros [-> | ->]; reflexivity. Qed.

Lemma GetUsers_passes_nil_check (o : UsersOptions) :
  0 < combinedCount o ->
  match Ids o, Logins o with None, None => true | _, _ => false end = false.
Proof.
  unfold combinedCount. destruct (Ids o), (Logins o); cbn; try reflexivity. lia.
Qed.

(** Options that are past the two guards of [GetUsers] (one slice is not
    nil, at most 100 elements together) are never answered with an
    [ErrorInvalidOptions], whatever the client, the context and the
    server do. *)
Lemma GetUsers_past_the_guards s ctx (o : UsersOptions) wire :
  match Ids o, Logins o with None, None => true | _, _ => false end = false ->
  combinedCount o <= 100 ->
  notInvalidOptions (snd (fst (users.GetUsers s ctx (Some o) wire))).
Proof.
  intros Hnil Hn. unfold users.GetUsers. rewrite Hnil.
  fold (combinedCount o). destruct (Z.ltb_spec 100 (combinedCount o)); [lia|].
  pose proof (addParams_notInvalidOptions users.getUsersPath (Some o)) as Ha.
  destruct (addParams users.getUsersPath (Some o)) as [u [err|]]; [exact Ha|].
  destruct (NewRequest _ _ _ _) as [err|req] eqn:En.
  - exact (NewRequest_notInvalidOptions _ _ _ _ _ En).
  - pose proof (Do_notInvalidOptions (client s) ctx req
                  (decode.pointerTo (users.mkUsersResponse None)) wire
                  UsersResponse_decodes) as Hd.
    destruct (Do _ _ _ _ _) as [[[resp [err|]] target] wire']; [exact Hd | exact I].
Qed.

(** Two slices that are empty without being nil are past the guards. *)
Lemma GetUsers_empty_slices_not_refused s ctx wire :
  notInvalidOptions
    (snd (fst (users.GetUsers s ctx (Some (mkUsersOptions (Some []) (Some []))) wire))).
Proof. apply GetUsers_past_the_guards; [reflexivity | vm_compute; discriminate]. Qed.

(** C5.  Options with more than 100 identifiers and logins together
    are refused with the 100-limit [ErrorInvalidOptions], and the wire
    is as it was: no request was handed to the transport.  With exactly
    100 the call goes past the validation: whatever it returns is not
    an [ErrorInvalidOptions]. *)
Theorem GetUsers_limit s ctx (o : UsersOptions) wire :
  (100 < combinedCount o ->
   users.GetUsers s ctx (Some o) wire
   = ((None, None,
       Some (ErrorInvalidOptions (ofUsersOptions (Some o))
               users.users100LimitError)),
      wire))
  /\ (combinedCount o = 100 ->
      notInvalidOptions (snd (fst (users.GetUsers s ctx (Some o) wire)))).
Proof.
  split; intros Hn.
  - unfold users.GetUsers. rewrite GetUsers_passes_nil_check by lia.
    fold (combinedCount o). destruct (Z.ltb_spec 100 (combinedCount o)); [reflexivity | lia].
  - apply GetUsers_past_the_guards; [|lia].
    apply GetUsers_passes_nil_check. lia.
Qed.

End GetUsersProperties.

(** Thirty identifiers and seventy-one logins, as in the test, are
    refused; a hundred identifiers reach the server. *)
Lemma GetUsers_101_and_100 :
  let s := mkService (Examples.answering 200 Examples.emptyData) in
  let ctx := Some context.Background in
  users.GetUsers (tz := Examples.utc) (lib := Examples.plainURLs) s ctx
    (Some (mkUsersOptions (Some (replicate 30 "")) (Some (replicate 71 "")))) []
  = ((None, None,
      Some (ErrorInvalidOptions
              (ofUsersOptions
                 (Some (mkUsersOptions (Some (replicate 30 "")) (Some (replicate 71 "")))))
              users.users100LimitError)),
     [])
  /\ notInvalidOptions
       (snd (fst (users.GetUsers (tz := Examples.utc) (lib := Examples.plainURLs) s ctx
                    (Some (mkUsersOptions (Some (replicate 100 "")) None)) []))).
Proof.
  intros s ctx. split.
  - apply (proj1 (GetUsers_limit (tz := Examples.utc) (lib := Examples.plainURLs) s ctx
                    (mkUsersOptions (Some (replicate 30 "")) (Some (replicate 71 ""))) [])).
    vm_compute. reflexivity.
  - apply (proj2 (GetUsers_limit (tz := Examples.utc) (lib := Examples.plainURLs) s ctx
                    (mkUsersOptions (Some (replicate 100 "")) None) [])).
    vm_compute. reflexivity.
Defined.

(** C4.  Options whose two slices are empty without being nil carry
    neither an identifier nor a login, yet [GetUsers] does not refuse
    them: it builds the request for [users] with no query, hands it to
    the transport and returns what the server answers, without error. *)
Theorem GetUsers_empty_slices_reach_the_server :
  exists req,
    users.GetUsers (tz := Examples.utc) (lib := Examples.plainURLs)
      (mkService (Examples.answering 200 Examples.emptyData))
      (Some context.Background)
      (Some (mkUsersOptions (Some []) (Some []))) []
    = ((Some [],
        Some (NewResponse (http.mkResponse 200 ∅ Examples.emptyData)),
        None),
       [req])
    /\ http.Method req = "GET"
    /\ url.String_ (http.URL req) = "https://api.twitch.tv/helix/users".
Proof.
  eexists. split; [vm_compute; reflexivity|]. split; reflexivity.
Qed.

(** ** The streams service *)

Section GetStreamKeyProperties.
Context {tz : LocalZone} {lib : url.Library}.

(** An envelope whose [data] is empty has no first element. *)
Lemma firstKey_empty keyResp :
  default [] (streams.Data keyResp) = [] ->
  streams.firstKey keyResp = streams.Panics streams.indexOutOfRange.
Proof. unfold streams.firstKey. intros ->. reflexivity. Qed.

(** Whenever the exchange succeeds and leaves an envelope with an
    empty [data] in the target, [GetStreamKey] panics. *)
Lemma GetStreamKey_panics_on_empty_data s ctx (o : BroadcasterID) wire
    u req resp keyResp wire' :
  Id o <> "" ->
  addParams streams.getStreamKeyPath (Some o) = (u, None) ->
  NewRequest (client s) http.MethodGet u (@None Empty_set) = inr req ->
  Do (client s) ctx req (decode.pointerTo (streams.mkStreamKeyResponse None)) wire
  = ((resp, None, decode.pointerTo keyResp), wire') ->
  default [] (streams.Data keyResp) = [] ->
  streams.GetStreamKey s ctx (Some o) wire
  = (streams.Panics streams.indexOutOfRange, wire').
Proof.
  intros Hid Ha Hn Hd He. unfold streams.GetStreamKey.
  destruct (String.eqb_spec (Id o) ""); [contradiction|].
  rewrite Ha, Hn, Hd. cbv zeta.
  rewrite (firstKey_empty _ He). reflexivity.
Qed.

End GetStreamKeyProperties.

(** The body [{"data":[]}] decodes, without error, into an envelope with
    an empty [data]. *)
Lemma Decode_empty_data :
  decode.Decode Examples.emptyData (decode.pointerTo (streams.mkStreamKeyResponse None))
  = (decode.pointerTo (streams.mkStreamKeyResponse (Some [])), None).
Proof. vm_compute. reflexivity. Qed.

(** C1.  The server answers 200 with the body [{"data":[]}], which
    decodes into an envelope with an empty [data].  [GetStreamKey] then
    evaluates [keyResp.Data[0]] and panics with an index out of range:
    it returns neither a key nor an error. *)
Theorem GetStreamKey_panics_on_empty_envelope :
  fst (streams.GetStreamKey (lib := Examples.plainURLs)
         (mkService (Examples.answering 200 Examples.emptyData))
         (Some context.Background) (Some (mkBroadcasterID "12")) [])
  = streams.Panics streams.indexOutOfRange.
Proof. vm_compute. reflexivity. Qed.

(** ** strconv: a formatted integer reads back *)

Lemma digit_byte d :
  0 <= d < 10 ->
  Strings.isDigitByte (ascii_of_N (Z.to_N (48 + d))) = true
  /\ Strings.digitVal (ascii_of_N (Z.to_N (48 + d))) = d.
Proof.
  intros H.
  assert (E : d = 0 \/ d = 1 \/ d = 2 \/ d = 3 \/ d = 4 \/ d = 5 \/ d = 6
              \/ d = 7 \/ d = 8 \/ d = 9) by lia.
  repeat (destruct E as [-> | E]; [split; reflexivity|]).
  subst. split; reflexivity.
Qed.

Lemma digit_not_sign c :
  Strings.isDigitByte c = true -> Ascii.eqb c "+" = false /\ Ascii.eqb c "-" = false.
Proof. each_byte c; split; reflexivity. Qed.

Lemma formatDigits_head fuel n acc :
  0 <= n ->
  exists c rest,
    strconv.formatDigits (S fuel) n acc = String c rest
    /\ Strings.isDigitByte c = true.
Proof.
  revert n acc. induction fuel as [|fuel IH]; intros n acc Hn.
  - cbn [strconv.formatDigits]. do 2 eexists.
    split; [destruct (n <? 10); reflexivity|].
    apply digit_byte. apply Z.mod_pos_bound. lia.
  - change (strconv.formatDigits (S (S fuel)) n acc)
      with (let acc' := String (ascii_of_N (Z.to_N (48 + n mod 10))) acc in
            if n <? 10 then acc' else strconv.formatDigits (S fuel) (n / 10) acc').
    cbv zeta. destruct (n <? 10).
    + do 2 eexists. split; [reflexivity|].
      apply digit_byte. apply Z.mod_pos_bound. lia.
    + apply IH. apply Z.div_pos; lia.
Qed.

Lemma parseDigits_formatDigits fuel : forall n acc,
  0 <= n < 10 ^ Z.of_nat fuel -> n <= Int.maxUint64 ->
  strconv.parseDigits (strconv.formatDigits fuel n acc) 0 = strconv.parseDigits acc n.
Proof.
  induction fuel as [|fuel IH]; intros n acc Hn Hmax.
  - cbn [strconv.formatDigits]. change (10 ^ Z.of_nat 0) with 1 in Hn.
    replace n with 0 by lia. reflexivity.
  - rewrite Nat2Z.inj_succ, Z.pow_succ_r in Hn by lia.
    assert (Hd : 0 <= n mod 10 < 10) by (apply Z.mod_pos_bound; lia).
    destruct (digit_byte _ Hd) as [Hdig Hval].
    assert (Hstep : forall m, m * 10 + n mod 10 = n -> m <= Int.maxUint64 / 10 ->
              strconv.parseDigits
                (String (ascii_of_N (Z.to_N (48 + n mod 10))) acc) m
              = strconv.parseDigits acc n).
    { intros m Hm Hle. cbn [strconv.parseDigits]. rewrite Hdig, Hval, Hm.
      destruct (Z.leb_spec (Int.maxUint64 / 10 + 1) m); [lia|].
      destruct (Z.ltb_spec Int.maxUint64 n); [lia | reflexivity]. }
    cbn [strconv.formatDigits]. cbv zeta.
    destruct (Z.ltb_spec n 10).
    + apply Hstep; [rewrite Z.mod_small; lia|].
      unfold Int.maxUint64, Int.two64. Z.to_euclidean_division_equations; lia.
    + rewrite IH.
      * apply Hstep; [|unfold Int.maxUint64, Int.two64 in *];
          Z.to_euclidean_division_equations; lia.
      * Z.to_euclidean_division_equations; lia.
      * Z.to_euclidean_division_equations; lia.
Qed.

(** [ParseInt] reads back what [FormatInt] writes. *)
Lemma ParseInt_FormatInt n :
  Int.inInt64 n -> strconv.ParseInt (strconv.FormatInt n) = (n, None).
Proof.
  unfold Int.inInt64, Int.minInt64, Int.maxInt64. intros Hn.
  assert (Hpow : 10 ^ Z.of_nat 20 = 100000000000000000000) by reflexivity.
  assert (H63 : Int.two63 = 9223372036854775808) by reflexivity.
  assert (H64 : Int.maxUint64 = 18446744073709551615) by reflexivity.
  unfold strconv.FormatInt. destruct (Z.ltb_spec n 0) as [Hneg|Hpos].
  - destruct (formatDigits_head 19 (- n) "") as (c & rest & E & Hc); [lia|].
    pose proof (parseDigits_formatDigits 20 (- n) "") as Hp.
    rewrite E in Hp. unfold strconv.ParseInt.
    change (Ascii.eqb "-" "+") with false. change (Ascii.eqb "-" "-") with true.
    cbv iota beta. rewrite E. unfold strconv.ParseUint. rewrite Hp by lia.
    cbn [strconv.parseDigits negb andb].
    destruct (Z.ltb_spec Int.two63 (- n)); [lia|]. f_equal. lia.
  - destruct (formatDigits_head 19 n "") as (c & rest & E & Hc); [lia|].
    pose proof (parseDigits_formatDigits 20 n "") as Hp.
    rewrite E in Hp |- *. unfold strconv.ParseInt.
    destruct (digit_not_sign c Hc) as [-> ->]. cbv iota beta.
    unfold strconv.ParseUint. rewrite Hp by lia.
    cbn [strconv.parseDigits negb andb].
    destruct (Z.leb_spec Int.two63 n); [lia | reflexivity].
Qed.

Lemma FormatInt_nonempty n : String.eqb (strconv.FormatInt n) "" = false.
Proof.
  unfold strconv.FormatInt. destruct (Z.ltb_spec n 0); [reflexivity|].
  destruct (formatDigits_head 19 n "") as (c & rest & -> & _); [lia | reflexivity].
Qed.

(** ** client.go: NewResponse and parseRate *)

Lemma Get_Set_eq (h : http.Header) k v : http.Get (http.Set_ h k v) k = v.
Proof. unfold http.Get, http.Set_. rewrite lookup_insert_eq. reflexivity. Qed.

Lemma Get_Set_ne (h : http.Header) k k' v :
  k <> k' -> http.Get (http.Set_ h k v) k' = http.Get h k'.
Proof.
  intros Hk. unfold http.Get, http.Set_. rewrite lookup_insert_ne by assumption.
  reflexivity.
Qed.

Lemma unixSec_Unix s : Int.inInt64 s -> time.unixSec (time.Unix s 0) = s.
Proof.
  intros Hs. unfold time.unixSec, time.Unix, time.unixTime.
  cbn [time.sec Z.ltb Z.leb Z.compare orb].
  unfold_time. Z.to_euclidean_division_equations; lia.
Qed.


(** X1.  A response whose three rate headers were written with
    [FormatInt] (as [strconv.Itoa] does) gives its limit, its remaining
    count and its reset second back through [NewResponse], which keeps
    the response itself. *)
Theorem NewResponse_reads_rate_headers (r : http.Response)
    (limit remaining reset : Z) :
  Int.inInt64 limit -> Int.inInt64 remaining -> Int.inInt64 reset ->
  http.Get (http.RespHeader r) headerRateLimit = strconv.FormatInt limit ->
  http.Get (http.RespHeader r) headerRateRemaining = strconv.FormatInt remaining ->
  http.Get (http.RespHeader r) headerRateReset = strconv.FormatInt reset ->
  Response_ (NewResponse r) = r
  /\ Limit (Rate_ (NewResponse r)) = limit
  /\ Remaining (Rate_ (NewResponse r)) = remaining
  /\ Reset (Rate_ (NewResponse r)) = time.Unix reset 0
  /\ time.unixSec (Reset (Rate_ (NewResponse r))) = reset.
Proof.
  intros Hl Hr Hs El Er Es. unfold NewResponse, parseRate.
  cbn [Response_ Rate_ Remaining Limit Reset]. rewrite El, Er, Es.
  rewrite !FormatInt_nonempty. cbn [negb Remaining Limit Reset].
  unfold strconv.Atoi. rewrite !ParseInt_FormatInt by assumption.
  cbn [fst]. repeat split. apply unixSec_Unix, Hs.
Qed.

(** The headers of the test of [NewResponse]. *)
Lemma NewResponse_reads_the_test_headers :
  let r := http.mkResponse 200 (rateHeaders "10" "9" "1136214245") "" in
  Response_ (NewResponse r) = r
  /\ Limit (Rate_ (NewResponse r)) = 10
  /\ Remaining (Rate_ (NewResponse r)) = 9
  /\ Reset (Rate_ (NewResponse r)) = time.Unix 1136214245 0
  /\ time.unixSec (Reset (Rate_ (NewResponse r))) = 1136214245.
Proof.
  intros r. apply (NewResponse_reads_rate_headers r 10 9 1136214245).
  - unfold Int.inInt64, Int.minInt64, Int.maxInt64, Int.two63. lia.
  - unfold Int.inInt64, Int.minInt64, Int.maxInt64, Int.two63. lia.
  - unfold Int.inInt64, Int.minInt64, Int.maxInt64, Int.two63. lia.
  - reflexivity.
  - reflexivity.
  - reflexivity.
Defined.



(** ** timestamp.go: what an integer and what other text decode to *)

Section TimestampRanges.
Context {tz : LocalZone}.
Hypothesis zone_within_a_day : forall unix, -86400 <= localOffset unix <= 86400.

(** X3.  In a process whose local zone is within a day of UTC, an
    integer below 32535129600 (the last day of the year 3000 in UTC),
    negative ones included, is read as that many seconds after the Unix
    epoch. *)
Theorem UnmarshalJSON_reads_seconds t data i :
  strconv.ParseInt data = (i, None) ->
  -9223372028715235200 <= i < 32535129600 ->
  exists t',
    UnmarshalJSON t data = (t', None)
    /\ Time t' = time.Unix i 0
    /\ time.unixSec (Time t') = i
    /\ time.nsec (Time t') = 0.
Proof.
  intros E Hi. exists (mkTimestamp (time.Unix i 0)). split.
  - apply UnmarshalJSON_seconds; [assumption|].
    apply Year_Unix_le_3000; [assumption | lia].
  - cbn [Time]. split; [reflexivity|]. split; [|reflexivity].
    apply unixSec_Unix. unfold_time. lia.
Qed.

(** X4.  An integer from 32535302400 to 9223372036854 is read as
    milliseconds after the Unix epoch: the seconds are its quotient by
    1000 and the nanoseconds its remainder times a million. *)
Theorem UnmarshalJSON_reads_milliseconds t data i :
  strconv.ParseInt data = (i, None) ->
  32535302400 <= i <= 9223372036854 ->
  exists t',
    UnmarshalJSON t data = (t', None)
    /\ Time t' = time.UnixMilli i
    /\ time.unixSec (Time t') = i / 1000
    /\ time.nsec (Time t') = (i mod 1000) * 1000000.
Proof.
  intros E Hi.
  exists (mkTimestamp (time.Unix 0 (Int.wrap64 (i * 1000000)))). split.
  - apply UnmarshalJSON_milliseconds; [assumption|].
    apply Year_Unix_gt_3000; [assumption | lia].
  - cbn [Time]. split.
    + apply Unix_nanoseconds_of_milliseconds. unfold_time. lia.
    + rewrite wrap64_inInt64 by (unfold_time; lia).
      unfold time.Unix.
      destruct (Z.ltb_spec (i * 1000000) 0); [lia|].
      destruct (Z.leb_spec 1000000000 (i * 1000000)); [|lia].
      cbn [orb].
      assert (Hq : Z.quot (i * 1000000) 1000000000 = i / 1000)
        by (Z.to_euclidean_division_equations; lia).
      rewrite Hq.
      assert (Hw : Int.wrap64 (0 + i / 1000) = i / 1000).
      { apply wrap64_inInt64. unfold_time. Z.to_euclidean_division_equations; lia. }
      rewrite Hw.
      assert (Hn : i * 1000000 - i / 1000 * 1000000000 = (i mod 1000) * 1000000)
        by (Z.to_euclidean_division_equations; lia).
      rewrite Hn.
      destruct (Z.ltb_spec ((i mod 1000) * 1000000) 0);
        [Z.to_euclidean_division_equations; lia|].
      unfold time.unixSec, time.unixTime. cbn [time.sec time.nsec].
      split; [|reflexivity].
      unfold_time. Z.to_euclidean_division_equations; lia.
Qed.

End TimestampRanges.

(** One second before the epoch, and the first millisecond of a second
    in 2021. *)
Lemma UnmarshalJSON_reads_seconds_before_the_epoch :
  exists t',
    UnmarshalJSON (tz := Examples.utc) (mkTimestamp time.zeroTime) "-1" = (t', None)
    /\ Time t' = time.Unix (-1) 0
    /\ time.unixSec (Time t') = -1
    /\ time.nsec (Time t') = 0.
Proof.
  apply (UnmarshalJSON_reads_seconds (tz := Examples.utc)).
  - intros unix. unfold localOffset, Examples.utc. lia.
  - reflexivity.
  - lia.
Defined.

Lemma UnmarshalJSON_reads_milliseconds_of_2021 :
  exists t',
    UnmarshalJSON (tz := Examples.utc) (mkTimestamp time.zeroTime) "1609459200001"
    = (t', None)
    /\ Time t' = time.UnixMilli 1609459200001
    /\ time.unixSec (Time t') = 1609459200001 / 1000
    /\ time.nsec (Time t') = (1609459200001 mod 1000) * 1000000.
Proof.
  apply (UnmarshalJSON_reads_milliseconds (tz := Examples.utc)).
  - intros unix. unfold localOffset, Examples.utc. lia.
  - reflexivity.
  - lia.
Defined.

Section TimestampFailure.
Context {tz : LocalZone}.

Lemma parseRFC3339_needs_quote value :
  Strings.HasPrefix value (String Strings.quote "") = false ->
  time.parseRFC3339 value = inl time.errBad.
Proof.
  unfold time.parseRFC3339. destruct value as [|c rest]; [reflexivity|].
  cbn [Strings.HasPrefix time.skipByte]. rewrite Ascii.eqb_sym.
  destruct (Ascii.eqb c Strings.quote); [|reflexivity].
  destruct rest; discriminate.
Qed.

(** X5.  Whenever [UnmarshalJSON] returns an error, the error is the
    [time.ParseError] for the quoted RFC3339 layout and the text given,
    and the receiver holds the zero time, whatever it held before.
    This is what happens to every text that is not an [int64] and does
    not start with a double quote, such as [null], [true] or [1.5]. *)
Theorem UnmarshalJSON_failure t data :
  (forall t' e,
     UnmarshalJSON t data = (t', Some e) ->
     t' = mkTimestamp time.zeroTime
     /\ exists f, e = timeParseError (time.mkParseError time.quotedRFC3339 data f))
  /\ (snd (strconv.ParseInt data) <> None ->
      Strings.HasPrefix data (String Strings.quote "") = false ->
      UnmarshalJSON t data
      = (mkTimestamp time.zeroTime,
         Some (timeParseError
                 (time.mkParseError time.quotedRFC3339 data time.errBad)))).
Proof.
  unfold UnmarshalJSON. split.
  - intros t' e. destruct (strconv.ParseInt data) as [i [ne|]].
    + unfold time.Parse. destruct (time.parseRFC3339 data) as [f|tm];
        cbn [option_map]; intros [= <- <-]; eauto.
    + cbn [Time]. destruct (3000 <? _); discriminate.
  - intros Hint Hq. destruct (strconv.ParseInt data) as [i [ne|]];
      [|contradiction]. unfold time.Parse.
    rewrite (parseRFC3339_needs_quote _ Hq). reflexivity.
Qed.

End TimestampFailure.

(** The JSON literal [null] for a timestamp. *)
Lemma UnmarshalJSON_null :
  UnmarshalJSON (tz := Examples.utc) (mkTimestamp (time.Unix 5 0)) "null"
  = (mkTimestamp time.zeroTime,
     Some (timeParseError
             (time.mkParseError time.quotedRFC3339 "null" time.errBad))).
Proof.
  apply (proj2 (UnmarshalJSON_failure (tz := Examples.utc)
                  (mkTimestamp (time.Unix 5 0)) "null")).
  - discriminate.
  - reflexivity.
Defined.

(** ** The query encoder: keys in increasing order *)

#[local] Instance keyLe_trans {A} : Transitive (@keyLe A).
Proof. intros a b c Hab Hbc. unfold keyLe in *. etrans; eassumption. Qed.

Lemma insertKey_Permutation k l : url.insertKey k l ≡ₚ k :: l.
Proof.
  induction l as [|x l IH]; [reflexivity|]. cbn [url.insertKey].
  destruct (String.leb (fst k) (fst x)); [reflexivity|].
  rewrite IH. apply Permutation_swap.
Qed.

Lemma insertKey_Sorted k l :
  Sorted keyLe l -> Sorted keyLe (url.insertKey k l).
Proof.
  induction l as [|x l IH]; intros Hl; cbn [url.insertKey].
  - repeat constructor.
  - destruct (String.leb (fst k) (fst x)) eqn:E.
    + constructor; [assumption|]. constructor. unfold keyLe, String.le.
      rewrite E. exact I.
    + apply Sorted_inv in Hl as [Hl Hhd].
      assert (Hxk : keyLe x k).
      { destruct (total String.le (fst k) (fst x)) as [H|H]; [|exact H].
        unfold String.le in H. rewrite E in H. contradiction. }
      constructor; [apply IH, Hl|].
      destruct l as [|y l]; cbn [url.insertKey].
      * constructor. exact Hxk.
      * destruct (String.leb (fst k) (fst y)); constructor; [exact Hxk|].
        inversion Hhd; assumption.
Qed.

Lemma sortedEntries_Permutation (m : url.Values) :
  url.sortedEntries m ≡ₚ map_to_list m.
Proof.
  unfold url.sortedEntries. induction (map_to_list m) as [|x l IH]; [reflexivity|].
  cbn [foldr]. rewrite insertKey_Permutation, IH. reflexivity.
Qed.

Lemma sortedEntries_StronglySorted (m : url.Values) :
  StronglySorted keyLe (url.sortedEntries m).
Proof.
  apply Sorted_StronglySorted; [apply _|]. unfold url.sortedEntries.
  induction (map_to_list m) as [|x l IH]; [constructor|].
  cbn [foldr]. apply insertKey_Sorted, IH.
Qed.

Lemma elem_of_sortedEntries (m : url.Values) k vs :
  (k, vs) ∈ url.sortedEntries m <-> m !! k = Some vs.
Proof. rewrite sortedEntries_Permutation. apply elem_of_map_to_list. Qed.

(** The sorted entries of a map are the one list of its entries whose
    keys increase. *)
Lemma sortedEntries_unique (l : list (string * list string)) (m : url.Values) :
  StronglySorted keyLe l -> NoDup l.*1 -> list_to_map l = m ->
  url.sortedEntries m = l.
Proof.
  intros Hs Hn <-. apply (StronglySorted_unique_strong keyLe).
  - intros [k1 v1] [k2 v2] H1 H2 H12 H21.
    apply elem_of_sortedEntries in H1.
    apply (elem_of_list_to_map_1 (M := gmap string)) in H2; [|assumption].
    unfold keyLe in H12, H21. cbn [fst] in H12, H21.
    assert (k1 = k2) as -> by (apply (anti_symm String.le); assumption).
    congruence.
  - apply sortedEntries_StronglySorted.
  - assumption.
  - rewrite sortedEntries_Permutation. apply map_to_list_to_map, Hn.
Qed.

(** Setting the greatest key puts its entry last. *)
Lemma sortedEntries_insert_last (m : url.Values) k vs :
  (forall k', is_Some (m !! k') -> String.le k' k) ->
  url.sortedEntries (<[k := vs]> m)
  = (url.sortedEntries (delete k m) ++ [(k, vs)])%list.
Proof.
  intros Hmax. apply sortedEntries_unique.
  - apply StronglySorted_app_2.
    + intros [k1 v1] x2 H1 ->%list_elem_of_singleton.
      apply elem_of_sortedEntries in H1. unfold keyLe. cbn [fst].
      apply Hmax. apply lookup_delete_Some in H1 as [_ H1]. eauto.
    + apply sortedEntries_StronglySorted.
    + repeat constructor.
  - rewrite fmap_app. apply NoDup_app. split; [|split].
    + rewrite sortedEntries_Permutation. apply NoDup_fst_map_to_list.
    + intros k' [[k1 v1] [-> H1]]%list_elem_of_fmap Hk%list_elem_of_singleton.
      cbn [fst] in Hk. subst k1.
      apply elem_of_sortedEntries in H1.
      rewrite lookup_delete_eq in H1. discriminate.
    + repeat constructor. intros H. inversion H.
  - rewrite list_to_map_snoc.
    + rewrite (list_to_map_proper _ (map_to_list (delete k m))).
      * rewrite list_to_map_to_list. apply insert_delete_eq.
      * rewrite sortedEntries_Permutation. apply NoDup_fst_map_to_list.
      * apply sortedEntries_Permutation.
    + intros [[k1 v1] [E H1]]%list_elem_of_fmap. cbn [fst] in E. subst k1.
      apply elem_of_sortedEntries in H1. rewrite lookup_delete_eq in H1.
      discriminate.
Qed.

Lemma flat_map_snoc {A B} (f : A -> list B) l x :
  flat_map f (l ++ [x])%list = (flat_map f l ++ f x)%list.
Proof. rewrite flat_map_app. cbn [flat_map]. rewrite app_nil_r. reflexivity. Qed.

(** Pairs added by increasing key come back, in the order they were
    added, from the sorted entries. *)
Lemma sortedEntries_pairs (P : list (string * string)) :
  StronglySorted keyLe P ->
  flat_map entryPairs (url.sortedEntries (foldl addPair ∅ P)) = P
  /\ forall k, is_Some (foldl addPair ∅ P !! k) -> k ∈ P.*1.
Proof.
  induction P as [|[k v] P IH] using rev_ind; intros Hs.
  - cbn [foldl]. split.
    + unfold url.sortedEntries. rewrite map_to_list_empty. reflexivity.
    + intros k [x H]. rewrite lookup_empty in H. discriminate.
  - pose proof (StronglySorted_app_1_l _ _ _ Hs) as HP.
    destruct (IH HP) as [IH1 IH2]. clear IH.
    rewrite foldl_app. cbn [foldl]. set (m := foldl addPair ∅ P) in *.
    unfold addPair at 1 2. cbn [fst snd]. unfold url.Add.
    assert (Hmax : forall k', is_Some (m !! k') -> String.le k' k).
    { intros k' Hk'. apply IH2 in Hk'.
      apply list_elem_of_fmap in Hk' as [[k1 v1] [-> H1]].
      apply (StronglySorted_app_1_elem_of _ _ _ (k1, v1) (k, v) Hs);
        [assumption | apply list_elem_of_singleton; reflexivity]. }
    split.
    + rewrite sortedEntries_insert_last by assumption.
      rewrite flat_map_snoc. unfold entryPairs at 2. cbn [fst snd].
      rewrite map_app. cbn [List.map]. rewrite app_assoc. f_equal.
      destruct (m !! k) as [old|] eqn:E; cbn [default].
      * rewrite <- IH1.
        pose proof (sortedEntries_insert_last m k old Hmax) as Hl.
        rewrite (insert_id m k old E) in Hl. rewrite Hl, flat_map_snoc.
        reflexivity.
      * rewrite delete_id by assumption. rewrite IH1. apply app_nil_r.
    + intros k' Hk'. rewrite fmap_app. apply elem_of_app.
      apply lookup_insert_is_Some in Hk' as [<- | [_ Hk']].
      * right. apply list_elem_of_singleton. reflexivity.
      * left. apply IH2, Hk'.
Qed.

Lemma Encode_entryPairs (m : url.Values) :
  url.Encode m = pairsText (flat_map entryPairs (url.sortedEntries m)).
Proof.
  unfold url.Encode, pairsText. f_equal.
  induction (url.sortedEntries m) as [|[k vs] l IH]; [reflexivity|].
  cbn [List.map concat flat_map]. rewrite map_app, IH. f_equal.
  unfold entryPairs. cbn [fst snd]. rewrite map_map. reflexivity.
Qed.

Lemma reflectField_pairs (m : url.Values) f :
  query.reflectField m f = foldl addPair m (fieldPairs f).
Proof.
  unfold query.reflectField, fieldPairs.
  destruct (query.omitempty f && query.isEmptyValue (query.value f));
    [reflexivity|].
  destruct (query.value f) as [s|n|l]; [reflexivity | reflexivity |].
  revert m. induction (default [] l) as [|x xs IH]; intros m; [reflexivity|].
  cbn [foldl List.map]. apply IH.
Qed.

Lemma reflectValue_pairs (m : url.Values) fs :
  query.reflectValue m fs = foldl addPair m (flat_map fieldPairs fs).
Proof.
  unfold query.reflectValue. revert m.
  induction fs as [|f fs IH]; intros m; [reflexivity|].
  cbn [foldl flat_map]. rewrite foldl_app, <- reflectField_pairs. apply IH.
Qed.

Lemma fieldPairs_key f p : p ∈ fieldPairs f -> fst p = query.name f.
Proof.
  unfold fieldPairs.
  destruct (query.omitempty f && query.isEmptyValue (query.value f)).
  { intros H. inversion H. }
  destruct (query.value f) as [s|n|l].
  - intros ->%list_elem_of_singleton. reflexivity.
  - intros ->%list_elem_of_singleton. reflexivity.
  - intros [x [-> _]]%list_elem_of_fmap. reflexivity.
Qed.

Lemma same_key_StronglySorted (k : string) (l : list (string * string)) :
  (forall p, p ∈ l -> fst p = k) -> StronglySorted keyLe l.
Proof.
  induction l as [|x l IH]; intros Hk; [constructor|].
  constructor.
  - apply IH. intros p Hp. apply Hk. right. exact Hp.
  - apply Forall_forall. intros p Hp. unfold keyLe.
    rewrite (Hk x) by left. rewrite (Hk p) by (right; exact Hp). reflexivity.
Qed.

(** Fields declared by increasing key give their pairs by increasing
    key. *)
Lemma pairs_StronglySorted fs :
  StronglySorted String.le (List.map query.name fs) ->
  StronglySorted keyLe (flat_map fieldPairs fs).
Proof.
  induction fs as [|f fs IH]; intros Hs; [constructor|].
  cbn [List.map] in Hs. apply StronglySorted_cons in Hs as [Hf Hs].
  cbn [flat_map]. apply StronglySorted_app_2.
  - intros p1 p2 H1 H2. unfold keyLe. rewrite (fieldPairs_key _ _ H1).
    apply list_elem_of_In, in_flat_map in H2 as (f' & Hf' & H2).
    apply list_elem_of_In in H2. rewrite (fieldPairs_key _ _ H2).
    rewrite Forall_forall in Hf. apply Hf.
    apply list_elem_of_fmap. exists f'. split; [reflexivity|].
    apply list_elem_of_In, Hf'.
  - apply (same_key_StronglySorted (query.name f)), fieldPairs_key.
  - apply IH, Hs.
Qed.

(** The query of an options struct whose fields are declared by
    increasing key: the pairs of its fields, in declaration order. *)
Lemma Encode_Values {T} `{query.Struct T} (o : T) :
  StronglySorted String.le (List.map query.name (query.fields o)) ->
  url.Encode (fst (query.Values_ (Some o))) = pairsText (pairs o).
Proof.
  intros Hs. cbn [query.Values_ fst].
  rewrite Encode_entryPairs, reflectValue_pairs. f_equal.
  apply sortedEntries_pairs, pairs_StronglySorted, Hs.
Qed.

Lemma UsersOptions_fieldsInKeyOrder : fieldsInKeyOrder UsersOptions.
Proof. intros o. repeat constructor. Qed.

Lemma StreamsOptions_fieldsInKeyOrder : fieldsInKeyOrder StreamsOptions.
Proof. intros o. repeat constructor. Qed.

Lemma BroadcasterID_fieldsInKeyOrder : fieldsInKeyOrder BroadcasterID.
Proof. intros o. repeat constructor. Qed.

(** ** net/url on a path followed by a query *)

Lemma ContainsByte_app a b x :
  Strings.ContainsByte (a +:+ b) x
  = Strings.ContainsByte a x || Strings.ContainsByte b x.
Proof.
  induction a as [|c a IH]; [reflexivity|].
  rewrite append_cons. cbn [Strings.ContainsByte]. rewrite IH, orb_assoc.
  reflexivity.
Qed.

Lemma forallb_app (p : ascii -> bool) a b :
  Strings.forallb p (a +:+ b) = Strings.forallb p a && Strings.forallb p b.
Proof.
  induction a as [|c a IH]; [reflexivity|].
  rewrite append_cons. cbn [Strings.forallb]. rewrite IH, andb_assoc.
  reflexivity.
Qed.

Lemma Cut_present a b x :
  Strings.ContainsByte a x = false ->
  Strings.Cut (a +:+ String x b) x = (a, b, true).
Proof.
  induction a as [|c a IH]; intros Ha.
  - rewrite append_nil. cbn [Strings.Cut]. rewrite Ascii.eqb_refl. reflexivity.
  - rewrite append_cons. cbn [Strings.Cut Strings.ContainsByte] in Ha |- *.
    apply orb_false_elim in Ha as [-> Ha]. rewrite (IH Ha). reflexivity.
Qed.

Lemma CountByte_app a b x :
  Strings.CountByte (a +:+ b) x
  = (Strings.CountByte a x + Strings.CountByte b x)%nat.
Proof.
  induction a as [|c a IH]; [reflexivity|].
  rewrite append_cons. cbn [Strings.CountByte]. rewrite IH. lia.
Qed.

Lemma CountByte_absent a x :
  Strings.ContainsByte a x = false -> Strings.CountByte a x = 0%nat.
Proof.
  induction a as [|c a IH]; [reflexivity|]. cbn [Strings.ContainsByte Strings.CountByte].
  intros [-> Ha]%orb_false_elim. rewrite (IH Ha). reflexivity.
Qed.

Lemma CountByte_present a x :
  Strings.ContainsByte a x = true -> (0 < Strings.CountByte a x)%nat.
Proof.
  induction a as [|c a IH]; [discriminate|].
  cbn [Strings.ContainsByte Strings.CountByte].
  destruct (Ascii.eqb c x); [lia|]. cbn [orb]. intros Ha. apply IH in Ha. lia.
Qed.

Lemma HasSuffixByte_app a c b x :
  Strings.HasSuffixByte (a +:+ String c b) x = Strings.HasSuffixByte (String c b) x.
Proof.
  induction a as [|d a IH]; [reflexivity|].
  rewrite append_cons.
  change (Strings.HasSuffixByte (String d (a +:+ String c b)) x)
    with (match a +:+ String c b with
          | EmptyString => Ascii.eqb d x
          | _ => Strings.HasSuffixByte (a +:+ String c b) x
          end).
  rewrite <- IH. destruct a; reflexivity.
Qed.

(** A question mark ends the search for a scheme. *)
Lemma getSchemeFrom_question p q i :
  url.firstSegmentHasColon p = false ->
  url.getSchemeFrom i (p +:+ String "?" q) = inr None.
Proof.
  revert i. induction p as [|c p IH]; intros i; [reflexivity|].
  unfold url.firstSegmentHasColon. cbn [Strings.Cut]. rewrite append_cons.
  destruct (Ascii.eqb_spec c "/") as [->|Hslash].
  - intros _. reflexivity.
  - destruct (Strings.Cut p "/") as [[b a] f] eqn:E. cbn [Strings.ContainsByte].
    intros [Hc Hs]%orb_false_elim.
    assert (Hs' : url.firstSegmentHasColon p = false).
    { unfold url.firstSegmentHasColon. rewrite E. exact Hs. }
    cbn [url.getSchemeFrom]. rewrite !(IH _ Hs'), Hc.
    destruct (Strings.isLetter c); [reflexivity|].
    destruct (Strings.isDigitByte c || url.oneOf c "+-."); [|reflexivity].
    destruct i; reflexivity.
Qed.

Section ParseQuery.
Context {lib : url.Library}.

(** A URL that is a path and a query is written as the path followed
    by the query, if there is one. *)
Lemma String_path p path q :
  url.validEncoded p url.encodePath = true ->
  url.unescape p url.encodePath = Some path ->
  url.firstSegmentHasColon p = false ->
  String.eqb p "%2A" = false ->
  url.String_
    (url.mkURL "" "" None "" path
       (if String.eqb p (url.escape path url.encodePath) then "" else p)
       false false q "" "")
  = withQuery p q.
Proof.
  intros Hv Ep Hcol Hstar. unfold url.String_.
  cbn [url.Scheme url.Opaque url.User url.Host url.Path url.RawPath
       url.OmitHost url.ForceQuery url.RawQuery url.Fragment url.RawFragment
       String.eqb negb orb andb].
  set (u := url.mkURL _ _ _ _ _ _ _ _ _ _ _).
  assert (Hpath : url.EscapedPath u = p).
  { unfold url.EscapedPath, u.
    cbn [url.Scheme url.Opaque url.User url.Host url.Path url.RawPath].
    destruct (String.eqb_spec p (url.escape path url.encodePath)) as [Heq|Hne].
    - cbn [String.eqb negb andb].
      destruct (String.eqb_spec path "*") as [->|_]; [|now symmetry].
      rewrite escape_star in Heq. subst p. discriminate.
    - assert (Hs : String.eqb p "" = false).
      { destruct p; [|reflexivity]. cbn in Ep. injection Ep as <-.
        now contradiction Hne. }
      rewrite Hs, Hv, Ep, String.eqb_refl. reflexivity. }
  rewrite Hpath, andb_false_r. cbn [String.eqb andb]. rewrite Hcol.
  unfold withQuery. destruct (String.eqb q ""); reflexivity.
Qed.

(** [url.Parse] on a valid base path gives a URL that, with any query
    set, is written as the path followed by the query. *)
Lemma Parse_path p :
  validBasePath p = true ->
  exists u, url.Parse p = inr u
            /\ forall q, url.String_ (url.setRawQuery u q) = withQuery p q.
Proof.
  unfold validBasePath.
  intros [[[[Hv Hu]%andb_prop Hss]%andb_prop Hcol]%andb_prop Hstar]%andb_prop.
  apply negb_true_iff in Hss, Hcol, Hstar.
  destruct (url.unescape p url.encodePath) as [path|] eqn:Ep; [clear Hu | discriminate].
  unfold url.Parse. rewrite (Cut_absent _ _ (validEncoded_no_hash _ Hv)).
  unfold url.parse. rewrite (validEncoded_no_control _ Hv).
  destruct (String.eqb_spec p "*") as [->|Hns].
  { eexists. split; [reflexivity|]. intros q. unfold withQuery, url.String_.
    cbn. destruct (String.eqb q ""); reflexivity. }
  rewrite (getScheme_no_colon _ Hcol). cbn [Strings.ToLower].
  rewrite (HasSuffixByte_absent _ _ (validEncoded_no_question _ Hv)).
  cbn [andb]. rewrite (Cut_absent _ _ (validEncoded_no_question _ Hv)).
  cbn [String.eqb negb andb orb]. rewrite Hcol, Hss, !andb_false_r.
  cbn [andb]. unfold url.setPath. rewrite Ep.
  eexists. split; [reflexivity|]. intros q. unfold url.setRawQuery.
  cbn [url.Scheme url.Opaque url.User url.Host url.Path url.RawPath
       url.OmitHost url.ForceQuery url.RawQuery url.Fragment url.RawFragment].
  apply String_path; assumption.
Qed.

(** The same when a query follows the path: the query given takes the
    place of the one parsed. *)
Lemma Parse_path_query p q0 :
  validBasePath p = true -> plainQuery q0 = true ->
  exists u, url.Parse (p +:+ "?" +:+ q0) = inr u
            /\ forall q, url.String_ (url.setRawQuery u q) = withQuery p q.
Proof.
  unfold validBasePath, plainQuery.
  intros [[[[Hv Hu]%andb_prop Hss]%andb_prop Hcol]%andb_prop Hstar]%andb_prop
         [[Hq0 Hqh]%andb_prop Hqc]%andb_prop.
  apply negb_true_iff in Hss, Hcol, Hstar, Hq0, Hqh, Hqc.
  destruct (url.unescape p url.encodePath) as [path|] eqn:Ep; [clear Hu | discriminate].
  change ("?" +:+ q0) with (String "?" q0).
  set (s := p +:+ String "?" q0).
  assert (Hhash : Strings.ContainsByte s "#" = false).
  { unfold s. rewrite ContainsByte_app, (validEncoded_no_hash _ Hv).
    cbn [Strings.ContainsByte orb]. exact Hqh. }
  assert (Hctl : url.stringContainsCTLByte s = false).
  { pose proof (validEncoded_no_control _ Hv) as Hp.
    unfold url.stringContainsCTLByte in *. apply negb_false_iff in Hp, Hqc.
    apply negb_false_iff. unfold s. rewrite forallb_app, Hp.
    cbn [Strings.forallb andb]. rewrite Hqc. reflexivity. }
  assert (Hstar' : String.eqb s "*" = false).
  { destruct (String.eqb_spec s "*") as [E|]; [exfalso | reflexivity].
    unfold s in E. destruct p as [|c [|d p]]; discriminate. }
  assert (Hforce : Strings.HasSuffixByte s "?" && (Strings.CountByte s "?" =? 1)%nat = false).
  { unfold s. rewrite HasSuffixByte_app, CountByte_app.
    rewrite (CountByte_absent _ _ (validEncoded_no_question _ Hv)).
    cbn [Strings.CountByte Ascii.eqb Bool.eqb plus].
    destruct (Strings.ContainsByte q0 "?") eqn:Eq.
    - apply CountByte_present in Eq. apply andb_false_intro2.
      apply Nat.eqb_neq. change (Ascii.eqb "?" "?") with true. cbv iota. lia.
    - apply andb_false_intro1. destruct q0 as [|c q0]; [discriminate|].
      change (Strings.HasSuffixByte (String "?" (String c q0)) "?")
        with (Strings.HasSuffixByte (String c q0) "?").
      apply HasSuffixByte_absent, Eq. }
  unfold url.Parse. rewrite (Cut_absent _ _ Hhash).
  unfold url.parse. rewrite Hctl, Hstar'.
  unfold url.getScheme. unfold s at 1. rewrite (getSchemeFrom_question _ _ _ Hcol).
  cbn [Strings.ToLower]. rewrite Hforce.
  unfold s. rewrite (Cut_present _ _ _ (validEncoded_no_question _ Hv)).
  cbn [String.eqb negb andb orb]. rewrite Hcol, Hss, !andb_false_r.
  cbn [andb]. unfold url.setPath. rewrite Ep.
  eexists. split; [reflexivity|]. intros q. unfold url.setRawQuery.
  cbn [url.Scheme url.Opaque url.User url.Host url.Path url.RawPath
       url.OmitHost url.ForceQuery url.RawQuery url.Fragment url.RawFragment].
  apply String_path; assumption.
Qed.

End ParseQuery.

(** ** client.go: addParams with options *)

Lemma append_nonempty a c b : String.eqb (a +:+ String c b) "" = false.
Proof. destruct a; reflexivity. Qed.

Lemma append_nonempty_l a b :
  String.eqb a "" = false -> String.eqb (a +:+ b) "" = false.
Proof. destruct a; [discriminate | reflexivity]. Qed.

Lemma pairsText_nonempty p l : String.eqb (pairsText (p :: l)) "" = false.
Proof.
  unfold pairsText. cbn [List.map Strings.Join].
  destruct (List.map _ l); [|apply append_nonempty_l];
    apply append_nonempty.
Qed.

Section AddParamsQuery.
Context {lib : url.Library}.

Lemma addParams_on_path {T} `{query.Struct T} s (o : T) :
  validBasePath s = true ->
  addParams s (Some o)
  = (withQuery s (url.Encode (fst (query.Values_ (Some o)))), None).
Proof.
  intros Hs. unfold addParams. destruct (Parse_path s Hs) as (u & -> & Hu).
  cbn [query.Values_ fst]. rewrite Hu. reflexivity.
Qed.

Lemma addParams_on_path_query {T} `{query.Struct T} p q (o : T) :
  validBasePath p = true -> plainQuery q = true ->
  addParams (p +:+ "?" +:+ q) (Some o)
  = (withQuery p (url.Encode (fst (query.Values_ (Some o)))), None).
Proof.
  intros Hp Hq. unfold addParams.
  destruct (Parse_path_query p q Hp Hq) as (u & -> & Hu).
  cbn [query.Values_ fst]. rewrite Hu. reflexivity.
Qed.

(** The path that [addParams] builds from options whose fields are
    declared by increasing key. *)
Lemma addParams_pairs {T} `{query.Struct T} (s : string) (o : T) :
  validBasePath s = true ->
  StronglySorted String.le (List.map query.name (query.fields o)) ->
  addParams s (Some o)
  = (match pairs o with
     | [] => s
     | _ => s +:+ "?" +:+ pairsText (pairs o)
     end, None).
Proof.
  intros Hs Ho. rewrite addParams_on_path by assumption.
  rewrite Encode_Values by assumption. unfold withQuery.
  destruct (pairs o) as [|p l]; [reflexivity|].
  rewrite pairsText_nonempty. reflexivity.
Qed.

(** X6.  For a valid base path and options of a struct whose fields are
    declared by increasing key, [addParams] returns the path as it is
    when no field has a value to send, and otherwise the path, a
    question mark and one [key=value] for every value, both sides
    escaped, joined by ampersands, in the order of the fields. *)
Theorem addParams_query_in_field_order {T} `{query.Struct T}
    (s : string) (o : T) :
  validBasePath s = true -> fieldsInKeyOrder T ->
  addParams s (Some o)
  = (match pairs o with
     | [] => s
     | _ => s +:+ "?" +:+ pairsText (pairs o)
     end, None).
Proof. intros Hs Ho. apply addParams_pairs; [assumption | apply Ho]. Qed.

(** X7.  A query that the path already carries is kept when the options
    are a nil pointer and dropped when they are not: with options,
    [addParams] returns what it returns for the path alone. *)
Theorem addParams_replaces_query {T} `{query.Struct T}
    (p q : string) (o : T) :
  validBasePath p = true -> plainQuery q = true ->
  addParams (p +:+ "?" +:+ q) (@None T) = (p +:+ "?" +:+ q, None)
  /\ addParams (p +:+ "?" +:+ q) (Some o) = addParams p (Some o).
Proof.
  intros Hp Hq. split; [reflexivity|].
  rewrite addParams_on_path_query, addParams_on_path by assumption.
  reflexivity.
Qed.

(** X8.  [addParams] fails exactly when the options are not a nil
    pointer and [url.Parse] refuses the path; it then returns the path
    as it was given, with the error of [url.Parse]. *)
Theorem addParams_error {T} `{query.Struct T} (s : string) (opts : option T) :
  (forall r e,
     addParams s opts = (r, Some e) ->
     r = s /\ opts <> None /\ exists ue, url.Parse s = inl ue /\ e = urlError ue)
  /\ (forall ue,
        opts <> None -> url.Parse s = inl ue ->
        addParams s opts = (s, Some (urlError ue))).
Proof.
  unfold addParams. split.
  - intros r e. destruct opts as [o|]; [|discriminate].
    destruct (url.Parse s) as [ue|u]; cbn [query.Values_].
    + intros [= <- <-]. split; [reflexivity|]. split; [discriminate|]. eauto.
    + discriminate.
  - intros ue Ho E. destruct opts as [o|]; [|contradiction].
    rewrite E. reflexivity.
Qed.

End AddParamsQuery.

(** The options of the test of [GetStreams]. *)
Lemma addParams_first_and_user_id :
  addParams (lib := Examples.plainURLs) streams.getStreamsPath
    (Some (mkStreamsOptions "" "" 1 "" "" "115141884" ""))
  = ("streams?first=1&user_id=115141884", None).
Proof.
  etransitivity.
  - apply (addParams_query_in_field_order (lib := Examples.plainURLs)
             streams.getStreamsPath
             (mkStreamsOptions "" "" 1 "" "" "115141884" "")).
    + reflexivity.
    + intros o. repeat constructor.
  - vm_compute. reflexivity.
Defined.

(** A cursor in the path and a user in the options. *)
Lemma addParams_replaces_a_cursor :
  let o := mkStreamsOptions "" "" 0 "" "" "12" "" in
  addParams (lib := Examples.plainURLs) "streams?after=abc" (@None StreamsOptions)
  = ("streams?after=abc", None)
  /\ addParams (lib := Examples.plainURLs) "streams?after=abc" (Some o)
     = addParams (lib := Examples.plainURLs) "streams" (Some o).
Proof.
  intros o.
  apply (addParams_replaces_query (lib := Examples.plainURLs) "streams" "after=abc" o);
    reflexivity.
Defined.

(** A path with a broken escape. *)
Lemma addParams_broken_escape :
  addParams (lib := Examples.plainURLs) "%zz" (Some (mkBroadcasterID "12"))
  = ("%zz", Some (urlError (url.mkError "parse" "%zz" "invalid URL escape"))).
Proof.
  apply (proj2 (addParams_error (lib := Examples.plainURLs) "%zz"
                  (Some (mkBroadcasterID "12")))).
  - discriminate.
  - reflexivity.
Defined.

(** ** client.go: NewRequest *)

Section NewRequestProperties.
Context {lib : url.Library}.

(** X9.  A request that [NewRequest] returns has the method given, [GET]
    if none was given, which is an HTTP token; it carries the client
    identifier of the credentials in [Client-Id] and the user agent of
    the client in [User-Agent]; [Content-Type] is [application/json]
    when a body was given and absent otherwise; the body is the JSON
    text of the one given followed by a line feed, and there is none
    when none was given. *)
Theorem NewRequest_request {B} `{Marshal B} c method path (body : option B) req :
  NewRequest c method path body = inr req ->
  http.Method req = (if String.eqb method "" then "GET" else method)
  /\ http.validMethod (http.Method req) = true
  /\ http.Get (http.Header_ req) "Client-Id" = ClientId (credentials c)
  /\ http.Get (http.Header_ req) "User-Agent" = UserAgent c
  /\ http.Get (http.Header_ req) "Content-Type"
     = match body with Some _ => applicationJSON | None => "" end
  /\ http.Body req
     = match body with
       | Some b =>
           match marshal b with
           | inr text => Some (text +:+ String (ascii_of_N 10) "")
           | inl _ => None
           end
       | None => None
       end
  /\ http.ctx req = Some context.Background.
Proof.
  unfold NewRequest. destruct (url.URL_Parse _ _) as [e|u]; [discriminate|].
  assert (Hhdr : forall (h : http.Header) id ua,
            http.Get (http.Set_ (http.Set_ h "Client-Id" id) "User-Agent" ua) "Client-Id" = id
            /\ http.Get (http.Set_ (http.Set_ h "Client-Id" id) "User-Agent" ua) "User-Agent" = ua
            /\ http.Get (http.Set_ (http.Set_ h "Client-Id" id) "User-Agent" ua) "Content-Type"
               = http.Get h "Content-Type").
  { intros h id ua. split; [|split].
    - rewrite Get_Set_ne by discriminate. apply Get_Set_eq.
    - apply Get_Set_eq.
    - rewrite !Get_Set_ne by discriminate. reflexivity. }
  destruct body as [b|].
  - destruct (marshal b) as [err|text]; [discriminate|].
    unfold http.NewRequest.
    destruct (http.validMethod _) eqn:Hm; cbn [negb]; [|discriminate].
    destruct (url.Parse _) as [e|u']; [discriminate|].
    intros [= <-]. cbn [http.Method http.Header_ http.Body http.ctx].
    destruct (Hhdr (http.Set_ ∅ "Content-Type" applicationJSON)
                (ClientId (credentials c)) (UserAgent c)) as (H1 & H2 & H3).
    repeat split; try assumption; rewrite H3; apply Get_Set_eq.
  - unfold http.NewRequest.
    destruct (http.validMethod _) eqn:Hm; cbn [negb]; [|discriminate].
    destruct (url.Parse _) as [e|u']; [discriminate|].
    intros [= <-]. cbn [http.Method http.Header_ http.Body http.ctx].
    destruct (Hhdr ∅ (ClientId (credentials c)) (UserAgent c)) as (H1 & H2 & H3).
    repeat split; assumption.
Qed.

(** X10.  A method that is not an HTTP token is refused with the error
    of [http.NewRequest]; a path that [url.Parse] refuses is reported
    first, with the error of [url.Parse]. *)
Theorem NewRequest_refuses c method path :
  (forall e,
     url.URL_Parse (BaseURL c) path = inl e ->
     NewRequest c method path (@None Empty_set) = inl (urlError e))
  /\ (forall u,
        url.URL_Parse (BaseURL c) path = inr u ->
        method <> "" -> http.validMethod method = false ->
        NewRequest c method path (@None Empty_set) = inl (httpError method)).
Proof.
  unfold NewRequest. split.
  - intros e ->. reflexivity.
  - intros u -> Hne Hm. unfold http.NewRequest.
    destruct (String.eqb_spec method ""); [contradiction|].
    rewrite Hm. reflexivity.
Qed.

End NewRequestProperties.

(** The request of the tests: a [GET] for [users]. *)
Lemma NewRequest_get_users :
  exists req,
    NewRequest (lib := Examples.plainURLs) (Examples.answering 200 "")
      "" "users" (@None Empty_set) = inr req
    /\ http.Method req = "GET"
    /\ http.validMethod (http.Method req) = true
    /\ http.Get (http.Header_ req) "Client-Id" = "ClientId"
    /\ http.Get (http.Header_ req) "User-Agent" = userAgent
    /\ http.Get (http.Header_ req) "Content-Type" = ""
    /\ http.Body req = None
    /\ http.ctx req = Some context.Background.
Proof.
  eexists. split; [vm_compute; reflexivity|].
  apply (NewRequest_request (lib := Examples.plainURLs) (Examples.answering 200 "")
           "" "users" (@None Empty_set)).
  vm_compute. reflexivity.
Defined.

(** The method and the path of the tests that must fail. *)
Lemma NewRequest_bad_method_and_bad_path :
  NewRequest (lib := Examples.plainURLs) (Examples.answering 200 "")
    "Bad method" "%zz" (@None Empty_set)
  = inl (urlError (url.mkError "parse" "%zz" "invalid URL escape"))
  /\ NewRequest (lib := Examples.plainURLs) (Examples.answering 200 "")
       "Bad method" "path" (@None Empty_set)
     = inl (httpError "Bad method").
Proof.
  pose proof (NewRequest_refuses (lib := Examples.plainURLs)
                (Examples.answering 200 "") "Bad method" "%zz") as [H1 _].
  pose proof (NewRequest_refuses (lib := Examples.plainURLs)
                (Examples.answering 200 "") "Bad method" "path") as [_ H2].
  split.
  - apply H1. reflexivity.
  - eapply H2; [reflexivity | discriminate | reflexivity].
Defined.

(** ** client.go: what Do returns *)

Lemma readValue_blank body :
  Strings.forallb json.isSpace body = true -> json.readValue body = json.ReadEOF.
Proof.
  intros Hb. unfold json.readValue.
  assert (E : json.skipSpace body = "").
  { induction body as [|c body IH]; [reflexivity|].
    cbn [Strings.forallb] in Hb. apply andb_prop in Hb as [Hc Hb].
    cbn [json.skipSpace]. rewrite Hc. apply IH, Hb. }
  rewrite E. reflexivity.
Qed.

Section DoResults.
Context {T : Type} {U : decode.Unmarshal T}.
Implicit Types (c : Client) (cx : context.Context) (req : http.Request)
  (v : decode.Target T) (wire : Wire) (resp : http.Response).

(** [Do] hands the request to the transport once if the context is not
    nil, and not at all if it is. *)
Lemma Do_wire c ctx req v wire :
  snd (Do c ctx req v wire)
  = match ctx with
    | None => wire
    | Some cx => (wire ++ [http.WithContext req cx])%list
    end.
Proof.
  unfold Do. destruct ctx as [cx|]; [|reflexivity].
  destruct (HTTPClient c _); [destruct (context.Err cx); reflexivity|].
  destruct (negb _); [reflexivity|].
  destruct v; [reflexivity| |]; destruct (decode.Decode _ _); reflexivity.
Qed.

Lemma Do_outcome c ctx req v wire r err v' wire' :
  Do c ctx req v wire = ((r, err, v'), wire') ->
  match r with
  | None => err <> None /\ v' = v
  | Some response =>
      exists cx resp,
        ctx = Some cx
        /\ HTTPClient c (http.WithContext req cx) = inr resp
        /\ response = NewResponse resp
        /\ 200 <= http.StatusCode resp <= 299
  end.
Proof.
  unfold Do. destruct ctx as [cx|].
  - destruct (HTTPClient c _) as [e|resp] eqn:E.
    + destruct (context.Err cx); intros [= <- <- <- <-]; split;
        [discriminate | reflexivity | discriminate | reflexivity].
    + destruct (isSuccess (NewResponse resp)) eqn:Hs; cbn [negb].
      * apply isSuccess_NewResponse in Hs.
        destruct v; [| |]; try destruct (decode.Decode _ _);
          intros [= <- <- <- <-]; eauto 6.
      * intros [= <- <- <- <-]. split; [discriminate | reflexivity].
  - intros [= <- <- <- <-]. split; [discriminate | reflexivity].
Qed.

(** X11.  [Do] returns a nil wrapper only together with an error, and
    then the decode target is as it was before the call.  A wrapper
    that is not nil is the one of a response that the transport gave
    for the request under the context of the call, with a status code
    from 200 to 299. *)
Theorem Do_results c ctx req v wire r err v' wire' :
  Do c ctx req v wire = ((r, err, v'), wire') ->
  (r = None -> err <> None /\ v' = v)
  /\ (err = None -> r <> None)
  /\ (forall response,
        r = Some response ->
        exists cx resp,
          ctx = Some cx
          /\ HTTPClient c (http.WithContext req cx) = inr resp
          /\ response = NewResponse resp
          /\ 200 <= http.StatusCode resp <= 299).
Proof.
  intros H%Do_outcome. destruct r as [response|].
  - split; [discriminate|]. split; [discriminate|].
    intros ? [= <-]. exact H.
  - destruct H as [He Hv]. split; [auto|]. split; [|discriminate].
    intros ->. contradiction.
Qed.

(** X12.  When the transport answers with a status code from 200 to
    299 and a body that holds no JSON value, [Do] with a decode target
    that is not nil returns the response wrapper together with an
    error, and the target is as it was: a syntax error for text that
    is no JSON, [io.ErrUnexpectedEOF] for a value that is cut short.
    A body of white space alone counts as no body: no error. *)
Theorem Do_body_without_value c cx req v wire resp :
  HTTPClient c (http.WithContext req cx) = inr resp ->
  200 <= http.StatusCode resp <= 299 ->
  v <> decode.nilTarget ->
  (json.readValue (http.RespBody resp) = json.ReadSyntaxError ->
   Do c (Some cx) req v wire
   = ((Some (NewResponse resp), Some jsonSyntaxError, v),
      (wire ++ [http.WithContext req cx])%list))
  /\ (json.readValue (http.RespBody resp) = json.ReadUnexpectedEOF ->
      Do c (Some cx) req v wire
      = ((Some (NewResponse resp), Some io_ErrUnexpectedEOF, v),
         (wire ++ [http.WithContext req cx])%list))
  /\ (Strings.forallb json.isSpace (http.RespBody resp) = true ->
      Do c (Some cx) req v wire
      = ((Some (NewResponse resp), None, v),
         (wire ++ [http.WithContext req cx])%list)).
Proof.
  intros Hresp Hs%isSuccess_NewResponse Hv.
  unfold Do. rewrite Hresp, Hs. cbn [negb]. unfold decode.Decode.
  split; [|split]; [intros -> | intros -> | intros ->%readValue_blank];
    destruct v; try contradiction; reflexivity.
Qed.

(** X13.  When the transport answers with a status code from 200 to
    299 and a body that holds a JSON value, [Do] with a target that
    nothing can be stored in (a value that is not a pointer, or a nil
    pointer of some type) returns the response wrapper together with a
    [json.InvalidUnmarshalError]. *)
Theorem Do_unsettable_target c cx req wire resp j :
  HTTPClient c (http.WithContext req cx) = inr resp ->
  200 <= http.StatusCode resp <= 299 ->
  json.readValue (http.RespBody resp) = json.ReadValue j ->
  Do c (Some cx) req (@decode.unsettable T) wire
  = ((Some (NewResponse resp), Some jsonInvalidUnmarshalError, decode.unsettable),
     (wire ++ [http.WithContext req cx])%list).
Proof.
  intros Hresp Hs%isSuccess_NewResponse Hj.
  unfold Do. rewrite Hresp, Hs. cbn [negb]. unfold decode.Decode.
  rewrite Hj. reflexivity.
Qed.

End DoResults.

(** A call that was answered with 200 and the envelope of no data: the
    wrapper returned is that of the answer. *)
Lemma Do_results_of_an_empty_envelope :
  exists cx resp,
    Some context.Background = Some cx
    /\ HTTPClient (Examples.answering 200 Examples.emptyData)
         (http.WithContext (Examples.get "streams/key") cx) = inr resp
    /\ NewResponse (http.mkResponse 200 ∅ Examples.emptyData) = NewResponse resp
    /\ 200 <= http.StatusCode resp <= 299.
Proof.
  refine (proj2 (proj2
    (Do_results (Examples.answering 200 Examples.emptyData)
       (Some context.Background) (Examples.get "streams/key")
       (decode.pointerTo (streams.mkStreamKeyResponse None)) []
       (Some (NewResponse (http.mkResponse 200 ∅ Examples.emptyData))) None
       (decode.pointerTo (streams.mkStreamKeyResponse (Some [])))
       [Examples.get "streams/key"] _)) _ eq_refl).
  vm_compute. reflexivity.
Defined.

(** A page of HTML, a body cut short and a blank body, each with the
    status 200. *)
Lemma Do_bodies_without_value :
  let v := decode.pointerTo (streams.mkStreamKeyResponse None) in
  Do (Examples.answering 200 "<html>") (Some context.Background)
     (Examples.get "streams/key") v []
  = ((Some (NewResponse (http.mkResponse 200 ∅ "<html>")), Some jsonSyntaxError, v),
     [Examples.get "streams/key"])
  /\ Do (Examples.answering 200 "{") (Some context.Background)
       (Examples.get "streams/key") v []
     = ((Some (NewResponse (http.mkResponse 200 ∅ "{")), Some io_ErrUnexpectedEOF, v),
        [Examples.get "streams/key"])
  /\ Do (Examples.answering 200 "  ") (Some context.Background)
       (Examples.get "streams/key") v []
     = ((Some (NewResponse (http.mkResponse 200 ∅ "  ")), None, v),
        [Examples.get "streams/key"]).
Proof.
  intros v.
  pose proof (Do_body_without_value (Examples.answering 200 "<html>")
                context.Background (Examples.get "streams/key") v []
                (http.mkResponse 200 ∅ "<html>") eq_refl) as H1.
  pose proof (Do_body_without_value (Examples.answering 200 "{")
                context.Background (Examples.get "streams/key") v []
                (http.mkResponse 200 ∅ "{") eq_refl) as H2.
  pose proof (Do_body_without_value (Examples.answering 200 "  ")
                context.Background (Examples.get "streams/key") v []
                (http.mkResponse 200 ∅ "  ") eq_refl) as H3.
  cbn [http.StatusCode http.RespBody] in H1, H2, H3.
  split; [|split].
  - apply H1; [lia | discriminate | reflexivity].
  - apply H2; [lia | discriminate | reflexivity].
  - apply H3; [lia | discriminate | reflexivity].
Defined.

(** A struct passed by value, as in the tests of [Do], and a body that
    holds a value. *)
Lemma Do_struct_by_value :
  Do (Examples.answering 200 "{}") (Some context.Background)
     (Examples.get "") (@decode.unsettable streams.StreamKeyResponse) []
  = ((Some (NewResponse (http.mkResponse 200 ∅ "{}")),
      Some jsonInvalidUnmarshalError, decode.unsettable),
     [Examples.get ""]).
Proof.
  apply (Do_unsettable_target (Examples.answering 200 "{}") context.Background
           (Examples.get "") [] (http.mkResponse 200 ∅ "{}")
           (json.Object "{}" [])).
  - reflexivity.
  - cbn [http.StatusCode]. lia.
  - reflexivity.
Defined.

(** ** The services: what a call sends and what it returns *)

Section ServiceProperties.
Context {tz : LocalZone} {lib : url.Library}.
Implicit Types (s : service) (ctx : option context.Context) (wire : Wire).

(** X14.  [GetStreamKey] refuses a nil options pointer and an empty
    broadcaster identifier, and [GetFollowedStreams] a nil options
    pointer and an empty user identifier: each returns its
    [ErrorInvalidOptions] with the options, no data and a nil wrapper,
    and the wire is as it was. *)
Theorem services_require_an_identifier s ctx wire :
  (forall opts,
     opts = None \/ (exists o, opts = Some o /\ Id o = "") ->
     streams.GetStreamKey s ctx opts wire
     = (streams.Returns
          ("", None,
           Some (ErrorInvalidOptions (ofBroadcasterID opts) broadcasterIdIsRequired)),
        wire))
  /\ (forall opts,
        opts = None \/ (exists o, opts = Some o /\ UserId o = "") ->
        GetFollowedStreams s ctx opts wire
        = ((None, None,
            Some (ErrorInvalidOptions (ofStreamsOptions opts) userIdIsRequired)),
           wire)).
Proof.
  split; intros opts [-> | (o & -> & E)]; try reflexivity.
  - unfold streams.GetStreamKey. rewrite E. reflexivity.
  - unfold GetFollowedStreams. rewrite E. reflexivity.
Qed.

Lemma sends_nothing {T} `{query.Struct T} c base (opts : option T) ctx wire :
  sends c base opts ctx wire wire.
Proof. left. reflexivity. Qed.

Lemma sends_Do {T} `{query.Struct T} {R} `{decode.Unmarshal R}
    c base (opts : option T) ctx wire req (v : decode.Target R) :
  NewRequest c http.MethodGet (requestPath base opts) (@None Empty_set) = inr req ->
  sends c base opts ctx wire (snd (Do c ctx req v wire)).
Proof.
  intros Hreq. rewrite Do_wire. destruct ctx as [cx|]; [|left; reflexivity].
  right. eauto.
Qed.

(** The path that a service builds for its endpoint. *)
Lemma addParams_requestPath {T} `{query.Struct T} base (opts : option T) :
  validBasePath base = true -> fieldsInKeyOrder T ->
  addParams base opts = (requestPath base opts, None).
Proof.
  intros Hb Ho. destruct opts as [o|]; [|reflexivity].
  apply addParams_pairs; [assumption | apply Ho].
Qed.

Ltac service_sends path sorted :=
  rewrite (addParams_requestPath path _ eq_refl sorted);
  match goal with
  | |- context [NewRequest ?c ?m ?p ?b] =>
      let E := fresh "Hreq" in
      destruct (NewRequest c m p b) as [err|req] eqn:E;
      [apply sends_nothing|]
  end;
  match goal with
  | E : NewRequest _ _ _ _ = inr ?req |- context [Do ?c ?ctx ?req ?v ?wire] =>
      let Hs := fresh "Hs" in
      pose proof (sends_Do c path _ ctx wire req v E) as Hs;
      destruct (Do c ctx req v wire) as [[[resp [err|]] target] wire'];
      cbn [snd] in Hs |- *; try exact Hs
  end.

(** X15.  Whatever the options, the context and the server, a call of
    [GetUsers], [GetStreams], [GetFollowedStreams] or [GetStreamKey]
    keeps the requests already on the wire and adds at most one: the
    [GET] without body that [NewRequest] builds for the path of the
    endpoint followed, if a field of the options has a value, by a
    question mark and the [key=value] pairs of the fields in
    declaration order; the request carries the context of the call. *)
Theorem services_send_one_request s ctx wire :
  (forall opts,
     sends (client s) users.getUsersPath opts ctx wire
       (snd (users.GetUsers s ctx opts wire)))
  /\ (forall opts,
        sends (client s) streams.getStreamsPath opts ctx wire
          (snd (GetStreams s ctx opts wire)))
  /\ (forall opts,
        sends (client s) streams.getFollowedStreamsPath opts ctx wire
          (snd (GetFollowedStreams s ctx opts wire)))
  /\ (forall opts,
        sends (client s) streams.getStreamKeyPath opts ctx wire
          (snd (streams.GetStreamKey s ctx opts wire))).
Proof.
  split; [|split; [|split]]; intros opts.
  - unfold users.GetUsers.
    destruct (match opts with None => true | Some _ => _ end);
      [apply sends_nothing|].
    destruct (100 <? _); [apply sends_nothing|].
    service_sends users.getUsersPath UsersOptions_fieldsInKeyOrder.
  - unfold GetStreams.
    service_sends streams.getStreamsPath StreamsOptions_fieldsInKeyOrder.
  - unfold GetFollowedStreams.
    destruct (match opts with None => true | Some _ => _ end);
      [apply sends_nothing|].
    service_sends streams.getFollowedStreamsPath StreamsOptions_fieldsInKeyOrder.
  - unfold streams.GetStreamKey.
    destruct (match opts with None => true | Some _ => _ end);
      [apply sends_nothing|].
    service_sends streams.getStreamKeyPath BroadcasterID_fieldsInKeyOrder.
    destruct (streams.firstKey _); exact Hs.
Qed.

End ServiceProperties.

(** A refusal of an identifier that is missing, by each of the two
    calls. *)
Lemma services_refuse_empty_identifiers :
  let s := mkService (Examples.answering 200 Examples.emptyData) in
  let ctx := Some context.Background in
  streams.GetStreamKey (lib := Examples.plainURLs) s ctx (Some (mkBroadcasterID "")) []
  = (streams.Returns
       ("", None,
        Some (ErrorInvalidOptions (ofBroadcasterID (Some (mkBroadcasterID "")))
                broadcasterIdIsRequired)),
     [])
  /\ GetFollowedStreams (tz := Examples.utc) (lib := Examples.plainURLs) s ctx None []
     = ((None, None,
         Some (ErrorInvalidOptions (ofStreamsOptions None) userIdIsRequired)),
        []).
Proof.
  intros s ctx.
  pose proof (services_require_an_identifier (tz := Examples.utc)
                (lib := Examples.plainURLs) s ctx []) as [H1 H2].
  split.
  - apply H1. right. eexists. split; reflexivity.
  - apply H2. left. reflexivity.
Defined.

(** ** The services: data, wrapper and error *)

Lemma Response_NewResponse resp : Response_ (NewResponse resp) = resp.
Proof. reflexivity. Qed.

Lemma Do_without_error {T} `{decode.Unmarshal T} c ctx req (v : decode.Target T)
    wire r v' wire' :
  Do c ctx req v wire = ((r, None, v'), wire') ->
  exists response,
    r = Some response
    /\ 200 <= http.StatusCode (Response_ response) <= 299.
Proof.
  intros H0%Do_outcome. destruct r as [response|].
  - destruct H0 as (cx & resp & _ & _ & -> & Hs). eauto.
  - destruct H0 as [He _]. contradiction.
Qed.

Section ServiceResults.
Context {tz : LocalZone} {lib : url.Library}.
Implicit Types (s : service) (ctx : option context.Context) (wire : Wire).

Ltac service_results :=
  match goal with
  | |- context [addParams ?p ?o] => destruct (addParams p o) as [u [e|]]
  end;
  [intros [= <- <- <- <-]; split; [reflexivity | discriminate]|];
  match goal with
  | |- context [NewRequest ?c ?m ?p ?b] =>
      destruct (NewRequest c m p b) as [e|req]
  end;
  [intros [= <- <- <- <-]; split; [reflexivity | discriminate]|];
  match goal with
  | |- context [Do ?c ?ctx ?req ?v ?wire] =>
      let E := fresh "Hdo" in
      destruct (Do c ctx req v wire) as [[[resp [e|]] target] w] eqn:E;
      [intros [= <- <- <- <-]; split; [reflexivity | discriminate]
      | apply Do_without_error in E]
  end.

(** X16.  A call of a service that returns an error returns no data
    with it: nil users, a nil envelope, an empty key.  A call that
    returns no error returns a wrapper that is not nil, of a response
    with a status code from 200 to 299; for the two listings the
    envelope is then not nil either. *)
Theorem services_results s ctx wire :
  (forall opts data r err wire',
     users.GetUsers s ctx opts wire = ((data, r, err), wire') ->
     (err <> None -> data = None)
     /\ (err = None ->
         exists response,
           r = Some response
           /\ 200 <= http.StatusCode (Response_ response) <= 299))
  /\ (forall opts data r err wire',
        GetStreams s ctx opts wire = ((data, r, err), wire') ->
        (err <> None -> data = None)
        /\ (err = None ->
            data <> None
            /\ exists response,
                 r = Some response
                 /\ 200 <= http.StatusCode (Response_ response) <= 299))
  /\ (forall opts data r err wire',
        GetFollowedStreams s ctx opts wire = ((data, r, err), wire') ->
        (err <> None -> data = None)
        /\ (err = None ->
            data <> None
            /\ exists response,
                 r = Some response
                 /\ 200 <= http.StatusCode (Response_ response) <= 299))
  /\ (forall opts key r err wire',
        streams.GetStreamKey s ctx opts wire
        = (streams.Returns (key, r, err), wire') ->
        (err <> None -> key = "")
        /\ (err = None ->
            exists response,
              r = Some response
              /\ 200 <= http.StatusCode (Response_ response) <= 299)).
Proof.
  split; [|split; [|split]]; intros opts data r err wire'.
  - unfold users.GetUsers.
    destruct (match opts with None => true | Some _ => _ end);
      [intros [= <- <- <- <-]; split; [reflexivity | discriminate]|].
    destruct (100 <? _);
      [intros [= <- <- <- <-]; split; [reflexivity | discriminate]|].
    service_results. intros [= <- <- <- <-]. split; [contradiction | auto].
  - unfold GetStreams. service_results.
    intros [= <- <- <- <-]. split; [contradiction|].
    intros _. split; [discriminate | assumption].
  - unfold GetFollowedStreams.
    destruct (match opts with None => true | Some _ => _ end);
      [intros [= <- <- <- <-]; split; [reflexivity | discriminate]|].
    service_results.
    intros [= <- <- <- <-]. split; [contradiction|].
    intros _. split; [discriminate | assumption].
  - unfold streams.GetStreamKey.
    destruct (match opts with None => true | Some _ => _ end);
      [intros [= <- <- <- <-]; split; [reflexivity | discriminate]|].
    service_results.
    destruct (streams.firstKey _); [|discriminate].
    intros [= <- <- <- <-]. split; [contradiction | auto].
Qed.

End ServiceResults.

(** A listing that the server answers with the envelope of no data. *)
Lemma services_results_of_a_listing :
  let call :=
    GetStreams (tz := Examples.utc) (lib := Examples.plainURLs)
      (mkService (Examples.answering 200 Examples.emptyData))
      (Some context.Background) None [] in
  fst call
  = (Some (stream.mkStreamsResponse (Some []) (mkPagination "")),
     Some (NewResponse (http.mkResponse 200 ∅ Examples.emptyData)), None)
  /\ (fst (fst (fst call)) <> None
      /\ exists response,
           snd (fst (fst call)) = Some response
           /\ 200 <= http.StatusCode (Response_ response) <= 299).
Proof.
  intros call.
  assert (E : fst call
              = (Some (stream.mkStreamsResponse (Some []) (mkPagination "")),
                 Some (NewResponse (http.mkResponse 200 ∅ Examples.emptyData)), None))
    by (vm_compute; reflexivity).
  split; [exact E|]. rewrite E. cbn [fst snd].
  apply (proj2 (proj1 (proj2 (services_results (tz := Examples.utc)
                  (lib := Examples.plainURLs)
                  (mkService (Examples.answering 200 Examples.emptyData))
                  (Some context.Background) []))
                  None _ _ _ (snd call)
                  (eq_trans (surjective_pairing call)
                     (f_equal (fun x => (x, snd call)) E)))).
  reflexivity.
Defined.

(** ** The services: where an ErrorInvalidOptions comes from *)

Lemma bool_decodes : decodes bool.
Proof. intros [] v; exact I. Qed.

Lemma strings_decodes : decodes (option (list string)).
Proof. apply (slice_decodes "[]string" "" string_decodes). Qed.

Lemma streamField_stores {tz : LocalZone} key store :
  stream.streamField key = Some store -> stores store.
Proof.
  unfold stream.streamField.
  repeat match goal with
         | |- context [decode.matches key ?n] => destruct (decode.matches key n)
         end;
    intros E; try discriminate; injection E as <-; intros j u;
    match goal with
    | |- context [@decode.unmarshal ?F ?I j ?x] =>
        let Hs := fresh in
        assert (Hs : notInvalidOptions (decode.errorOf (snd (@decode.unmarshal F I j x))))
          by (first [apply string_decodes | apply int_decodes
                    | apply Timestamp_decodes | apply bool_decodes
                    | apply strings_decodes]);
        destruct (@decode.unmarshal F I j x); exact Hs
    end.
Qed.

Lemma Pagination_decodes : decodes Pagination.
Proof.
  apply object_stores. intros key store.
  destruct (decode.matches key "cursor"); [|discriminate].
  intros E; injection E as <-. intros j p.
  pose proof (string_decodes j (Cursor p)) as Hs.
  destruct (decode.unmarshal j (Cursor p)). exact Hs.
Qed.

Lemma StreamsResponse_decodes {tz : LocalZone} : decodes stream.StreamsResponse.
Proof.
  apply object_stores. intros key store.
  destruct (decode.matches key "data").
  - intros E; injection E as <-. intros j r.
    pose proof (slice_decodes "[]*bot.Stream" None
                  (pointer_decodes stream.zeroStream
                     (object_stores "bot.Stream" stream.streamField streamField_stores))
                  j (stream.Data r)) as Hs.
    destruct (decode.slice _ _ j (stream.Data r)). exact Hs.
  - destruct (decode.matches key "pagination"); [|discriminate].
    intros E; injection E as <-. intros j r.
    pose proof (Pagination_decodes j (stream.Pagination_ r)) as Hs.
    destruct (decode.unmarshal j (stream.Pagination_ r)). exact Hs.
Qed.

Lemma StreamKeyResponse_decodes : decodes streams.StreamKeyResponse.
Proof.
  apply object_stores. intros key store.
  destruct (decode.matches key "data"); [|discriminate].
  intros E; injection E as <-. intros j r.
  assert (Hitem : decodes streams.KeyItem).
  { apply object_stores. intros key' store'.
    destruct (decode.matches key' "stream_key"); [|discriminate].
    intros E; injection E as <-. intros j' i.
    match goal with
    | |- context [@decode.unmarshal ?F ?I j' ?x] =>
        assert (Hs : notInvalidOptions
                       (decode.errorOf (snd (@decode.unmarshal F I j' x))))
          by apply string_decodes;
        destruct (@decode.unmarshal F I j' x); exact Hs
    end. }
  pose proof (slice_decodes "[]*struct { Key bot.StreamKey }" None
                (pointer_decodes (streams.mkKeyItem "") Hitem)
                j (streams.Data r)) as Hs.
  destruct (decode.slice _ _ j (streams.Data r)). exact Hs.
Qed.

Section InvalidOptions.
Context {tz : LocalZone} {lib : url.Library}.
Implicit Types (s : service) (ctx : option context.Context) (wire : Wire).

Ltac past_the_guard decodes_ :=
  match goal with
  | |- context [addParams ?p ?o] =>
      pose proof (addParams_notInvalidOptions p o) as Ha;
      destruct (addParams p o) as [u [e|]]
  end;
  [cbn [fst snd] in *; intros Heq; inversion Heq; subst; contradiction|];
  match goal with
  | |- context [NewRequest ?c ?m ?p ?b] =>
      let E := fresh "Hreq" in
      destruct (NewRequest c m p b) as [e|req] eqn:E;
      [apply NewRequest_notInvalidOptions in E; cbn [fst snd];
       intros Heq; inversion Heq; subst; contradiction|]
  end;
  match goal with
  | |- context [Do ?c ?ctx ?req ?v ?wire] =>
      pose proof (Do_notInvalidOptions c ctx req v wire decodes_) as Hd;
      destruct (Do c ctx req v wire) as [[[resp [e|]] target] w];
      cbn [fst snd] in *;
      [intros Heq; inversion Heq; subst; contradiction|]
  end.

(** X17.  An [ErrorInvalidOptions] comes from the guards of a service
    and from nowhere else: when [GetUsers], [GetFollowedStreams] or
    [GetStreamKey] returns one, it carries the options of the call and
    nothing was handed to the transport; [GetStreams], which has no
    guard, never returns one. *)
Theorem ErrorInvalidOptions_before_sending s ctx wire o m :
  (forall opts,
     snd (fst (users.GetUsers s ctx opts wire)) = Some (ErrorInvalidOptions o m) ->
     o = ofUsersOptions opts
     /\ snd (users.GetUsers s ctx opts wire) = wire)
  /\ (forall opts,
        snd (fst (GetStreams s ctx opts wire)) <> Some (ErrorInvalidOptions o m))
  /\ (forall opts,
        snd (fst (GetFollowedStreams s ctx opts wire))
        = Some (ErrorInvalidOptions o m) ->
        o = ofStreamsOptions opts
        /\ snd (GetFollowedStreams s ctx opts wire) = wire)
  /\ (forall opts key r,
        fst (streams.GetStreamKey s ctx opts wire)
        = streams.Returns (key, r, Some (ErrorInvalidOptions o m)) ->
        o = ofBroadcasterID opts
        /\ snd (streams.GetStreamKey s ctx opts wire) = wire).
Proof.
  split; [|split; [|split]]; intros opts.
  - unfold users.GetUsers.
    destruct (match opts with None => true | Some _ => _ end);
      [cbn [fst snd]; intros [= <- <-]; split; reflexivity|].
    destruct (100 <? _);
      [cbn [fst snd]; intros [= <- <-]; split; reflexivity|].
    past_the_guard (UsersResponse_decodes (tz := tz)). discriminate.
  - unfold GetStreams.
    past_the_guard (StreamsResponse_decodes (tz := tz)). discriminate.
  - unfold GetFollowedStreams.
    destruct (match opts with None => true | Some _ => _ end);
      [cbn [fst snd]; intros [= <- <-]; split; reflexivity|].
    past_the_guard (StreamsResponse_decodes (tz := tz)). discriminate.
  - intros key r. unfold streams.GetStreamKey.
    destruct (match opts with None => true | Some _ => _ end);
      [cbn [fst snd]; intros [= _ _ <- <-]; split; reflexivity|].
    past_the_guard StreamKeyResponse_decodes.
    destruct (streams.firstKey _); cbn [fst]; discriminate.
Qed.

End InvalidOptions.

(** A call that was refused for its options: nothing was sent. *)
Lemma ErrorInvalidOptions_of_nil_options :
  let call :=
    users.GetUsers (tz := Examples.utc) (lib := Examples.plainURLs)
      (mkService (Examples.answering 200 Examples.emptyData))
      (Some context.Background) None [Examples.get "streams"] in
  snd (fst call)
  = Some (ErrorInvalidOptions (ofUsersOptions None) userIdLoginIsRequired)
  /\ snd call = [Examples.get "streams"].
Proof.
  intros call. split; [reflexivity|].
  apply (proj1 (ErrorInvalidOptions_before_sending (tz := Examples.utc)
                  (lib := Examples.plainURLs)
                  (mkService (Examples.answering 200 Examples.emptyData))
                  (Some context.Background) [Examples.get "streams"]
                  (ofUsersOptions None) userIdLoginIsRequired) None).
  reflexivity.
Defined.

(** ** The streams service: the key that the server sends *)

Lemma scanString_plain k rest :
  plainText k = true ->
  json.scanString (k +:+ String Strings.quote rest) = json.Done k rest.
Proof.
  unfold plainText. induction k as [|c k IH]; intros Hk.
  - reflexivity.
  - cbn [Strings.forallb] in Hk.
    apply andb_prop in Hk as [[[[Hq Hb]%andb_prop Hc]%andb_prop _]%andb_prop Hk].
    apply negb_true_iff in Hq, Hb, Hc.
    rewrite append_cons. cbn [json.scanString]. rewrite Hq, Hb, Hc, (IH Hk).
    reflexivity.
Qed.

Lemma unquote_plain k : plainText k = true -> json.unquote k = k.
Proof.
  unfold plainText. induction k as [|c k IH]; intros Hk; [reflexivity|].
  cbn [Strings.forallb] in Hk.
  apply andb_prop in Hk as [[[[_ Hb]%andb_prop _]%andb_prop _]%andb_prop Hk].
  apply negb_true_iff in Hb.
  cbn [json.unquote]. rewrite Hb, (IH Hk). reflexivity.
Qed.

Lemma quoted_append s t :
  Examples.quoted s +:+ t = String Strings.quote (s +:+ String Strings.quote t).
Proof.
  unfold Examples.quoted. rewrite append_cons. f_equal.
  induction s as [|c s IH]; [reflexivity|]. rewrite !append_cons, IH. reflexivity.
Qed.

Lemma skipSpace_nonspace c r :
  json.isSpace c = false -> json.skipSpace (String c r) = String c r.
Proof. intros H. cbn [json.skipSpace]. rewrite H. reflexivity. Qed.

Lemma scanString_quote rest :
  json.scanString (String Strings.quote rest) = json.Done "" rest.
Proof. reflexivity. Qed.

Lemma scanString_char c rest :
  plainText (String c "") = true ->
  json.scanString (String c rest)
  = json.andThen (json.scanString rest) (fun w r => json.Done (String c w) r).
Proof.
  unfold plainText. cbn [Strings.forallb]. rewrite andb_true_r.
  intros [[[Hq Hb]%andb_prop Hc]%andb_prop _]%andb_prop.
  apply negb_true_iff in Hq, Hb, Hc.
  cbn [json.scanString]. rewrite Hq, Hb, Hc. reflexivity.
Qed.

(** Reading a body whose text is given but for some plain strings:
    the scanner is run step by step. *)
Ltac read_json :=
  rewrite ?quoted_append; rewrite ?append_cons, ?append_nil;
  unfold json.readValue; rewrite skipSpace_nonspace by reflexivity;
  match goal with
  | |- context [json.scanValue ?fuel _] =>
      let Hfuel := fresh "Hfuel" in
      let m := fresh "m" in
      assert (Hfuel : exists m, fuel = (12 + m)%nat)
        by (exists (fuel - 12)%nat; cbn [String.length]; lia);
      destruct Hfuel as [m ->]
  end;
  repeat first
    [ progress cbn [json.scanValue json.scanMembers json.scanElements
                    json.andThen Ascii.eqb Bool.eqb andb orb Nat.add]
    | progress unfold json.afterValue
    | rewrite skipSpace_nonspace by reflexivity
    | rewrite scanString_quote
    | rewrite scanString_plain by assumption
    | rewrite scanString_char by reflexivity ];
  repeat match goal with
         | H : plainText ?k = true |- _ => rewrite (unquote_plain k H)
         end.

(** The envelope of one key reads as an object with an array of one
    object, whose member is the key. *)
Lemma readValue_streamKeyBody k :
  plainText k = true ->
  exists r1 r2 r3 r4,
    json.readValue (streamKeyBody k)
    = json.ReadValue
        (json.Object r1
           [("data", json.Array r2
                       [json.Object r3 [("stream_key", json.Str r4 k)]])]).
Proof.
  intros Hk. unfold streamKeyBody. read_json. do 4 eexists. reflexivity.
Qed.

Lemma readValue_cursorBody c :
  plainText c = true ->
  exists r1 r2 r3 r4,
    json.readValue (cursorBody c)
    = json.ReadValue
        (json.Object r1
           [("data", json.Array r2 []);
            ("pagination", json.Object r3 [("cursor", json.Str r4 c)])]).
Proof.
  intros Hc. unfold cursorBody. read_json. do 4 eexists. reflexivity.
Qed.

Lemma readValue_userBody id login :
  plainText id = true -> plainText login = true ->
  exists r1 r2 r3 r4 r5,
    json.readValue (userBody id login)
    = json.ReadValue
        (json.Object r1
           [("data", json.Array r2
                       [json.Object r3 [("id", json.Str r4 id);
                                        ("login", json.Str r5 login)]])]).
Proof.
  intros Hid Hlogin. unfold userBody. read_json. do 5 eexists. reflexivity.
Qed.

Lemma Decode_streamKeyBody k :
  plainText k = true ->
  decode.Decode (streamKeyBody k)
    (decode.pointerTo (streams.mkStreamKeyResponse None))
  = (decode.pointerTo
       (streams.mkStreamKeyResponse (Some [Some (streams.mkKeyItem k)])),
     None).
Proof.
  intros Hk. unfold decode.Decode.
  destruct (readValue_streamKeyBody k Hk) as (r1 & r2 & r3 & r4 & ->).
  reflexivity.
Qed.

Lemma requestPath_BroadcasterID (o : BroadcasterID) :
  Id o <> "" ->
  requestPath streams.getStreamKeyPath (Some o)
  = "streams/key?broadcaster_id=" +:+ url.QueryEscape (Id o).
Proof.
  intros Hid. unfold requestPath, pairs, query.fields, BroadcasterID_Struct.
  cbn [flat_map]. unfold fieldPairs.
  cbn [query.omitempty query.value query.name query.isEmptyValue andb].
  destruct (String.eqb_spec (Id o) ""); [contradiction|]. reflexivity.
Qed.

Section StreamKey.
Context {lib : url.Library}.

(** X18.  When the options carry a broadcaster identifier and the
    server answers with a status code from 200 to 299 and the envelope
    of one stream key, a text of plain ASCII, [GetStreamKey] returns
    that key with the response wrapper and no error.  The request it
    has sent is the [GET] for [streams/key] with the identifier,
    escaped, as [broadcaster_id]. *)
Theorem GetStreamKey_returns_the_key (s : service) cx (o : BroadcasterID)
    wire req resp k :
  Id o <> "" ->
  NewRequest (client s) http.MethodGet
    ("streams/key?broadcaster_id=" +:+ url.QueryEscape (Id o))
    (@None Empty_set) = inr req ->
  HTTPClient (client s) (http.WithContext req cx) = inr resp ->
  200 <= http.StatusCode resp <= 299 ->
  http.RespBody resp = streamKeyBody k ->
  plainText k = true ->
  streams.GetStreamKey s (Some cx) (Some o) wire
  = (streams.Returns (k, Some (NewResponse resp), None),
     (wire ++ [http.WithContext req cx])%list).
Proof.
  intros Hid Hreq Hresp Hs%isSuccess_NewResponse Hbody Hk.
  unfold streams.GetStreamKey.
  destruct (String.eqb_spec (Id o) ""); [contradiction|].
  rewrite (addParams_requestPath streams.getStreamKeyPath (Some o) eq_refl
             BroadcasterID_fieldsInKeyOrder).
  rewrite (requestPath_BroadcasterID o Hid), Hreq.
  unfold Do. rewrite Hresp, Hs, Hbody. cbn [negb].
  rewrite (Decode_streamKeyBody k Hk). reflexivity.
Qed.

End StreamKey.

(** The key [live_12_abc] for the broadcaster [12]. *)
Lemma GetStreamKey_returns_a_key :
  exists req,
    NewRequest (lib := Examples.plainURLs)
      (Examples.answering 200 (streamKeyBody "live_12_abc")) http.MethodGet
      "streams/key?broadcaster_id=12" (@None Empty_set) = inr req
    /\ streams.GetStreamKey (lib := Examples.plainURLs)
         (mkService (Examples.answering 200 (streamKeyBody "live_12_abc")))
         (Some context.Background) (Some (mkBroadcasterID "12")) []
       = (streams.Returns
            ("live_12_abc",
             Some (NewResponse (http.mkResponse 200 ∅ (streamKeyBody "live_12_abc"))),
             None),
          [http.WithContext req context.Background]).
Proof.
  eexists. split; [vm_compute; reflexivity|].
  apply (GetStreamKey_returns_the_key (lib := Examples.plainURLs)
           (mkService (Examples.answering 200 (streamKeyBody "live_12_abc")))
           context.Background (mkBroadcasterID "12") []).
  - discriminate.
  - vm_compute. reflexivity.
  - reflexivity.
  - cbn [http.StatusCode]. lia.
  - reflexivity.
  - reflexivity.
Defined.

(** ** The listings and the users that the server sends *)

Lemma Decode_cursorBody {tz : LocalZone} c :
  plainText c = true ->
  decode.Decode (cursorBody c)
    (decode.pointerTo (stream.mkStreamsResponse None (mkPagination "")))
  = (decode.pointerTo (stream.mkStreamsResponse (Some []) (mkPagination c)),
     None).
Proof.
  intros Hc. unfold decode.Decode.
  destruct (readValue_cursorBody c Hc) as (r1 & r2 & r3 & r4 & ->).
  reflexivity.
Qed.

Lemma Decode_userBody {tz : LocalZone} id login :
  plainText id = true -> plainText login = true ->
  decode.Decode (userBody id login)
    (decode.pointerTo (users.mkUsersResponse None))
  = (decode.pointerTo
       (users.mkUsersResponse
          (Some [Some (users.mkUser "" "" "" id login "" "" "" 0 ""
                         (mkTimestamp time.zeroTime))])),
     None).
Proof.
  intros Hid Hlogin. unfold decode.Decode.
  destruct (readValue_userBody id login Hid Hlogin)
    as (r1 & r2 & r3 & r4 & r5 & ->).
  reflexivity.
Qed.

Section Listings.
Context {tz : LocalZone} {lib : url.Library}.

(** X19.  When the server answers a listing with a status code from 200
    to 299 and an envelope without streams whose pagination carries a
    cursor, a text of plain ASCII, [GetStreams] returns the envelope
    with an empty list of streams and that cursor, the response
    wrapper and no error, whatever the options; so does
    [GetFollowedStreams] for options with a user identifier. *)
Theorem listings_return_the_cursor (s : service) cx (opts : option StreamsOptions)
    wire resp c :
  200 <= http.StatusCode resp <= 299 ->
  http.RespBody resp = cursorBody c ->
  plainText c = true ->
  (forall req,
     NewRequest (client s) http.MethodGet
       (requestPath streams.getStreamsPath opts) (@None Empty_set) = inr req ->
     HTTPClient (client s) (http.WithContext req cx) = inr resp ->
     GetStreams s (Some cx) opts wire
     = ((Some (stream.mkStreamsResponse (Some []) (mkPagination c)),
         Some (NewResponse resp), None),
        (wire ++ [http.WithContext req cx])%list))
  /\ (forall req o,
        opts = Some o -> UserId o <> "" ->
        NewRequest (client s) http.MethodGet
          (requestPath streams.getFollowedStreamsPath opts) (@None Empty_set)
        = inr req ->
        HTTPClient (client s) (http.WithContext req cx) = inr resp ->
        GetFollowedStreams s (Some cx) opts wire
        = ((Some (stream.mkStreamsResponse (Some []) (mkPagination c)),
            Some (NewResponse resp), None),
           (wire ++ [http.WithContext req cx])%list)).
Proof.
  intros Hs%isSuccess_NewResponse Hbody Hc. split.
  - intros req Hreq Hresp. unfold GetStreams.
    rewrite (addParams_requestPath streams.getStreamsPath opts eq_refl
               StreamsOptions_fieldsInKeyOrder).
    rewrite Hreq. unfold Do. rewrite Hresp, Hs, Hbody. cbn [negb].
    rewrite (Decode_cursorBody c Hc). reflexivity.
  - intros req o -> Hid Hreq Hresp. unfold GetFollowedStreams.
    destruct (String.eqb_spec (UserId o) ""); [contradiction|].
    rewrite (addParams_requestPath streams.getFollowedStreamsPath (Some o) eq_refl
               StreamsOptions_fieldsInKeyOrder).
    rewrite Hreq. unfold Do. rewrite Hresp, Hs, Hbody. cbn [negb].
    rewrite (Decode_cursorBody c Hc). reflexivity.
Qed.

(** X20.  When the options name at least one identifier or login and at
    most 100 together, and the server answers with a status code from
    200 to 299 and the envelope of one user with an identifier and a
    login of plain ASCII, [GetUsers] returns that one user, with the
    identifier and the login sent and every other field zero, the
    response wrapper and no error. *)
Theorem GetUsers_returns_the_user (s : service) cx (o : UsersOptions)
    wire req resp id login :
  Ids o <> None \/ Logins o <> None ->
  combinedCount o <= 100 ->
  NewRequest (client s) http.MethodGet
    (requestPath users.getUsersPath (Some o)) (@None Empty_set) = inr req ->
  HTTPClient (client s) (http.WithContext req cx) = inr resp ->
  200 <= http.StatusCode resp <= 299 ->
  http.RespBody resp = userBody id login ->
  plainText id = true -> plainText login = true ->
  users.GetUsers s (Some cx) (Some o) wire
  = ((Some [Some (users.mkUser "" "" "" id login "" "" "" 0 ""
                    (mkTimestamp time.zeroTime))],
      Some (NewResponse resp), None),
     (wire ++ [http.WithContext req cx])%list).
Proof.
  intros Hsome Hn Hreq Hresp Hs%isSuccess_NewResponse Hbody Hid Hlogin.
  unfold users.GetUsers.
  assert (Hguard : match Ids o, Logins o with
                   | None, None => true
                   | _, _ => false
                   end = false).
  { destruct (Ids o), (Logins o); try reflexivity. destruct Hsome; contradiction. }
  rewrite Hguard. fold (combinedCount o).
  destruct (Z.ltb_spec 100 (combinedCount o)); [lia|].
  rewrite (addParams_requestPath users.getUsersPath (Some o) eq_refl
             UsersOptions_fieldsInKeyOrder).
  rewrite Hreq. unfold Do. rewrite Hresp, Hs, Hbody. cbn [negb].
  rewrite (Decode_userBody id login Hid Hlogin). reflexivity.
Qed.

End Listings.

(** A first page of followed streams that ends with the cursor
    [eyJiI]. *)
Lemma GetFollowedStreams_returns_a_cursor :
  let c := Examples.answering 200 (cursorBody "eyJiI") in
  let opts := Some (mkStreamsOptions "" "" 0 "" "" "12" "") in
  exists req,
    NewRequest (lib := Examples.plainURLs) c http.MethodGet
      "streams/followed?user_id=12" (@None Empty_set) = inr req
    /\ GetFollowedStreams (tz := Examples.utc) (lib := Examples.plainURLs)
         (mkService c) (Some context.Background) opts []
       = ((Some (stream.mkStreamsResponse (Some []) (mkPagination "eyJiI")),
           Some (NewResponse (http.mkResponse 200 ∅ (cursorBody "eyJiI"))), None),
          [http.WithContext req context.Background]).
Proof.
  intros c opts. eexists. split; [vm_compute; reflexivity|].
  apply (proj2 (listings_return_the_cursor (tz := Examples.utc)
                  (lib := Examples.plainURLs) (mkService c) context.Background
                  opts [] (http.mkResponse 200 ∅ (cursorBody "eyJiI")) "eyJiI"
                  ltac:(cbn [http.StatusCode]; lia) eq_refl eq_refl)
           _ (mkStreamsOptions "" "" 0 "" "" "12" "")).
  - reflexivity.
  - discriminate.
  - vm_compute. reflexivity.
  - reflexivity.
Defined.

(** The user [aboba] with the identifier [12], looked up by login. *)
Lemma GetUsers_returns_a_user :
  let c := Examples.answering 200 (userBody "12" "aboba") in
  exists req,
    NewRequest (lib := Examples.plainURLs) c http.MethodGet
      "users?id=aboba" (@None Empty_set) = inr req
    /\ users.GetUsers (tz := Examples.utc) (lib := Examples.plainURLs)
         (mkService c) (Some context.Background)
         (Some (mkUsersOptions None (Some ["aboba"]))) []
       = ((Some [Some (users.mkUser "" "" "" "12" "aboba" "" "" "" 0 ""
                         (mkTimestamp time.zeroTime))],
           Some (NewResponse (http.mkResponse 200 ∅ (userBody "12" "aboba"))),
           None),
          [http.WithContext req context.Background]).
Proof.
  intros c. eexists. split; [vm_compute; reflexivity|].
  apply (GetUsers_returns_the_user (tz := Examples.utc)
           (lib := Examples.plainURLs) (mkService c) context.Background
           (mkUsersOptions None (Some ["aboba"])) []).
  - right. discriminate.
  - vm_compute. discriminate.
  - vm_compute. reflexivity.
  - reflexivity.
  - cbn [http.StatusCode]. lia.
  - reflexivity.
  - reflexivity.
  - reflexivity.
Defined.

(** ** client.go: NewClient *)

Section NewClientProperties.
Context {lib : url.Library} {transports : Transports}.

(** X21.  [NewClient] refuses credentials with an empty client
    identifier, and credentials with an empty client secret, each with
    an [ErrorEmptyCredentials] that names the field, the identifier
    first when both are empty; it returns no other error, and has
    started no ticker when it returns one. *)
Theorem NewClient_requires_credentials creds httpClient :
  (ClientId creds = "" ->
   NewClient creds httpClient
   = Some (inl (ErrorEmptyCredentials "ClientId"), false))
  /\ (ClientId creds <> "" -> ClientSecret creds = "" ->
      NewClient creds httpClient
      = Some (inl (ErrorEmptyCredentials "ClientSecret"), false))
  /\ (forall e ticker,
        NewClient creds httpClient = Some (inl e, ticker) ->
        ticker = false
        /\ (ClientId creds = "" /\ e = ErrorEmptyCredentials "ClientId"
            \/ ClientId creds <> "" /\ ClientSecret creds = ""
               /\ e = ErrorEmptyCredentials "ClientSecret"))
  /\ Error (ErrorEmptyCredentials "ClientId")
     = Some "Message: ClientId field is required"
  /\ Error (ErrorEmptyCredentials "ClientSecret")
     = Some "Message: ClientSecret field is required".
Proof.
  unfold NewClient. split; [|split; [|split; [|split; reflexivity]]].
  - intros ->. reflexivity.
  - intros Hid ->. destruct (String.eqb_spec (ClientId creds) ""); [contradiction|].
    reflexivity.
  - intros e ticker.
    destruct (String.eqb_spec (ClientId creds) "") as [Hid|Hid].
    { intros [= <- <-]. auto. }
    destruct (String.eqb_spec (ClientSecret creds) "") as [Hs|Hs].
    { intros [= <- <-]. auto. }
    destruct (url.Parse defaultAuthURL) as [?|authURL]; [discriminate|].
    destruct (url.Parse defaultBaseURL) as [?|baseURL]; [discriminate|].
    destruct (OAuthToken creds); discriminate.
Qed.

Hypothesis api_host : url.parseAuthority "api.twitch.tv" = inr (None, "api.twitch.tv").
Hypothesis id_host : url.parseAuthority "id.twitch.tv" = inr (None, "id.twitch.tv").

Lemma Parse_defaultBaseURL :
  url.Parse defaultBaseURL
  = inr (url.mkURL "https" "" None "api.twitch.tv" "/helix/" "" false false "" "" "").
Proof.
  unfold defaultBaseURL. lazy -[url.parseAuthority]. rewrite api_host. reflexivity.
Qed.

Lemma Parse_defaultAuthURL :
  url.Parse defaultAuthURL
  = inr (url.mkURL "https" "" None "id.twitch.tv" "/oauth2/" "" false false "" "" "").
Proof.
  unfold defaultAuthURL. lazy -[url.parseAuthority]. rewrite id_host. reflexivity.
Qed.

(** X22.  With a client identifier and a client secret, and a [net/url]
    that reads the two hosts of Twitch as they are, [NewClient] returns
    a client that keeps the credentials, has the user agent of the
    package and the two addresses of Twitch.  Its HTTP client is the
    one that [oauth2] builds for the token when the credentials carry
    one, whatever client was passed in; without a token it is the
    client passed in, or the one that [clientcredentials] builds when
    none was passed; the plain [http.Client] is never used.  A ticker
    is started exactly when there is a token. *)
Theorem NewClient_client creds httpClient :
  ClientId creds <> "" -> ClientSecret creds <> "" ->
  exists c,
    NewClient creds httpClient
    = Some (inr c, match OAuthToken creds with Some _ => true | None => false end)
    /\ credentials c = creds
    /\ UserAgent c = userAgent
    /\ url.String_ (BaseURL c) = defaultBaseURL
    /\ url.String_ (AuthURL c) = defaultAuthURL
    /\ HTTPClient c
       = match OAuthToken creds, httpClient with
         | Some token, _ =>
             tokenClient (ClientId creds) (ClientSecret creds) defaultAuthURL token
         | None, Some h => h
         | None, None => credentialsClient (ClientId creds) (ClientSecret creds)
         end.
Proof.
  intros Hid Hs. unfold NewClient.
  destruct (String.eqb_spec (ClientId creds) ""); [contradiction|].
  destruct (String.eqb_spec (ClientSecret creds) ""); [contradiction|].
  rewrite Parse_defaultAuthURL, Parse_defaultBaseURL.
  destruct (OAuthToken creds) as [token|]; [|destruct httpClient as [h|]];
    eexists; (split; [reflexivity|]); repeat split.
Qed.

End NewClientProperties.

(** The credentials of the tests that must fail. *)
Lemma NewClient_without_identifier :
  NewClient (lib := Examples.plainURLs) (transports := sampleTransports)
    (mkCredentials "" "" None) None
  = Some (inl (ErrorEmptyCredentials "ClientId"), false).
Proof.
  apply (proj1 (NewClient_requires_credentials (lib := Examples.plainURLs)
                  (transports := sampleTransports)
                  (mkCredentials "" "" None) None)).
  reflexivity.
Defined.

(** A token and a client passed in: the client of the token wins. *)
Lemma NewClient_with_token_and_client :
  let creds := mkCredentials "ClientId" "ClientSecret" (Some "token") in
  let passed : Transport := fun _ => inr (http.mkResponse 204 ∅ "") in
  exists c,
    NewClient (lib := Examples.plainURLs) (transports := sampleTransports)
      creds (Some passed)
    = Some (inr c, true)
    /\ credentials c = creds
    /\ UserAgent c = userAgent
    /\ url.String_ (BaseURL c) = defaultBaseURL
    /\ url.String_ (AuthURL c) = defaultAuthURL
    /\ HTTPClient c
       = tokenClient (Transports := sampleTransports)
           "ClientId" "ClientSecret" defaultAuthURL "token".
Proof.
  intros creds passed.
  apply (NewClient_client (lib := Examples.plainURLs)
           (transports := sampleTransports) eq_refl eq_refl creds (Some passed));
    discriminate.
Defined.
